(** * Humor-model scripts: the fine-tuner and the ONNX converter

    A shallow embedding of [scripts/fine-tune-model.py] and
    [scripts/convert-humor-model-to-onnx.py].

    Both scripts are linear pipelines that print, read the file system and
    the terminal, and call into third-party libraries (transformers,
    datasets, torch, sklearn, optimum).  They are embedded as programs of a
    small monad [Py] that records, in order, every observable action in a
    log and ends in one of three ways: a value, [exit(code)], or an
    uncaught exception.  What the libraries answer is taken from an
    environment record, so that every statement below holds whatever the
    libraries return. *)

From Stdlib Require Import String Ascii List ZArith QArith Qround Bool Lia Permutation.
From Stdlib Require Import Reals Lra.
From ExtLib Require Import Structures.Monad Structures.MonadExc.
Import ListNotations.
Import MonadNotation.

Local Open Scope string_scope.
Local Open Scope list_scope.
Local Open Scope monad_scope.

Set Warnings "-register-all".

(** ** Python values and exceptions *)

(** An exception instance: the name of its class, the names of the classes
    that class derives from, nearest first, and its message. *)
Record exn : Type :=
  Instance { exn_class : string; exn_bases : list string; exn_msg : string }.

(** [isinstance(e, cls)]: [cls] is the class of [e] or one of its bases. *)
Definition isinstance (e : exn) (cls : string) : bool :=
  String.eqb (exn_class e) cls || existsb (String.eqb cls) (exn_bases e).

(** The bases of the built-in exception classes the scripts can meet.
    [KeyboardInterrupt], [SystemExit] and [GeneratorExit] derive from
    [BaseException] and not from [Exception]; a name that is not listed
    stands for a class that derives from [Exception] directly. *)
Definition builtin_bases (cls : string) : list string :=
  let among names := existsb (String.eqb cls) names in
  if among ["BaseException"] then []
  else if among ["KeyboardInterrupt"; "SystemExit"; "GeneratorExit"] then ["BaseException"]
  else if among ["Exception"] then ["BaseException"]
  else if among ["ModuleNotFoundError"] then ["ImportError"; "Exception"; "BaseException"]
  else if among ["KeyError"; "IndexError"] then ["LookupError"; "Exception"; "BaseException"]
  else if among ["ZeroDivisionError"] then ["ArithmeticError"; "Exception"; "BaseException"]
  else if among ["FileNotFoundError"; "IsADirectoryError"; "PermissionError"]
       then ["OSError"; "Exception"; "BaseException"]
  else if among ["JSONDecodeError"] then ["ValueError"; "Exception"; "BaseException"]
  else ["Exception"; "BaseException"].

(** An instance of a built-in class. *)
Definition Exn (cls msg : string) : exn := Instance cls (builtin_bases cls) msg.
Arguments Exn : simpl never.

(** The ways a Python computation ends: with a value, with the [exit(code)]
    or [sys.exit(code)] of the script (a [SystemExit], which neither
    [except Exception] nor [except ImportError] catches), or with an
    exception. *)
Inductive outcome (A : Type) : Type :=
| Ret (a : A)
| Exit (code : Z)
| Raise (e : exn).
Arguments Ret {A} a.
Arguments Exit {A} code.
Arguments Raise {A} e.

(** What a library call answers: an exception or a value. *)
Definition answer (A : Type) : Type := (exn + A)%type.

(** The values [json.loads] produces.  A [dict] is kept as an association
    list whose first binding of a key is the one the dict holds. *)
Inductive json : Type :=
| JNull
| JBool (b : bool)
| JInt (z : Z)
| JFloat (q : Q)
| JString (s : string)
| JArray (l : list json)
| JObject (kv : list (string * json)).

Fixpoint dict_get (k : string) (kv : list (string * json)) : option json :=
  match kv with
  | [] => None
  | (k', v) :: rest => if String.eqb k k' then Some v else dict_get k rest
  end.

(** [d[k]] for a string key [k]: a [KeyError] on a dict without the key, a
    [TypeError] on anything that is not a dict. *)
Definition getitem (d : json) (k : string) : answer json :=
  match d with
  | JObject kv =>
      match dict_get k kv with
      | Some v => inr v
      | None => inl (Exn "KeyError" k)
      end
  | JArray _ => inl (Exn "TypeError" "list indices must be integers or slices, not str")
  | JString _ => inl (Exn "TypeError" "string indices must be integers, not 'str'")
  | _ => inl (Exn "TypeError" "object is not subscriptable")
  end.

(** [v == 1]: true for the int 1, the float 1.0 and [True]. *)
Definition eq_one (v : json) : bool :=
  match v with
  | JInt z => (z =? 1)%Z
  | JFloat q => Qeq_bool q 1
  | JBool b => b
  | _ => false
  end.

(** ** Strings *)

Definition nl : string := String "010"%char EmptyString.
Definition dquote : string := String "034"%char EmptyString.

(** A Python [str] is a sequence of code points; here it is held as its
    UTF-8 encoding, as the literals of the scripts are and as the lines of a
    file opened with [encoding='utf-8'] are.  [points s] are the code points
    of [s] and [of_points l] is the string of the code points [l].  A byte that
    is not part of a well-formed encoding, which a [str] never holds, is
    read as the code point U+DC00 + byte and written back as that byte. *)
Definition byte (n : N) : ascii := ascii_of_N n.

Definition continuation (b : ascii) : bool :=
  ((128 <=? N_of_ascii b) && (N_of_ascii b <=? 191))%N.

(** The code point at the head of a non-empty string and the number of
    bytes it takes. *)
Definition head_point (a : ascii) (r : string) : N * nat :=
  (let n := N_of_ascii a in
   let stray := (56320 + n, 1%nat) in
   if n <? 128 then (n, 1%nat)
   else if (194 <=? n) && (n <=? 223) then
     match r with
     | String b _ =>
         if continuation b
         then ((n - 192) * 64 + (N_of_ascii b - 128), 2%nat)
         else stray
     | _ => stray
     end
   else if (224 <=? n) && (n <=? 239) then
     match r with
     | String b (String c _) =>
         let p := (n - 224) * 4096 + (N_of_ascii b - 128) * 64 + (N_of_ascii c - 128) in
         if continuation b && continuation c && (2048 <=? p)
            && negb ((55296 <=? p) && (p <=? 57343))
         then (p, 3%nat)
         else stray
     | _ => stray
     end
   else if (240 <=? n) && (n <=? 244) then
     match r with
     | String b (String c (String d _)) =>
         let p := (n - 240) * 262144 + (N_of_ascii b - 128) * 4096
                  + (N_of_ascii c - 128) * 64 + (N_of_ascii d - 128) in
         if continuation b && continuation c && continuation d
            && (65536 <=? p) && (p <=? 1114111)
         then (p, 4%nat)
         else stray
     | _ => stray
     end
   else stray)%N.

(** [skip] is the number of bytes still to pass of the code point being
    read. *)
Fixpoint points_from (skip : nat) (s : string) : list N :=
  match s with
  | EmptyString => []
  | String a r =>
      match skip with
      | S k => points_from k r
      | O => fst (head_point a r) :: points_from (snd (head_point a r) - 1) r
      end
  end.

Definition points (s : string) : list N := points_from 0 s.

Definition utf8 (c : N) : string :=
  (if c <? 128 then String (byte c) EmptyString
   else if c <? 2048 then
     String (byte (192 + c / 64)) (String (byte (128 + c mod 64)) EmptyString)
   else if (56448 <=? c) && (c <=? 56575) then String (byte (c - 56320)) EmptyString
   else if c <? 65536 then
     String (byte (224 + c / 4096))
       (String (byte (128 + (c / 64) mod 64))
          (String (byte (128 + c mod 64)) EmptyString))
   else
     String (byte (240 + c / 262144))
       (String (byte (128 + (c / 4096) mod 64))
          (String (byte (128 + (c / 64) mod 64))
             (String (byte (128 + c mod 64)) EmptyString))))%N.

Fixpoint of_points (l : list N) : string :=
  match l with
  | [] => EmptyString
  | c :: r => utf8 c ++ of_points r
  end.

(** [str.isspace] on one character, by code point: the ASCII white space
    U+0009-U+000D and U+0020, the separators U+001C-U+001F, and the Unicode
    white space U+0085, U+00A0, U+1680, U+2000-U+200A, U+2028, U+2029,
    U+202F, U+205F and U+3000. *)
Definition isspace (c : N) : bool :=
  ((9 <=? c) && (c <=? 13) || (28 <=? c) && (c <=? 32)
   || (c =? 133) || (c =? 160) || (c =? 5760)
   || (8192 <=? c) && (c <=? 8202)
   || (c =? 8232) || (c =? 8233) || (c =? 8239) || (c =? 8287) || (c =? 12288))%N.

(** [str.strip()]: the white space at both ends is removed. *)
Fixpoint lstrip_points (l : list N) : list N :=
  match l with
  | [] => []
  | c :: r => if isspace c then lstrip_points r else l
  end.

Definition rstrip_points (l : list N) : list N := rev (lstrip_points (rev l)).

Definition strip (s : string) : string :=
  of_points (rstrip_points (lstrip_points (points s))).

(** Truth value of a string: non-empty. *)
Definition truthy (s : string) : bool :=
  match s with EmptyString => false | _ => true end.

(** [str.lower] on ASCII letters; the bytes of other characters are left
    as they are.  The scripts compare the result with [y] only, and no
    character outside ASCII has [y] as its lower case. *)
Definition lower_char (c : ascii) : ascii :=
  let n := nat_of_ascii c in
  if ((65 <=? n) && (n <=? 90))%nat then ascii_of_nat (n + 32) else c.

Definition upper_char (c : ascii) : ascii :=
  let n := nat_of_ascii c in
  if ((97 <=? n) && (n <=? 122))%nat then ascii_of_nat (n - 32) else c.

Fixpoint lower (s : string) : string :=
  match s with
  | EmptyString => EmptyString
  | String c r => String (lower_char c) (lower r)
  end.

(** ** Observable actions *)

(** The pieces of a printed line: literal text and the interpolated values
    of an f-string.  [FFix d q] and
    [FReal d r] are a number printed with [d] decimals, [FAbsolute p] is the
    absolute form of the path [p]. *)
Inductive frag : Type :=
| Lit (s : string)
| FStr (s : string)
| FInt (z : Z)
| FFix (digits : nat) (q : Q)
| FNum (q : Q)
| FReal (digits : nat) (r : R)
| FAbsolute (path : string)
| FExn (e : exn).

Inductive event : Type :=
| Print (line : list frag)
| PrintTraceback (e : exn)
| Input (prompt : list frag)
| PathExists (path : string)
| OpenRead (path : string)
| Mkdir (path : string)
| LoadTokenizer (name : string)
| LoadModel (name : string)
| ExportOnnx (name : string)
| SaveOnnx (dir : string)
| SaveTokenizer (dir : string)
| Encode (text : string)
| Infer (text : string)
| FromDict (rows : nat)
| Tokenize (rows : nat)
| TrainTestSplit (rows : nat) (seed : Z)
| NewTrainer (dir : string) (use_cpu : bool)
| TrainerTrain
| TrainerEvaluate
| TrainerSave (dir : string).

(** Loading the tokenizer or the model. *)
Definition is_load (e : event) : bool :=
  match e with
  | LoadTokenizer _ | LoadModel _ => true
  | _ => false
  end.

(** Preparing the datasets, building the trainer, training and what comes
    after it. *)
Definition is_training (e : event) : bool :=
  match e with
  | FromDict _ | Tokenize _ | TrainTestSplit _ _ | NewTrainer _ _
  | TrainerTrain | TrainerEvaluate | TrainerSave _ | SaveTokenizer _ => true
  | _ => false
  end.

Definition is_print (e : event) : bool :=
  match e with
  | Print _ => true
  | _ => false
  end.

(** ** The monad of a script run *)

(** The state of a run: the lines the operator has yet to type and the
    log, oldest action first, of what the script has done so far. *)
Record world : Type := World { unread : list string; log : list event }.

(** A step takes the state and gives how it ended and the new state. *)
Definition Py (A : Type) : Type := world -> outcome A * world.

Definition py_ret {A} (a : A) : Py A := fun w => (Ret a, w).

Definition py_bind {A B} (m : Py A) (f : A -> Py B) : Py B :=
  fun w =>
    match m w with
    | (Ret a, w') => f a w'
    | (Exit c, w') => (Exit c, w')
    | (Raise e, w') => (Raise e, w')
    end.

Definition py_raise {A} (e : exn) : Py A := fun w => (Raise e, w).

(** The handler [h] takes over when [m] ends with an exception; an exit
    passes through. *)
Definition py_catch {A} (m : Py A) (h : exn -> Py A) : Py A :=
  fun w =>
    match m w with
    | (Raise e, w') => h e w'
    | r => r
    end.

#[global] Instance Monad_Py : Monad Py :=
  {| ret := @py_ret; bind := @py_bind |}.

#[global] Instance MonadExc_Py : MonadExc exn Py :=
  {| raise := @py_raise; catch := @py_catch |}.

(** [try: m except cls as e: h e]: an exception that is not an instance
    of [cls] passes through, and so does an exit. *)
Definition try_except {A} (m : Py A) (cls : string) (h : exn -> Py A) : Py A :=
  catch m (fun e => if isinstance e cls then h e else raise e).

(** [exit(code)] and [sys.exit(code)]. *)
Definition exit {A} (code : Z) : Py A := fun w => (Exit code, w).

Definition emit (e : event) : Py unit :=
  fun w => (Ret tt, World (unread w) (log w ++ [e])).

Definition print (line : list frag) : Py unit := emit (Print line).

(** A library call: logged, then its answer or its exception. *)
Definition call {A} (e : event) (a : answer A) : Py A :=
  emit e ;;
  match a with
  | inl x => raise x
  | inr v => ret v
  end.

(** A step that can raise and does nothing else. *)
Definition lift {A} (a : answer A) : Py A :=
  match a with
  | inl x => raise x
  | inr v => ret v
  end.

(** [input(prompt)]: the next line the operator types, [EOFError] when
    there is none. *)
Definition input (prompt : list frag) : Py string :=
  fun w =>
    match unread w with
    | [] => (Raise (Exn "EOFError" "EOF when reading a line"),
             World [] (log w ++ [Input prompt]))
    | l :: rest => (Ret l, World rest (log w ++ [Input prompt]))
    end.

(** A run from the start: the operator will type [typed], nothing has
    happened yet. *)
Definition start (typed : list string) : world := World typed [].

(** ** The file system *)

Inductive node : Type :=
| Dir
| File (lines : list string).

(** [str.startswith], [str.replace] (all occurrences, left to right, for a
    non-empty [old]) and [str.capitalize]. *)
Definition startswith (s p : string) : bool := String.prefix p s.

Fixpoint replace_from (old new : string) (skip : nat) (s : string) : string :=
  match s with
  | EmptyString => EmptyString
  | String c r =>
      match skip with
      | S k => replace_from old new k r
      | O =>
          if String.prefix old s
          then new ++ replace_from old new (String.length old - 1) r
          else String c (replace_from old new 0 r)
      end
  end.

Definition replace (s old new : string) : string := replace_from old new 0 s.

Definition capitalize (s : string) : string :=
  match s with
  | EmptyString => EmptyString
  | String c r => String (upper_char c) (lower r)
  end.

Fixpoint repeat_string (s : string) (n : nat) : string :=
  match n with
  | O => EmptyString
  | S k => s ++ repeat_string s k
  end.

(** Running the steps of a list in order, stopping at the first that does
    not return. *)
Fixpoint for_each {A} (f : A -> Py unit) (l : list A) : Py unit :=
  match l with
  | [] => ret tt
  | x :: rest => f x ;; for_each f rest
  end.

(** A list comprehension whose element expression can raise. *)
Fixpoint traverse {A B} (f : A -> answer B) (l : list A) : answer (list B) :=
  match l with
  | [] => inr []
  | x :: rest =>
      match f x with
      | inl e => inl e
      | inr y =>
          match traverse f rest with
          | inl e => inl e
          | inr ys => inr (y :: ys)
          end
      end
  end.

(** * The fine-tuner: [scripts/fine-tune-model.py] *)

Module FineTune.

(** Handles on what the transformers library loads. *)
Record tokenizer : Type := Tokenizer { tokenizer_name : string }.
Record model : Type :=
  Model { model_name : string; num_labels : Z; id2label : list (Z * string) }.

(** A row of the tokenized dataset. *)
Record row : Type := Row { text : json; label : json; input_ids : list Z }.

Record training_arguments : Type := TrainingArguments {
  output_dir : string;
  num_train_epochs : Z;
  per_device_train_batch_size : Z;
  per_device_eval_batch_size : Z;
  learning_rate : Q;
  weight_decay : Q;
  eval_strategy : string;
  save_strategy : string;
  load_best_model_at_end : bool;
  metric_for_best_model : string;
  logging_dir : string;
  logging_steps : Z;
  save_total_limit : Z;
  report_to : string;
  use_cpu : bool
}.

(** The [args] that [parser.parse_args()] returns. *)
Record arguments : Type := Arguments {
  arg_data : string;
  arg_output : string;
  arg_epochs : Z;
  arg_batch_size : Z;
  arg_learning_rate : Q;
  arg_gpu : bool
}.

Definition default_arguments : arguments :=
  {| arg_data := "training-data.jsonl";
     arg_output := "models/humor-detector-custom";
     arg_epochs := 3;
     arg_batch_size := 8;
     arg_learning_rate := 2 # 100000;
     arg_gpu := false |}.

(** What surrounds one run of the script: the machine, the file system and
    the answers of the libraries. *)
Record env : Type := Env {
  cuda_is_available : bool;
  fs : string -> option node;
  json_loads : string -> answer json;
  tokenizer_from_pretrained : string -> answer tokenizer;
  model_from_pretrained : string -> Z -> list (Z * string) -> answer model;
  from_dict : list json -> list json -> answer unit;
  encode : tokenizer -> json -> nat -> answer (list Z);
  permutation : Z -> nat -> list nat;
  trainer_new : training_arguments -> answer unit;
  trainer_train : list row -> list row -> answer unit;
  trainer_evaluate : list row -> answer (list (string * Q));
  trainer_save_model : string -> answer unit;
  tokenizer_save_pretrained : string -> answer unit
}.

Section Script.

Variable E : env.

(** [open(path, 'r')] followed by iteration over the lines. *)
Definition open_read (path : string) : Py (list string) :=
  call (OpenRead path)
    match fs E path with
    | Some (File lines) => inr lines
    | Some Dir => inl (Exn "IsADirectoryError" path)
    | None => inl (Exn "FileNotFoundError" path)
    end.

Definition path_exists (path : string) : Py bool :=
  call (PathExists path)
    (inr match fs E path with Some _ => true | None => false end).

(** The loop of lines 53-55, [data] being the list built so far. *)
Fixpoint read_lines (lines : list string) (data : list json) : Py (list json) :=
  match lines with
  | [] => ret data
  | line :: rest =>
      if truthy (strip line)
      then v <- lift (json_loads E line) ;; read_lines rest (data ++ [v])
      else read_lines rest data
  end.

Definition load_training_data (data_path : string) : Py (list json) :=
  found <- path_exists data_path ;;
  (if negb found then
     print [Lit "❌ Training data not found: "; FStr data_path] ;;
     print [Lit nl; Lit "Generate training data first:"] ;;
     print [Lit "  node scripts/export-training-data.js"] ;;
     exit 1
   else ret tt) ;;
  lines <- open_read data_path ;;
  data <- read_lines lines [] ;;
  (if (length data <? 20)%nat then
     print [Lit "⚠️  Warning: Only "; FInt (Z.of_nat (length data));
            Lit " training examples found."] ;;
     print [Lit "   Recommendation: Collect 20-30+ feedback samples for best results."] ;;
     response <- input [Lit nl; Lit "Continue anyway? (y/N): "] ;;
     if negb (String.eqb (lower response) "y") then exit 0 else ret tt
   else ret tt) ;;
  ret data.

(** What the loader is meant to compute: a line is blank when all its
    characters are white space, and the dataset is the decoding, in file
    order, of the lines that are not blank. *)
Definition blank (line : string) : bool :=
  forallb isspace (points line).

Definition decoded (lines : list string) : answer (list json) :=
  traverse (json_loads E) (filter (fun line => negb (blank line)) lines).

(** What the operator sees when the dataset file is missing, and when the
    dataset has [n] examples, fewer than 20. *)
Definition not_found_report (data_path : string) : list event :=
  [ Print [Lit "❌ Training data not found: "; FStr data_path];
    Print [Lit nl; Lit "Generate training data first:"];
    Print [Lit "  node scripts/export-training-data.js"] ].

Definition low_data_dialogue (n : nat) : list event :=
  [ Print [Lit "⚠️  Warning: Only "; FInt (Z.of_nat n); Lit " training examples found."];
    Print [Lit "   Recommendation: Collect 20-30+ feedback samples for best results."];
    Input [Lit nl; Lit "Continue anyway? (y/N): "] ].

(** An answer to the prompt counts as a yes when it is [y] or [Y]. *)
Definition affirmative (response : string) : bool :=
  String.eqb response "y" || String.eqb response "Y".

(** The local [base_model] of [main]. *)
Definition base_model : string := "mohameddhiab/humor-no-humor".

(** What [main] prints before it loads anything. *)
Definition opening (gpu cuda : bool) (device : string) : list event :=
  [ Print [Lit (repeat_string "=" 70)];
    Print [Lit "FINE-TUNE HUMOR DETECTION MODEL"];
    Print [Lit (repeat_string "=" 70)];
    Print [Lit nl; Lit "Device: "; FStr device] ]
  ++ (if gpu && negb cuda
      then [Print [Lit "⚠️  GPU requested but not available, using CPU"]]
      else [])
  ++ [ Print [Lit nl; Lit "Loading base model: "; FStr base_model] ].

(** *** The libraries behind [prepare_dataset] *)

(** [dataset.map(tokenize_function, batched=True)]: every text is encoded,
    padded and truncated to [max_length] tokens; the first text the
    tokenizer refuses raises. *)
Definition tokenize (tok : tokenizer) (max_length : nat)
    (texts labels : list json) : answer (list row) :=
  traverse
    (fun tl : json * json =>
       match encode E tok (fst tl) max_length with
       | inl e => inl e
       | inr ids => inr (Row (fst tl) (snd tl) ids)
       end)
    (combine texts labels).

(** [Dataset.select]: the rows at the given positions, in that order.  A
    position outside the rows, which a permutation of the positions never
    holds, selects nothing. *)
Definition select (rows : list row) (indices : list nat) : list row :=
  flat_map
    (fun i => match nth_error rows i with Some r => [r] | None => [] end)
    indices.

(** [Dataset.train_test_split(test_size=f, seed=s)] of the datasets
    library, for a float [test_size] and no [train_size]: a dataset without
    rows is returned as both parts; otherwise the fraction must
    lie strictly between 0 and 1, the test part gets [ceil(f * n)] rows and
    the train part the rest, an empty train part is refused with a
    [ValueError], and the rows are dealt out along the permutation of
    [0..n-1] that a generator seeded with [s] draws: first the test rows,
    then the train rows.  The product [f * n] is taken exactly; for
    [f = 0.1] the float product has the same ceiling for every [n] below two
    million. *)
Definition train_test_split (rows : list row) (test_size : Q) (seed : Z)
    : answer (list row * list row) :=
  let n_samples := length rows in
  if (n_samples =? 0)%nat then inr (rows, rows)
  else if Qle_bool test_size 0 || Qle_bool 1 test_size then
    inl (Exn "ValueError" "test_size should be in the (0, 1) range")
  else
    let n_test := Z.to_nat (Qceiling (test_size * inject_Z (Z.of_nat n_samples))) in
    let n_train := (n_samples - n_test)%nat in
    if (n_samples <? n_train + n_test)%nat then
      inl (Exn "ValueError" "the sum of train_size and test_size is too large")
    else if (n_train =? 0)%nat then
      inl (Exn "ValueError" "the resulting train set will be empty")
    else
      let perm := permutation E seed n_samples in
      let test_indices := firstn n_test perm in
      let train_indices := firstn n_train (skipn n_test perm) in
      inr (select rows train_indices, select rows test_indices).

Definition prepare_dataset (data : list json) (tok : tokenizer) (val_split : Q)
    : Py (list row * list row) :=
  texts <- lift (traverse (fun item => getitem item "text") data) ;;
  labels <- lift (traverse (fun item => getitem item "label") data) ;;
  call (FromDict (length data)) (from_dict E texts labels) ;;
  tokenized <- call (Tokenize (length data)) (tokenize tok 128 texts labels) ;;
  split <- call (TrainTestSplit (length tokenized) 42)
             (train_test_split tokenized val_split 42) ;;
  ret (fst split, snd split).

(** The default of the [val_split] parameter. *)
Definition val_split_default : Q := 1 # 10.

(** *** The libraries behind [compute_metrics] *)

(** [numpy.argmax] of one row of scores: the position of the first largest
    score, a [ValueError] on an empty row. *)
Fixpoint argmax_from (best : Q) (best_i i : nat) (scores : list Q) : nat :=
  match scores with
  | [] => best_i
  | x :: rest =>
      if Qle_bool x best then argmax_from best best_i (S i) rest
      else argmax_from x i (S i) rest
  end.

Definition argmax (scores : list Q) : answer Z :=
  match scores with
  | [] => inl (Exn "ValueError" "attempt to get argmax of an empty sequence")
  | x :: rest => inr (Z.of_nat (argmax_from x 0 1 rest))
  end.

(** How many positions of the two vectors satisfy [p]. *)
Definition count_pairs (p : Z -> Z -> bool) (y_true y_pred : list Z) : Z :=
  Z.of_nat (length (filter (fun tp => p (fst tp) (snd tp)) (combine y_true y_pred))).

Definition true_positives := count_pairs (fun t p => (t =? 1) && (p =? 1))%Z.
Definition false_positives := count_pairs (fun t p => negb (t =? 1) && (p =? 1))%Z.
Definition false_negatives := count_pairs (fun t p => (t =? 1) && negb (p =? 1))%Z.

(** A ratio of counts, 0 when the denominator is 0 (the library's
    [zero_division] default). *)
Definition ratio (num den : Z) : Q :=
  if (den =? 0)%Z then 0 else inject_Z num / inject_Z den.

Definition checked (y_true y_pred : list Z) (q : Q) : answer Q :=
  if (length y_true =? length y_pred)%nat then inr q
  else inl (Exn "ValueError" "Found input variables with inconsistent numbers of samples").

(** Modelled from the spec: the four scores of sklearn.metrics, which is
    not part of the repository, by the standard binary-classification
    formulas with label 1 as the positive class.  Accuracy is the fraction
    of positions where prediction and label agree, precision is
    tp / (tp + fp), recall is tp / (tp + fn), and F1 is the harmonic mean of
    precision and recall. *)
Definition accuracy_score (y_true y_pred : list Z) : answer Q :=
  checked y_true y_pred
    (ratio (count_pairs Z.eqb y_true y_pred) (Z.of_nat (length y_true))).

Definition precision_of (y_true y_pred : list Z) : Q :=
  ratio (true_positives y_true y_pred)
        (true_positives y_true y_pred + false_positives y_true y_pred).

Definition recall_of (y_true y_pred : list Z) : Q :=
  ratio (true_positives y_true y_pred)
        (true_positives y_true y_pred + false_negatives y_true y_pred).

Definition precision_score (y_true y_pred : list Z) : answer Q :=
  checked y_true y_pred (precision_of y_true y_pred).

Definition recall_score (y_true y_pred : list Z) : answer Q :=
  checked y_true y_pred (recall_of y_true y_pred).

Definition f1_score (y_true y_pred : list Z) : answer Q :=
  let p := precision_of y_true y_pred in
  let r := recall_of y_true y_pred in
  checked y_true y_pred
    (if Qeq_bool (p + r) 0 then 0 else 2 * p * r / (p + r)).

(** The dict [compute_metrics] returns. *)
Record metrics : Type := Metrics {
  accuracy : Q;
  f1 : Q;
  precision : Q;
  recall : Q
}.

Definition compute_metrics (eval_pred : list (list Q) * list Z) : answer metrics :=
  let '(predictions, labels) := eval_pred in
  match traverse argmax predictions with
  | inl e => inl e
  | inr predictions =>
      match accuracy_score labels predictions with
      | inl e => inl e
      | inr a =>
      match f1_score labels predictions with
      | inl e => inl e
      | inr f =>
      match precision_score labels predictions with
      | inl e => inl e
      | inr p =>
      match recall_score labels predictions with
      | inl e => inl e
      | inr r => inr (Metrics a f p r)
      end end end end
  end.

(** *** [main]

    [main E args] is [main] from line 117 on, once [parser.parse_args()] of
    line 115 has returned [args]; the parsing is [parse_args] below, with
    the entry of the script. *)

(** [sum(1 for d in data if d['label'] == 1)], [acc] being the sum so far. *)
Fixpoint count_positive (data : list json) (acc : Z) : answer Z :=
  match data with
  | [] => inr acc
  | d :: rest =>
      match getitem d "label" with
      | inl e => inl e
      | inr v => count_positive rest (if eq_one v then acc + 1 else acc)%Z
      end
  end.

(** [positive / negative] on ints. *)
Definition truediv (a b : Z) : answer Q :=
  if (b =? 0)%Z then inl (Exn "ZeroDivisionError" "division by zero")
  else inr (inject_Z a / inject_Z b).

Definition main (args : arguments) : Py unit :=
  print [Lit (repeat_string "=" 70)] ;;
  print [Lit "FINE-TUNE HUMOR DETECTION MODEL"] ;;
  print [Lit (repeat_string "=" 70)] ;;
  (* Check for GPU *)
  let device := if arg_gpu args && cuda_is_available E then "cuda" else "cpu" in
  print [Lit nl; Lit "Device: "; FStr device] ;;
  (if arg_gpu args && negb (cuda_is_available E) then
     print [Lit "⚠️  GPU requested but not available, using CPU"]
   else ret tt) ;;
  (* Load base model *)
  print [Lit nl; Lit "Loading base model: "; FStr base_model] ;;
  tokenizer <- call (LoadTokenizer base_model)
                 (tokenizer_from_pretrained E base_model) ;;
  model <- call (LoadModel base_model)
             (model_from_pretrained E base_model 2
                [(0, "NO_HUMOR"); (1, "HUMOR")]%Z) ;;
  (* Load training data *)
  print [Lit nl; Lit "Loading training data: "; FStr (arg_data args)] ;;
  data <- load_training_data (arg_data args) ;;
  print [Lit "  Total examples: "; FInt (Z.of_nat (length data))] ;;
  positive <- lift (count_positive data 0) ;;
  let negative := (Z.of_nat (length data) - positive)%Z in
  print [Lit "  Positive (HUMOR): "; FInt positive] ;;
  print [Lit "  Negative (NO_HUMOR): "; FInt negative] ;;
  class_ratio <- lift (truediv positive negative) ;;
  print [Lit "  Class ratio: "; FFix 2 class_ratio; Lit ":1"] ;;
  (* Prepare datasets *)
  print [Lit nl; Lit "Preparing datasets..."] ;;
  datasets <- prepare_dataset data tokenizer val_split_default ;;
  let train_dataset := fst datasets in
  let val_dataset := snd datasets in
  print [Lit "  Training samples: "; FInt (Z.of_nat (length train_dataset))] ;;
  print [Lit "  Validation samples: "; FInt (Z.of_nat (length val_dataset))] ;;
  (* Training arguments and trainer *)
  let output_dir := arg_output args in
  let training_args :=
    {| output_dir := output_dir;
       num_train_epochs := arg_epochs args;
       per_device_train_batch_size := arg_batch_size args;
       per_device_eval_batch_size := arg_batch_size args;
       learning_rate := arg_learning_rate args;
       weight_decay := 1 # 100;
       eval_strategy := "epoch";
       save_strategy := "epoch";
       load_best_model_at_end := true;
       metric_for_best_model := "f1";
       logging_dir := output_dir ++ "/logs";
       logging_steps := 10;
       save_total_limit := 2;
       report_to := "none";
       use_cpu := String.eqb device "cpu" |} in
  call (NewTrainer output_dir (use_cpu training_args))
    (trainer_new E training_args) ;;
  (* Train *)
  print [Lit nl; Lit (repeat_string "-" 70)] ;;
  print [Lit "TRAINING"] ;;
  print [Lit (repeat_string "-" 70)] ;;
  print [Lit "Epochs: "; FInt (arg_epochs args)] ;;
  print [Lit "Batch size: "; FInt (arg_batch_size args)] ;;
  print [Lit "Learning rate: "; FNum (arg_learning_rate args)] ;;
  print [Lit nl; Lit "Starting training... (this may take 5-30 minutes)"; Lit nl] ;;
  call TrainerTrain (trainer_train E train_dataset val_dataset) ;;
  (* Evaluate *)
  print [Lit nl; Lit (repeat_string "-" 70)] ;;
  print [Lit "EVALUATION"] ;;
  print [Lit (repeat_string "-" 70)] ;;
  eval_results <- call TrainerEvaluate (trainer_evaluate E val_dataset) ;;
  print [Lit nl; Lit "Final validation metrics:"] ;;
  for_each
    (fun kv : string * Q =>
       if startswith (fst kv) "eval_" then
         let metric_name := capitalize (replace (fst kv) "eval_" "") in
         print [Lit "  "; FStr metric_name; Lit ": "; FFix 4 (snd kv)]
       else ret tt)
    eval_results ;;
  (* Save *)
  print [Lit nl; Lit (repeat_string "-" 70)] ;;
  print [Lit "SAVING MODEL"] ;;
  print [Lit (repeat_string "-" 70)] ;;
  call (TrainerSave output_dir) (trainer_save_model E output_dir) ;;
  call (SaveTokenizer output_dir) (tokenizer_save_pretrained E output_dir) ;;
  print [Lit nl; Lit "✓ Fine-tuned model saved to: "; FStr output_dir] ;;
  print [Lit nl; Lit "Next steps:"] ;;
  print [Lit "  1. Convert to ONNX: python scripts/convert-humor-model-to-onnx.py --custom"] ;;
  print [Lit "  2. Test with: node src/scripts/testHumorScorer.ts"] ;;
  print [Lit "  3. Deploy: .\scripts\restart-clean.ps1"] ;;
  print [Lit nl; Lit (repeat_string "=" 70)].

(** *** Vocabulary of the statements about [main] *)

(** The log of [main] up to the moment it calls the loader, when the
    tokenizer and the model load. *)
Definition preamble (args : arguments) : list event :=
  opening (arg_gpu args) (cuda_is_available E)
    (if arg_gpu args && cuda_is_available E then "cuda" else "cpu")
  ++ [ LoadTokenizer base_model;
       LoadModel base_model;
       Print [Lit nl; Lit "Loading training data: "; FStr (arg_data args)] ].

(** What [main] prints about the classes after the loader has returned
    [n] examples of which [positive] have label 1. *)
Definition class_counts (n : nat) (positive : Z) : list event :=
  [ Print [Lit "  Total examples: "; FInt (Z.of_nat n)];
    Print [Lit "  Positive (HUMOR): "; FInt positive];
    Print [Lit "  Negative (NO_HUMOR): "; FInt (Z.of_nat n - positive)] ].

End Script.

(** A run that ends in a fatal error without having loaded the tokenizer or
    the model: a non-zero exit status, something printed, no load in the
    log. *)
Definition fatal_before_loading (r : outcome unit * world) : Prop :=
  (exists code, fst r = Exit code /\ code <> 0%Z) /\
  existsb is_print (log (snd r)) = true /\
  existsb is_load (log (snd r)) = false.

(** A record that has the two required fields. *)
Definition has_fields (d : json) : Prop :=
  (exists t, getitem d "text" = inr t) /\ (exists l, getitem d "label" = inr l).

(** A record whose label compares equal to 1, and one whose label is the
    int 0 or the int 1. *)
Definition label_is_one (d : json) : bool :=
  match getitem d "label" with
  | inr v => eq_one v
  | inl _ => false
  end.

Definition label_is_binary (d : json) : Prop :=
  getitem d "label" = inr (JInt 0) \/ getitem d "label" = inr (JInt 1).

End FineTune.

(** * The converter: [scripts/convert-humor-model-to-onnx.py] *)

Module Convert.

Record tokenizer : Type := Tokenizer { tokenizer_name : string }.
Record model : Type := Model { model_name : string; id2label : list (Z * string) }.
Record onnx_model : Type := OnnxModel { onnx_name : string }.

(** What surrounds one run of the converter.  [forward] is the row of class
    scores ([outputs.logits], of shape 1 x classes) the exported model gives
    for an encoded text; the scores are taken as real numbers. *)
Record env : Type := Env {
  imports : answer unit;
  mkdir : string -> answer unit;
  tokenizer_from_pretrained : string -> answer tokenizer;
  model_from_pretrained : string -> answer model;
  onnx_from_pretrained : string -> answer onnx_model;
  onnx_save_pretrained : onnx_model -> string -> answer unit;
  tokenizer_save_pretrained : tokenizer -> string -> answer unit;
  encode : tokenizer -> string -> answer (list Z);
  forward : onnx_model -> list Z -> answer (list R)
}.

(** [torch.argmax] of one row of scores: the position of the first largest
    score. *)
Fixpoint argmax_from (best : R) (best_i i : nat) (scores : list R) : nat :=
  match scores with
  | [] => best_i
  | x :: rest =>
      if Rle_dec x best then argmax_from best best_i (S i) rest
      else argmax_from x i (S i) rest
  end.

Definition argmax (scores : list R) : answer nat :=
  match scores with
  | [] => inl (Exn "IndexError" "argmax(): Expected reduction dim 1 to have non-zero size")
  | x :: rest => inr (argmax_from x 0 1 rest)
  end.

(** [torch.nn.functional.softmax] of one row of scores. *)
Definition sum_exp (scores : list R) : R :=
  fold_right (fun x acc => (exp x + acc)%R) 0%R scores.

Definition softmax (scores : list R) : list R :=
  map (fun x => (exp x / sum_exp scores)%R) scores.

Fixpoint lookup_label (k : Z) (d : list (Z * string)) : answer string :=
  match d with
  | [] => inl (Exn "KeyError" "id2label")
  | (k', v) :: rest => if (k =? k')%Z then inr v else lookup_label k rest
  end.

Definition MODEL_NAME : string := "mohameddhiab/humor-no-humor".
Definition OUTPUT_DIR : string := "models/humor-detector".

Definition test_texts : list string :=
  [ "This is hilarious! I can't stop laughing!";
    "The quarterly financial report shows steady growth.";
    "Why did the chicken cross the road? To get to the other side!" ].

Section Script.

Variable E : env.

(** The body of the loop of lines 68-79. *)
Definition test_one (tokenizer : tokenizer) (model : model)
    (onnx_model : onnx_model) (text : string) : Py unit :=
  inputs <- call (Encode text) (encode E tokenizer text) ;;
  logits <- call (Infer text) (forward E onnx_model inputs) ;;
  predicted_class <- lift (argmax logits) ;;
  let probabilities := softmax logits in
  label <- lift (lookup_label (Z.of_nat predicted_class) (id2label model)) ;;
  let confidence := nth predicted_class probabilities 0%R in
  print [Lit nl; Lit "   Text: "; Lit dquote; FStr (substring 0 60 text);
         Lit "..."; Lit dquote] ;;
  print [Lit "   Prediction: "; FStr label; Lit " ("; FReal 3 confidence; Lit ")"].

(** The body of the [try] block of lines 39-85. *)
Definition pipeline : Py unit :=
  (* Step 1: Load the original model *)
  print [Lit "1️⃣  Loading original PyTorch model..."] ;;
  tokenizer <- call (LoadTokenizer MODEL_NAME) (tokenizer_from_pretrained E MODEL_NAME) ;;
  model <- call (LoadModel MODEL_NAME) (model_from_pretrained E MODEL_NAME) ;;
  print [Lit "   ✓ Model loaded successfully"] ;;
  (* Step 2: Export to ONNX format using Optimum *)
  print [Lit nl; Lit "2️⃣  Converting to ONNX format..."] ;;
  onnx_model <- call (ExportOnnx MODEL_NAME) (onnx_from_pretrained E MODEL_NAME) ;;
  print [Lit "   ✓ Conversion successful"] ;;
  (* Step 3: Save the ONNX model and tokenizer *)
  print [Lit nl; Lit "3️⃣  Saving ONNX model and tokenizer..."] ;;
  call (SaveOnnx OUTPUT_DIR) (onnx_save_pretrained E onnx_model OUTPUT_DIR) ;;
  call (SaveTokenizer OUTPUT_DIR) (tokenizer_save_pretrained E tokenizer OUTPUT_DIR) ;;
  print [Lit "   ✓ Saved to "; FAbsolute OUTPUT_DIR] ;;
  (* Step 4: Test the converted model *)
  print [Lit nl; Lit "4️⃣  Testing converted model..."] ;;
  for_each (test_one tokenizer model onnx_model) test_texts ;;
  print [Lit nl; Lit "✅ Model conversion complete!"] ;;
  print [Lit nl; Lit "📝 Next steps:"] ;;
  print [Lit "   1. The model is saved in: "; FAbsolute OUTPUT_DIR] ;;
  print [Lit "   2. Update humorScorer.ts to use: '"; FStr OUTPUT_DIR; Lit "'"] ;;
  print [Lit "   3. Run: npm run test:humor"].

Definition convert_model : Py unit :=
  try_except
    (lift (imports E) ;;
     print [Lit "✓ All required packages imported successfully"])
    "ImportError"
    (fun e =>
       print [Lit "✗ Missing required package: "; FExn e] ;;
       print [Lit nl; Lit "Please install required packages:"] ;;
       print [Lit "  pip install transformers torch onnx optimum[exporters]"] ;;
       exit 1) ;;
  print [Lit nl; Lit "📦 Converting model: "; FStr MODEL_NAME] ;;
  print [Lit "📁 Output directory: "; FStr OUTPUT_DIR; Lit nl] ;;
  (* Create output directory *)
  call (Mkdir OUTPUT_DIR) (mkdir E OUTPUT_DIR) ;;
  try_except pipeline "Exception"
    (fun e =>
       print [Lit nl; Lit "✗ Error during conversion: "; FExn e] ;;
       emit (PrintTraceback e) ;;
       exit 1).

(** The script: lines 93-96. *)
Definition script : Py unit :=
  print [Lit "🔄 Humor Detection Model Converter"] ;;
  print [Lit (repeat_string "=" 50)] ;;
  convert_model.

(** *** Vocabulary of the statements about the converter *)

(** What the smoke test logs for one sentence: the encoding, the run of the
    exported model, and the two printed lines. *)
Definition prediction_report (text label : string) (confidence : R) : list event :=
  [ Encode text;
    Infer text;
    Print [Lit nl; Lit "   Text: "; Lit dquote; FStr (substring 0 60 text);
           Lit "..."; Lit dquote];
    Print [Lit "   Prediction: "; FStr label; Lit " ("; FReal 3 confidence; Lit ")"] ].

(** [label] and [confidence] are what the exported model predicts for
    [text]: the label of the class with the largest score and the softmax
    probability of that class. *)
Definition predicted (tokenizer : tokenizer) (model : model)
    (onnx_model : onnx_model) (text : string) (p : string * R) : Prop :=
  exists inputs logits predicted_class,
    encode E tokenizer text = inr inputs /\
    forward E onnx_model inputs = inr logits /\
    argmax logits = inr predicted_class /\
    lookup_label (Z.of_nat predicted_class) (id2label model) = inr (fst p) /\
    snd p = nth predicted_class (softmax logits) 0%R.

(** What the smoke test is meant to print for [text], in the words of the
    specification and without the functions of the script: the scores of the
    exported model for the encoded text have a first largest entry, at
    position [k]; the label is the one the model's [id2label] holds for [k],
    and the confidence is the softmax probability of class [k], the
    exponential of its score over the sum of the exponentials of all
    scores. *)
Definition first_largest (scores : list R) (k : nat) : Prop :=
  (k < length scores)%nat /\
  (forall j, (j < length scores)%nat -> (nth j scores 0 <= nth k scores 0)%R) /\
  (forall j, (j < k)%nat -> (nth j scores 0 < nth k scores 0)%R).

Definition softmax_probability (scores : list R) (k : nat) : R :=
  (exp (nth k scores 0) / fold_right Rplus 0 (map exp scores))%R.

Definition is_prediction (tokenizer : tokenizer) (model : model)
    (onnx_model : onnx_model) (text : string) (p : string * R) : Prop :=
  exists inputs logits k,
    encode E tokenizer text = inr inputs /\
    forward E onnx_model inputs = inr logits /\
    first_largest logits k /\
    find (fun kv => (fst kv =? Z.of_nat k)%Z) (id2label model)
      = Some (Z.of_nat k, fst p) /\
    snd p = softmax_probability logits k.

(** What [convert_model] logs before the [try] block of the pipeline, when
    the imports and [mkdir] succeed. *)
Definition before_pipeline : list event :=
  [ Print [Lit "✓ All required packages imported successfully"];
    Print [Lit nl; Lit "📦 Converting model: "; FStr MODEL_NAME];
    Print [Lit "📁 Output directory: "; FStr OUTPUT_DIR; Lit nl];
    Mkdir OUTPUT_DIR ].

(** What the pipeline logs up to each of its library calls, the call
    included, when the calls before it succeed. *)
Definition upto_tokenizer : list event :=
  [ Print [Lit "1️⃣  Loading original PyTorch model..."];
    LoadTokenizer MODEL_NAME ].

Definition upto_model : list event := upto_tokenizer ++ [LoadModel MODEL_NAME].

Definition upto_export : list event :=
  upto_model
  ++ [ Print [Lit "   ✓ Model loaded successfully"];
       Print [Lit nl; Lit "2️⃣  Converting to ONNX format..."];
       ExportOnnx MODEL_NAME ].

Definition upto_save_model : list event :=
  upto_export
  ++ [ Print [Lit "   ✓ Conversion successful"];
       Print [Lit nl; Lit "3️⃣  Saving ONNX model and tokenizer..."];
       SaveOnnx OUTPUT_DIR ].

Definition upto_save_tokenizer : list event :=
  upto_save_model ++ [SaveTokenizer OUTPUT_DIR].

Definition upto_test : list event :=
  upto_save_tokenizer
  ++ [ Print [Lit "   ✓ Saved to "; FAbsolute OUTPUT_DIR];
       Print [Lit nl; Lit "4️⃣  Testing converted model..."] ].

(** What the pipeline prints after the smoke test. *)
Definition closing : list event :=
  [ Print [Lit nl; Lit "✅ Model conversion complete!"];
    Print [Lit nl; Lit "📝 Next steps:"];
    Print [Lit "   1. The model is saved in: "; FAbsolute OUTPUT_DIR];
    Print [Lit "   2. Update humorScorer.ts to use: '"; FStr OUTPUT_DIR; Lit "'"];
    Print [Lit "   3. Run: npm run test:humor"] ].

(** What the handler of the pipeline logs for the exception [e]. *)
Definition error_report (e : exn) : list event :=
  [ Print [Lit nl; Lit "✗ Error during conversion: "; FExn e];
    PrintTraceback e ].

End Script.

End Convert.

(** * A decoder and environments to run the scripts on

    The statements below hold for every environment.  To run the scripts on
    concrete inputs, this section gives a decoder for the fragment of JSON
    made of objects, arrays, strings without escapes, integers, [true],
    [false] and [null] (anything else is reported as a decode error), and
    environments in which every library call succeeds. *)

Module Json.

Definition is_ws (c : ascii) : bool :=
  let n := nat_of_ascii c in
  ((n =? 32) || (n =? 9) || (n =? 10) || (n =? 13))%nat.

Fixpoint skip_ws (s : string) : string :=
  match s with
  | EmptyString => EmptyString
  | String c r => if is_ws c then skip_ws r else s
  end.

Definition is_digit (c : ascii) : bool :=
  let n := nat_of_ascii c in ((48 <=? n) && (n <=? 57))%nat.

Definition digit_value (c : ascii) : Z := Z.of_nat (nat_of_ascii c - 48).

(** The digits at the head of [s], read in base ten after [acc]. *)
Fixpoint read_digits (s : string) (acc : Z) : Z * string :=
  match s with
  | String c r =>
      if is_digit c then read_digits r (10 * acc + digit_value c)%Z else (acc, s)
  | EmptyString => (acc, s)
  end.

(** The characters up to the closing quote; escapes and control characters
    are outside the fragment. *)
Fixpoint read_string (s : string) : option (string * string) :=
  match s with
  | EmptyString => None
  | String c r =>
      if Ascii.eqb c "034" then Some (EmptyString, r)
      else if Ascii.eqb c "\" || (nat_of_ascii c <? 32)%nat then None
      else match read_string r with
           | Some (body, rest) => Some (String c body, rest)
           | None => None
           end
  end.

(** A number of the fragment: an optional minus sign, then [0] or digits
    that do not start with [0], and no fraction or exponent. *)
Definition read_int (s : string) : option (Z * string) :=
  let '(neg, s1) :=
    match s with
    | String "-" r => (true, r)
    | _ => (false, s)
    end in
  match s1 with
  | String c r =>
      if is_digit c then
        let '(n, rest) := if Ascii.eqb c "0" then (0%Z, r) else read_digits s1 0 in
        match rest with
        | String d _ =>
            if is_digit d || Ascii.eqb d "." || Ascii.eqb d "e" || Ascii.eqb d "E"
            then None
            else Some (if neg then (- n)%Z else n, rest)
        | EmptyString => Some (if neg then (- n)%Z else n, rest)
        end
      else None
  | EmptyString => None
  end.

(** A later binding of a key replaces the earlier one. *)
Fixpoint dict_set (k : string) (v : json) (kv : list (string * json))
    : list (string * json) :=
  match kv with
  | [] => [(k, v)]
  | (k', v') :: rest =>
      if String.eqb k k' then (k, v) :: rest else (k', v') :: dict_set k v rest
  end.

Definition after_prefix (p s : string) : option string :=
  if String.prefix p s
  then Some (substring (String.length p) (String.length s - String.length p) s)
  else None.

(** One value at the head of [s], and what follows it. *)
Fixpoint parse_value (fuel : nat) (s : string) : option (json * string) :=
  match fuel with
  | O => None
  | S fuel =>
      match skip_ws s with
      | EmptyString => None
      | String c r =>
          if Ascii.eqb c "{" then
            match skip_ws r with
            | String "}" r' => Some (JObject [], r')
            | r' => parse_members fuel r' []
            end
          else if Ascii.eqb c "[" then
            match skip_ws r with
            | String "]" r' => Some (JArray [], r')
            | r' => parse_elements fuel r' []
            end
          else if Ascii.eqb c "034" then
            match read_string r with
            | Some (body, rest) => Some (JString body, rest)
            | None => None
            end
          else if Ascii.eqb c "t" then
            option_map (fun rest => (JBool true, rest)) (after_prefix "true" (String c r))
          else if Ascii.eqb c "f" then
            option_map (fun rest => (JBool false, rest)) (after_prefix "false" (String c r))
          else if Ascii.eqb c "n" then
            option_map (fun rest => (JNull, rest)) (after_prefix "null" (String c r))
          else
            match read_int (String c r) with
            | Some (z, rest) => Some (JInt z, rest)
            | None => None
            end
      end
  end

with parse_members (fuel : nat) (s : string) (acc : list (string * json))
    : option (json * string) :=
  match fuel with
  | O => None
  | S fuel =>
      match skip_ws s with
      | String "034" r =>
          match read_string r with
          | Some (key, rest) =>
              match skip_ws rest with
              | String ":" rest' =>
                  match parse_value fuel rest' with
                  | Some (v, rest'') =>
                      match skip_ws rest'' with
                      | String "," more => parse_members fuel more (dict_set key v acc)
                      | String "}" more => Some (JObject (dict_set key v acc), more)
                      | _ => None
                      end
                  | None => None
                  end
              | _ => None
              end
          | None => None
          end
      | _ => None
      end
  end

with parse_elements (fuel : nat) (s : string) (acc : list json)
    : option (json * string) :=
  match fuel with
  | O => None
  | S fuel =>
      match parse_value fuel s with
      | Some (v, rest) =>
          match skip_ws rest with
          | String "," more => parse_elements fuel more (acc ++ [v])
          | String "]" more => Some (JArray (acc ++ [v]), more)
          | _ => None
          end
      | None => None
      end
  end.

Definition loads (s : string) : answer json :=
  match parse_value (S (String.length s)) s with
  | Some (v, rest) =>
      match skip_ws rest with
      | EmptyString => inr v
      | _ => inl (Exn "JSONDecodeError" "Extra data")
      end
  | None => inl (Exn "JSONDecodeError" "Expecting value")
  end.

(** [{"text": t, "label": l}] followed by a newline, as the export step
    writes a line of the dataset file. *)
Definition example_line (t : string) (l : string) : string :=
  "{" ++ dquote ++ "text" ++ dquote ++ ": " ++ dquote ++ t ++ dquote ++ ", "
      ++ dquote ++ "label" ++ dquote ++ ": " ++ l ++ "}" ++ nl.

End Json.

Module Demo.

Fixpoint lookup_file (files : list (string * node)) (path : string) : option node :=
  match files with
  | [] => None
  | (p, n) :: rest => if String.eqb path p then Some n else lookup_file rest path
  end.

(** A tokenizer that encodes a string by its character codes, padded with 0
    and truncated to [max_length], and refuses anything that is not a
    string. *)
Definition encode_text (t : json) (max_length : nat) : answer (list Z) :=
  match t with
  | JString s =>
      inr (firstn max_length
             (map (fun c => Z.of_nat (nat_of_ascii c)) (list_ascii_of_string s)
              ++ repeat 0%Z max_length))
  | _ => inl (Exn "ValueError" "text input must be of type str")
  end.

(** The token ids of a string under [encode_text] with 128 places. *)
Definition encoding (s : string) : list Z :=
  firstn 128
    (map (fun c => Z.of_nat (nat_of_ascii c)) (list_ascii_of_string s)
     ++ repeat 0%Z 128).

(** A machine with the given files on which every library call succeeds;
    the generator deals the rows out from the last to the first. *)
Definition finetune_env (files : list (string * node)) (cuda : bool) : FineTune.env :=
  {| FineTune.cuda_is_available := cuda;
     FineTune.fs := lookup_file files;
     FineTune.json_loads := Json.loads;
     FineTune.tokenizer_from_pretrained := fun name => inr (FineTune.Tokenizer name);
     FineTune.model_from_pretrained :=
       fun name n labels => inr (FineTune.Model name n labels);
     FineTune.from_dict := fun _ _ => inr tt;
     FineTune.encode := fun _ => encode_text;
     FineTune.permutation := fun _ n => rev (seq 0 n);
     FineTune.trainer_new := fun _ => inr tt;
     FineTune.trainer_train := fun _ _ => inr tt;
     FineTune.trainer_evaluate :=
       fun _ => inr [("eval_loss", 1 # 2); ("eval_f1", 4 # 5); ("epoch", 3 # 1)];
     FineTune.trainer_save_model := fun _ => inr tt;
     FineTune.tokenizer_save_pretrained := fun _ => inr tt |}.

(** A converter environment in which every library call succeeds and the
    exported model gives the scores [scores] for every text. *)
Definition convert_env (scores : list R) : Convert.env :=
  {| Convert.imports := inr tt;
     Convert.mkdir := fun _ => inr tt;
     Convert.tokenizer_from_pretrained := fun name => inr (Convert.Tokenizer name);
     Convert.model_from_pretrained :=
       fun name => inr (Convert.Model name [(0, "NO_HUMOR"); (1, "HUMOR")]%Z);
     Convert.onnx_from_pretrained := fun name => inr (Convert.OnnxModel name);
     Convert.onnx_save_pretrained := fun _ _ => inr tt;
     Convert.tokenizer_save_pretrained := fun _ _ => inr tt;
     Convert.encode :=
       fun _ text =>
         inr (map (fun c => Z.of_nat (nat_of_ascii c)) (list_ascii_of_string text));
     Convert.forward := fun _ _ => inr scores |}.

(** The same, but the export to ONNX fails. *)
Definition failing_export_env : Convert.env :=
  {| Convert.imports := inr tt;
     Convert.mkdir := fun _ => inr tt;
     Convert.tokenizer_from_pretrained := fun name => inr (Convert.Tokenizer name);
     Convert.model_from_pretrained :=
       fun name => inr (Convert.Model name [(0, "NO_HUMOR"); (1, "HUMOR")]%Z);
     Convert.onnx_from_pretrained :=
       fun _ => inl (Exn "RuntimeError" "unsupported operator");
     Convert.onnx_save_pretrained := fun _ _ => inr tt;
     Convert.tokenizer_save_pretrained := fun _ _ => inr tt;
     Convert.encode := fun _ _ => inr [];
     Convert.forward := fun _ _ => inr [] |}.

(** A machine without the given files' libraries at hand: the tokenizer
    loads, the model does not. *)
Definition offline_env (files : list (string * node)) : FineTune.env :=
  {| FineTune.cuda_is_available := false;
     FineTune.fs := lookup_file files;
     FineTune.json_loads := Json.loads;
     FineTune.tokenizer_from_pretrained := fun name => inr (FineTune.Tokenizer name);
     FineTune.model_from_pretrained :=
       fun _ _ _ => inl (Exn "OSError" "model not found in the cache");
     FineTune.from_dict := fun _ _ => inr tt;
     FineTune.encode := fun _ => encode_text;
     FineTune.permutation := fun _ n => rev (seq 0 n);
     FineTune.trainer_new := fun _ => inr tt;
     FineTune.trainer_train := fun _ _ => inr tt;
     FineTune.trainer_evaluate := fun _ => inr [];
     FineTune.trainer_save_model := fun _ => inr tt;
     FineTune.tokenizer_save_pretrained := fun _ => inr tt |}.

(** A dataset file of one joke and one sober sentence. *)
Definition two_lines : list string :=
  [Json.example_line "ha" "1"; Json.example_line "no" "0"].

(** A dataset file of [n] copies of one example. *)
Definition dataset (n : nat) (t l : string) : node :=
  File (repeat (Json.example_line t l) n).

(** A line that holds a no-break space, U+00A0, and nothing else. *)
Definition no_break_space_line : string := utf8 160 ++ nl.

(** A dataset file of twelve jokes, an empty line, a line of blanks, a line
    with a no-break space and ten sober sentences. *)
Definition mixed_lines : list string :=
  repeat (Json.example_line "ha" "1") 12
  ++ [nl; ("   " ++ nl)%string; no_break_space_line]
  ++ repeat (Json.example_line "no" "0") 10.

(** A converter environment in which [torch] is not installed. *)
Definition missing_torch_env : Convert.env :=
  {| Convert.imports := inl (Exn "ModuleNotFoundError" "No module named 'torch'");
     Convert.mkdir := fun _ => inr tt;
     Convert.tokenizer_from_pretrained := fun name => inr (Convert.Tokenizer name);
     Convert.model_from_pretrained :=
       fun name => inr (Convert.Model name [(0, "NO_HUMOR"); (1, "HUMOR")]%Z);
     Convert.onnx_from_pretrained := fun name => inr (Convert.OnnxModel name);
     Convert.onnx_save_pretrained := fun _ _ => inr tt;
     Convert.tokenizer_save_pretrained := fun _ _ => inr tt;
     Convert.encode := fun _ _ => inr [];
     Convert.forward := fun _ _ => inr [] |}.

(** A converter environment in which the output directory cannot be
    created. *)
Definition read_only_env : Convert.env :=
  {| Convert.imports := inr tt;
     Convert.mkdir := fun _ => inl (Exn "PermissionError" "[Errno 13] Permission denied: 'models'");
     Convert.tokenizer_from_pretrained := fun name => inr (Convert.Tokenizer name);
     Convert.model_from_pretrained :=
       fun name => inr (Convert.Model name [(0, "NO_HUMOR"); (1, "HUMOR")]%Z);
     Convert.onnx_from_pretrained := fun name => inr (Convert.OnnxModel name);
     Convert.onnx_save_pretrained := fun _ _ => inr tt;
     Convert.tokenizer_save_pretrained := fun _ _ => inr tt;
     Convert.encode := fun _ _ => inr [];
     Convert.forward := fun _ _ => inr [] |}.

(** A converter environment in which the operator interrupts the download
    of the tokenizer with Ctrl-C. *)
Definition interrupted_env : Convert.env :=
  {| Convert.imports := inr tt;
     Convert.mkdir := fun _ => inr tt;
     Convert.tokenizer_from_pretrained := fun _ => inl (Exn "KeyboardInterrupt" "");
     Convert.model_from_pretrained :=
       fun name => inr (Convert.Model name [(0, "NO_HUMOR"); (1, "HUMOR")]%Z);
     Convert.onnx_from_pretrained := fun name => inr (Convert.OnnxModel name);
     Convert.onnx_save_pretrained := fun _ _ => inr tt;
     Convert.tokenizer_save_pretrained := fun _ _ => inr tt;
     Convert.encode := fun _ _ => inr [];
     Convert.forward := fun _ _ => inr [] |}.

(** An exception of a class of [importlib.metadata] that derives from
    [ModuleNotFoundError]. *)
Definition package_not_found : exn :=
  Instance "PackageNotFoundError"
    ["ModuleNotFoundError"; "ImportError"; "Exception"; "BaseException"]
    "No package metadata was found for optimum".

Definition joke : json := JObject [("text", JString "ha"); ("label", JInt 1)].
Definition sober : json := JObject [("text", JString "no"); ("label", JInt 0)].

End Demo.

(** * The entry of the fine-tuner *)

Module FineTuneEntry.
Import FineTune.

(** What [argparse] makes of the command line: the arguments, or a command
    line it refuses (an unknown option, a value that is no number), or a
    request for help with [-h] or [--help]. *)
Inductive command_line : Type :=
| Accepted (args : arguments)
| Refused (message : string)
| Help.

(** [parser.parse_args()] of line 115, by the documentation of [argparse]:
    a refused command line ends the process with status 2 after a usage
    message on standard error, a request for help ends it with status 0
    after the help text.  What [argparse] itself writes is not recorded. *)
Definition parse_args (cmd : command_line) : Py arguments :=
  match cmd with
  | Accepted args => ret args
  | Refused _ => exit 2
  | Help => exit 0
  end.

(** [main()] as a whole, lines 107-223: the command line is parsed, then
    the rest of [main] runs on the arguments. *)
Definition main_of_command_line (E : env) (cmd : command_line) : Py unit :=
  args <- parse_args cmd ;;
  main E args.

(** Lines 25-40 and 226-227 of the fine-tuner: the imports, whose
    [ImportError] is reported with an install hint and ends the process with
    status 1, then [main()]. *)
Definition script (imports : answer unit) (E : env) (cmd : command_line) : Py unit :=
  try_except (lift imports) "ImportError"
    (fun e =>
       print [Lit "❌ Missing dependencies!"] ;;
       print [Lit nl; Lit "Please install required packages:"] ;;
       print [Lit "  pip install transformers torch datasets accelerate"] ;;
       print [Lit nl; Lit "Error: "; FExn e] ;;
       exit 1) ;;
  main_of_command_line E cmd.

(** What the operator sees when a dependency is missing. *)
Definition missing_dependencies (e : exn) : list event :=
  [ Print [Lit "❌ Missing dependencies!"];
    Print [Lit nl; Lit "Please install required packages:"];
    Print [Lit "  pip install transformers torch datasets accelerate"];
    Print [Lit nl; Lit "Error: "; FExn e] ].

End FineTuneEntry.

(** * Vocabulary of further statements about the fine-tuner *)

Module FineTuneLog.
Import FineTune.

(** The place of a file-system or library call in the order in which the
    fine-tuner makes them; printing and asking have no place. *)
Definition stage_of (e : event) : option nat :=
  match e with
  | LoadTokenizer _ => Some 0%nat
  | LoadModel _ => Some 1%nat
  | PathExists _ => Some 2%nat
  | OpenRead _ => Some 3%nat
  | FromDict _ => Some 4%nat
  | Tokenize _ => Some 5%nat
  | TrainTestSplit _ _ => Some 6%nat
  | NewTrainer _ _ => Some 7%nat
  | TrainerTrain => Some 8%nat
  | TrainerEvaluate => Some 9%nat
  | TrainerSave _ => Some 10%nat
  | SaveTokenizer _ => Some 11%nat
  | _ => None
  end.

Definition stages (l : list event) : list nat :=
  flat_map (fun e => match stage_of e with Some n => [n] | None => [] end) l.

(** A step that, from any state, keeps the log and adds to it the calls of
    places [a], [a+1], ... in this order: all [n] of them when it returns,
    the first few of them when it exits or raises. *)
Definition passes {A} (a n : nat) (m : Py A) : Prop :=
  forall w,
    exists said,
      log (snd (m w)) = log w ++ said /\
      match fst (m w) with
      | Ret _ => stages said = seq a n
      | _ => exists k, (k <= n)%nat /\ stages said = seq a k
      end.

(** A step that exits only with a status that satisfies [C]. *)
Definition exits_with {A} (C : Z -> Prop) (m : Py A) : Prop :=
  forall w c w', m w = (Exit c, w') -> C c.

(** [old] occurs somewhere in [s]. *)
Fixpoint occurs (old s : string) : bool :=
  String.prefix old s
  || match s with
     | EmptyString => false
     | String _ r => occurs old r
     end.

(** The name under which line 206 reports the metric of key [key]. *)
Definition metric_name (key : string) : string :=
  capitalize (replace key "eval_" "").

(** The arguments [main] builds the trainer with. *)
Definition training_args_of (E : env) (args : arguments) : training_arguments :=
  {| output_dir := arg_output args;
     num_train_epochs := arg_epochs args;
     per_device_train_batch_size := arg_batch_size args;
     per_device_eval_batch_size := arg_batch_size args;
     learning_rate := arg_learning_rate args;
     weight_decay := 1 # 100;
     eval_strategy := "epoch";
     save_strategy := "epoch";
     load_best_model_at_end := true;
     metric_for_best_model := "f1";
     logging_dir := arg_output args ++ "/logs";
     logging_steps := 10;
     save_total_limit := 2;
     report_to := "none";
     use_cpu := negb (arg_gpu args && cuda_is_available E) |}.

(** What [main] logs, part by part, from the class ratio on. *)
Definition ratio_report (class_ratio : Q) : list event :=
  [ Print [Lit "  Class ratio: "; FFix 2 class_ratio; Lit ":1"];
    Print [Lit nl; Lit "Preparing datasets..."] ].

Definition samples_report (train val : list row) : list event :=
  [ Print [Lit "  Training samples: "; FInt (Z.of_nat (length train))];
    Print [Lit "  Validation samples: "; FInt (Z.of_nat (length val))] ].

Definition training_banner (args : arguments) : list event :=
  [ Print [Lit nl; Lit (repeat_string "-" 70)];
    Print [Lit "TRAINING"];
    Print [Lit (repeat_string "-" 70)];
    Print [Lit "Epochs: "; FInt (arg_epochs args)];
    Print [Lit "Batch size: "; FInt (arg_batch_size args)];
    Print [Lit "Learning rate: "; FNum (arg_learning_rate args)];
    Print [Lit nl; Lit "Starting training... (this may take 5-30 minutes)"; Lit nl] ].

Definition evaluation_banner : list event :=
  [ Print [Lit nl; Lit (repeat_string "-" 70)];
    Print [Lit "EVALUATION"];
    Print [Lit (repeat_string "-" 70)] ].

Definition metric_line (kv : string * Q) : event :=
  Print [Lit "  "; FStr (metric_name (fst kv)); Lit ": "; FFix 4 (snd kv)].

Definition evaluation_report (eval_results : list (string * Q)) : list event :=
  Print [Lit nl; Lit "Final validation metrics:"]
  :: map metric_line (filter (fun kv => startswith (fst kv) "eval_") eval_results).

Definition saving_banner : list event :=
  [ Print [Lit nl; Lit (repeat_string "-" 70)];
    Print [Lit "SAVING MODEL"];
    Print [Lit (repeat_string "-" 70)] ].

Definition farewell (output_dir : string) : list event :=
  [ Print [Lit nl; Lit "✓ Fine-tuned model saved to: "; FStr output_dir];
    Print [Lit nl; Lit "Next steps:"];
    Print [Lit "  1. Convert to ONNX: python scripts/convert-humor-model-to-onnx.py --custom"];
    Print [Lit "  2. Test with: node src/scripts/testHumorScorer.ts"];
    Print [Lit "  3. Deploy: .\scripts\restart-clean.ps1"];
    Print [Lit nl; Lit (repeat_string "=" 70)] ].

(** A file-system or library call of the fine-tuner, as opposed to printing
    and asking. *)
Definition is_call (e : event) : bool :=
  match stage_of e with Some _ => true | None => false end.

End FineTuneLog.

(** * Vocabulary of further statements about the converter *)

Module ConvertLog.
Import Convert.

(** What the operator sees when a package the converter needs is missing. *)
Definition missing_package (e : exn) : list event :=
  [ Print [Lit "✗ Missing required package: "; FExn e];
    Print [Lit nl; Lit "Please install required packages:"];
    Print [Lit "  pip install transformers torch onnx optimum[exporters]"] ].

End ConvertLog.

(** * Vocabulary of the statements *)

(** A step that, from any state, keeps the log it finds and adds to it only
    actions that satisfy [P]. *)
Definition adds {A} (P : event -> Prop) (m : Py A) : Prop :=
  forall w, exists said, log (snd (m w)) = log w ++ said /\ Forall P said.

(** An action that is not the building of a trainer, or that builds one with
    [use_cpu] set to [cpu]. *)
Definition trainer_uses (cpu : bool) (e : event) : Prop :=
  match e with
  | NewTrainer _ u => u = cpu
  | _ => True
  end.

(** An action that is not the printing of a real number, or that prints
    one between 0 and 1. *)
Definition prints_probabilities (e : event) : Prop :=
  match e with
  | Print line =>
      Forall (fun f => match f with
                       | FReal _ r => (0 <= r <= 1)%R
                       | _ => True
                       end) line
  | _ => True
  end.

(** * Properties *)

(** ** Running a sequence *)

(** Logs are compared with their appends nested to the right. *)
Ltac norm_log := repeat rewrite <- app_assoc; cbn [app].

(** Running the steps of a script as far as the answers are known. *)
Ltac run :=
  cbn;
  unfold py_bind, py_catch, py_ret, py_raise, exit, print, emit, input, call, lift;
  cbn; norm_log.

Lemma py_bind_returns {A B} (m : Py A) (f : A -> Py B) w a w' :
  m w = (Ret a, w') -> py_bind m f w = f a w'.
Proof.
  intros H. unfold py_bind. now rewrite H.
Qed.

(** ** What a script adds to the log *)

Section Adds.

Variable P : event -> Prop.

Lemma adds_ret {A} (a : A) : adds P (py_ret a).
Proof. intros w. exists []. cbn. now rewrite app_nil_r. Qed.

Lemma adds_raise {A} e : adds P (@py_raise A e).
Proof. intros w. exists []. cbn. now rewrite app_nil_r. Qed.

Lemma adds_exit {A} c : adds P (@exit A c).
Proof. intros w. exists []. cbn. now rewrite app_nil_r. Qed.

Lemma adds_emit e : P e -> adds P (emit e).
Proof. intros He w. exists [e]. cbn. split; [reflexivity|]. now constructor. Qed.

Lemma adds_print line : P (Print line) -> adds P (print line).
Proof. apply adds_emit. Qed.

Lemma adds_input prompt : P (Input prompt) -> adds P (input prompt).
Proof.
  intros He w. exists [Input prompt]. unfold input.
  destruct (unread w); cbn; (split; [reflexivity|]); now constructor.
Qed.

Lemma adds_bind {A B} (m : Py A) (f : A -> Py B) :
  adds P m -> (forall a, adds P (f a)) -> adds P (py_bind m f).
Proof.
  intros Hm Hf w. unfold py_bind.
  destruct (Hm w) as (s1 & E1 & F1).
  destruct (m w) as [[a|c|e] w1]; cbn in *.
  - destruct (Hf a w1) as (s2 & E2 & F2).
    exists (s1 ++ s2). rewrite E2, E1, app_assoc. split; [reflexivity|].
    now apply Forall_app.
  - now exists s1.
  - now exists s1.
Qed.

Lemma adds_catch {A} (m : Py A) (h : exn -> Py A) :
  adds P m -> (forall e, adds P (h e)) -> adds P (py_catch m h).
Proof.
  intros Hm Hh w. unfold py_catch.
  destruct (Hm w) as (s1 & E1 & F1).
  destruct (m w) as [[a|c|e] w1]; cbn in *.
  - now exists s1.
  - now exists s1.
  - destruct (Hh e w1) as (s2 & E2 & F2).
    exists (s1 ++ s2). rewrite E2, E1, app_assoc. split; [reflexivity|].
    now apply Forall_app.
Qed.

Lemma adds_if {A} (b : bool) (m1 m2 : Py A) :
  adds P m1 -> adds P m2 -> adds P (if b then m1 else m2).
Proof. now destruct b. Qed.

Lemma adds_lift {A} (a : answer A) : adds P (lift a).
Proof. destruct a; [apply adds_raise | apply adds_ret]. Qed.

Lemma adds_call {A} e (a : answer A) : P e -> adds P (call e a).
Proof.
  intros He. unfold call. cbn. apply adds_bind; [now apply adds_emit|].
  intros _. destruct a; [apply adds_raise | apply adds_ret].
Qed.

Lemma adds_for_each {A} (f : A -> Py unit) l :
  (forall x, adds P (f x)) -> adds P (for_each f l).
Proof.
  intros Hf. induction l as [|x l IH]; cbn.
  - apply adds_ret.
  - apply adds_bind; [apply Hf | intros _; apply IH].
Qed.

(** A library call followed by more: the call is logged first, whatever it
    answers. *)
Lemma call_then_adds {A B} e (a : answer A) (k : A -> Py B) w :
  (forall x, adds P (k x)) ->
  exists rest,
    log (snd (py_bind (call e a) k w)) = log w ++ e :: rest /\ Forall P rest.
Proof.
  intros Hk. unfold call, py_bind. cbn.
  destruct a as [x|v]; cbn.
  - exists []. split; [reflexivity | constructor].
  - destruct (Hk v (World (unread w) (log w ++ [e]))) as (rest & Hl & HP).
    exists rest. rewrite Hl. cbn. now rewrite <- app_assoc.
Qed.

End Adds.

(** Taking a script apart into its steps. *)
Ltac adds_steps :=
  cbn [bind ret raise catch Monad_Py MonadExc_Py];
  repeat first
    [ apply adds_bind; [|intros ?]
    | apply adds_catch; [|intros ?]
    | apply adds_for_each; intros ?
    | apply adds_if
    | apply adds_print
    | apply adds_emit
    | apply adds_call
    | apply adds_input
    | apply adds_lift
    | apply adds_ret
    | apply adds_raise
    | apply adds_exit ].

(** * The fine-tuner *)

Module FineTuneProofs.
Import FineTune.

#[local] Arguments Nat.ltb : simpl never.
#[local] Arguments repeat_string : simpl never.

(** ** White space *)

Lemma utf8_not_empty c : utf8 c <> EmptyString.
Proof.
  unfold utf8.
  repeat match goal with |- context [if ?b then _ else _] => destruct b end;
    discriminate.
Qed.

Lemma truthy_of_points l :
  truthy (of_points l) = match l with [] => false | _ => true end.
Proof.
  destruct l as [|c r]; [reflexivity|]. cbn [of_points].
  pose proof (utf8_not_empty c) as Hc. destruct (utf8 c); [congruence | reflexivity].
Qed.

Lemma lstrip_points_spaces l : forallb isspace l = true -> lstrip_points l = [].
Proof.
  induction l as [|c r IH]; cbn; [reflexivity|].
  intros H. apply andb_true_iff in H as [Hc Hr]. rewrite Hc. now apply IH.
Qed.

Lemma lstrip_points_other l :
  forallb isspace l = false ->
  exists c r, lstrip_points l = c :: r /\ isspace c = false /\ incl (c :: r) l.
Proof.
  induction l as [|c r IH]; cbn; [discriminate|].
  destruct (isspace c) eqn:Hc; cbn.
  - intros H. destruct (IH H) as (c' & r' & Hl & Hc' & Hin).
    exists c', r'. repeat split; trivial. now apply incl_tl.
  - intros _. exists c, r. repeat split; trivial. apply incl_refl.
Qed.

Lemma forallb_isspace_false l c :
  In c l -> isspace c = false -> forallb isspace l = false.
Proof.
  intros Hin Hc. destruct (forallb isspace l) eqn:Hall; [|reflexivity].
  rewrite forallb_forall in Hall. rewrite (Hall c Hin) in Hc. discriminate.
Qed.

(** A line survives [strip] exactly when it has a character that is not
    white space. *)
Lemma truthy_strip s : truthy (strip s) = negb (blank s).
Proof.
  unfold strip, blank. rewrite truthy_of_points.
  destruct (forallb isspace (points s)) eqn:Hb; cbn.
  - now rewrite lstrip_points_spaces.
  - destruct (lstrip_points_other _ Hb) as (c & r & -> & Hc & _).
    unfold rstrip_points.
    assert (Hrev : forallb isspace (rev (c :: r)) = false).
    { apply (forallb_isspace_false _ c); [|exact Hc]. apply -> in_rev. now left. }
    destruct (lstrip_points_other _ Hrev) as (c' & r' & -> & _ & _).
    cbn [rev]. destruct (rev r'); reflexivity.
Qed.

(** ** The loader *)

(** The loop neither prints nor reads the terminal: it ends with the
    decoded lines appended to [data], or with the exception of the first
    line that does not decode. *)
Lemma read_lines_decoded E lines data w :
  read_lines E lines data w =
  match decoded E lines with
  | inr vs => (Ret (data ++ vs), w)
  | inl e => (Raise e, w)
  end.
Proof.
  unfold decoded. revert data.
  induction lines as [|line rest IH]; intros data; cbn.
  - now rewrite app_nil_r.
  - rewrite truthy_strip. destruct (blank line); cbn; [apply IH|].
    unfold py_bind. destruct (json_loads E line) as [e|v]; cbn; [reflexivity|].
    rewrite IH.
    destruct (traverse (json_loads E) (filter (fun l => negb (blank l)) rest));
      cbn; [reflexivity|].
    now rewrite <- app_assoc.
Qed.

(** Every run of the loader, case by case. *)
Lemma load_training_data_run E path w :
  load_training_data E path w =
  match fs E path with
  | None =>
      (Exit 1, World (unread w) (log w ++ PathExists path :: not_found_report path))
  | Some Dir =>
      (Raise (Exn "IsADirectoryError" path),
       World (unread w) (log w ++ [PathExists path; OpenRead path]))
  | Some (File lines) =>
      match decoded E lines with
      | inl e => (Raise e, World (unread w) (log w ++ [PathExists path; OpenRead path]))
      | inr data =>
          if (length data <? 20)%nat then
            let said :=
              log w ++ PathExists path :: OpenRead path :: low_data_dialogue (length data) in
            match unread w with
            | [] => (Raise (Exn "EOFError" "EOF when reading a line"), World [] said)
            | response :: rest =>
                (if String.eqb (lower response) "y" then Ret data else Exit 0,
                 World rest said)
            end
          else (Ret data, World (unread w) (log w ++ [PathExists path; OpenRead path]))
      end
  end.
Proof.
  destruct w as [i l].
  unfold load_training_data, path_exists, open_read, call.
  destruct (fs E path) as [[|lines]|]; cbn; norm_log; try reflexivity.
  unfold py_bind at 1. rewrite read_lines_decoded.
  destruct (decoded E lines) as [e|data]; [reflexivity|]. cbn [app].
  destruct (length data <? 20)%nat; cbn; norm_log; [|reflexivity].
  destruct i as [|response rest]; run; [reflexivity|].
  destruct (String.eqb (lower response) "y"); reflexivity.
Qed.

#[local] Arguments load_training_data : simpl never.
#[local] Arguments prepare_dataset : simpl never.

(** The loader adds to the log only what it asks the file system and what
    it tells and asks the operator. *)
Lemma load_training_data_log E path w :
  exists said,
    log (snd (load_training_data E path w)) = log w ++ said /\
    existsb is_training said = false /\ existsb is_load said = false.
Proof.
  rewrite load_training_data_run.
  destruct (fs E path) as [[|lines]|]; [| |]; cbn.
  - eexists; split; [reflexivity|]. now cbn.
  - destruct (decoded E lines) as [e|data]; cbn.
    + eexists; split; [reflexivity|]. now cbn.
    + destruct (length data <? 20)%nat.
      * destruct (unread w); cbn; eexists; (split; [reflexivity|]); now cbn.
      * eexists; split; [reflexivity|]. now cbn.
  - eexists; split; [reflexivity|]. now cbn.
Qed.

(** [lower] maps exactly [y] and [Y] to [y]. *)
Lemma lower_char_y c : lower_char c = "y"%char -> c = "y"%char \/ c = "Y"%char.
Proof.
  destruct c as [[] [] [] [] [] [] [] []]; vm_compute; intros H;
    solve [ discriminate H | now left | now right ].
Qed.

Lemma lower_is_y response :
  String.eqb (lower response) "y" = affirmative response.
Proof.
  unfold affirmative.
  destruct response as [|c [|c' r]]; [reflexivity| |].
  - destruct (String.eqb (lower (String c EmptyString)) "y") eqn:Hl.
    + apply String.eqb_eq in Hl. cbn in Hl. injection Hl as Hc.
      destruct (lower_char_y c Hc) as [-> | ->]; reflexivity.
    + symmetry. apply orb_false_iff. split; apply String.eqb_neq; intros Heq;
        rewrite Heq in Hl; vm_compute in Hl; discriminate.
  - cbn. destruct (Ascii.eqb (lower_char c) "y"), (Ascii.eqb c "y"), (Ascii.eqb c "Y");
      reflexivity.
Qed.

Lemma traverse_Forall2 {A B} (f : A -> answer B) l ys :
  traverse f l = inr ys <-> Forall2 (fun x y => f x = inr y) l ys.
Proof.
  revert ys. induction l as [|x l IH]; intros ys; cbn.
  - split.
    + intros [= <-]. constructor.
    + intros H. inversion H. reflexivity.
  - destruct (f x) as [e|y] eqn:Hx.
    + split; [discriminate|]. intros H. inversion H; subst. congruence.
    + destruct (traverse f l) as [e|ys'] eqn:Hl.
      * split; [discriminate|]. intros H. inversion H; subst.
        match goal with H' : Forall2 _ l _ |- _ => apply IH in H' end. discriminate.
      * split.
        -- intros [= <-]. constructor; [assumption|]. now apply IH.
        -- intros H. inversion H; subst.
           match goal with H' : Forall2 _ l _ |- _ => apply IH in H' end.
           congruence.
Qed.

(** C7.  For a dataset file with lines [lines], the loop of the loader ends
    with the decoding, in file order, of the lines that are not blank
    (a line is blank when [strip] leaves nothing of it), or with the
    exception of the first line that does not decode; the values the loader
    returns are exactly these; and with at least 20 of them the loader
    returns them after having only looked for the file and read it. *)
Theorem loader_reads_lines_in_order E path lines w :
  fs E path = Some (File lines) ->
  (forall line, negb (blank line) = truthy (strip line)) /\
  (forall data,
     decoded E lines = inr data <->
     Forall2 (fun line v => json_loads E line = inr v)
       (filter (fun line => truthy (strip line)) lines) data) /\
  read_lines E lines [] w =
    match decoded E lines with
    | inr data => (Ret data, w)
    | inl e => (Raise e, w)
    end /\
  (forall data w',
     load_training_data E path w = (Ret data, w') -> decoded E lines = inr data) /\
  (forall e,
     decoded E lines = inl e ->
     fst (load_training_data E path w) = Raise e) /\
  (forall data,
     decoded E lines = inr data -> (20 <= length data)%nat ->
     load_training_data E path w =
       (Ret data, World (unread w) (log w ++ [PathExists path; OpenRead path]))).
Proof.
  intros Hfs. repeat split.
  - intros line. now rewrite truthy_strip.
  - unfold decoded. intros H. apply traverse_Forall2 in H.
    erewrite filter_ext; [exact H|]. intros l. apply truthy_strip.
  - unfold decoded. intros H. apply traverse_Forall2.
    erewrite filter_ext; [exact H|]. intros l. symmetry. apply truthy_strip.
  - apply read_lines_decoded.
  - intros data w'. rewrite load_training_data_run, Hfs.
    destruct (decoded E lines) as [e|data']; [discriminate|].
    destruct (length data' <? 20)%nat.
    + destruct (unread w); [discriminate|].
      destruct (String.eqb (lower s) "y"); [|discriminate]. congruence.
    + congruence.
  - intros e He. now rewrite load_training_data_run, Hfs, He.
  - intros data Hd Hlen. rewrite load_training_data_run, Hfs, Hd.
    apply Nat.ltb_ge in Hlen. now rewrite Hlen.
Qed.

Lemma loader_reads_lines_in_order_witness :
  let E := Demo.finetune_env [("training-data.jsonl", File Demo.mixed_lines)] false in
  fs E "training-data.jsonl" = Some (File Demo.mixed_lines) /\
  load_training_data E "training-data.jsonl" (start []) =
    (Ret (repeat Demo.joke 12 ++ repeat Demo.sober 10),
     World [] [PathExists "training-data.jsonl"; OpenRead "training-data.jsonl"]).
Proof.
  intros E. split; [reflexivity|].
  apply (loader_reads_lines_in_order E "training-data.jsonl" Demo.mixed_lines (start []));
    [reflexivity | reflexivity | vm_compute; lia].
Defined.

(** C4.  For a dataset file that decodes to fewer than 20 examples, the
    loader prints the warning and the recommendation and asks the operator;
    on [y] or [Y] it returns the examples, on any other answer it exits with
    status 0; and [main], on such an answer, ends with status 0 without
    anything of dataset preparation or training in its log. *)
Theorem low_data_needs_confirmation E path lines data w :
  fs E path = Some (File lines) ->
  decoded E lines = inr data ->
  (length data < 20)%nat ->
  (forall response rest,
     unread w = response :: rest ->
     load_training_data E path w =
       (if affirmative response then Ret data else Exit 0,
        World rest
          (log w ++ PathExists path :: OpenRead path :: low_data_dialogue (length data)))) /\
  (forall args tok m response rest,
     arg_data args = path ->
     tokenizer_from_pretrained E base_model = inr tok ->
     model_from_pretrained E base_model 2 [(0, "NO_HUMOR"); (1, "HUMOR")]%Z = inr m ->
     affirmative response = false ->
     let r := main E args (start (response :: rest)) in
     r = (Exit 0,
          World rest
            (preamble E args
             ++ PathExists path :: OpenRead path :: low_data_dialogue (length data))) /\
     existsb is_training (log (snd r)) = false).
Proof.
  intros Hfs Hd Hlen. apply Nat.ltb_lt in Hlen. split.
  - intros response rest Hw.
    rewrite load_training_data_run, Hfs, Hd, Hlen, Hw. cbn zeta.
    now rewrite lower_is_y.
  - intros args tok m response rest Hp Ht Hm Hno.
    assert (Hrun : main E args (start (response :: rest)) =
      (Exit 0,
       World rest
         (preamble E args
          ++ PathExists path :: OpenRead path :: low_data_dialogue (length data)))).
    { unfold main, start, preamble, opening.
      destruct (arg_gpu args), (cuda_is_available E); run;
        rewrite Ht, Hm, load_training_data_run, Hp, Hfs, Hd, Hlen; cbn;
        rewrite lower_is_y, Hno; reflexivity. }
    cbn zeta. rewrite Hrun. split; [reflexivity|].
    unfold preamble, opening.
    destruct (arg_gpu args), (cuda_is_available E); reflexivity.
Qed.

Lemma low_data_needs_confirmation_witness :
  let E := Demo.finetune_env [("training-data.jsonl", Demo.dataset 3 "ha" "1")] false in
  load_training_data E "training-data.jsonl" (start ["yes"]) =
    (Exit 0,
     World []
       (PathExists "training-data.jsonl" :: OpenRead "training-data.jsonl"
        :: low_data_dialogue 3)) /\
  load_training_data E "training-data.jsonl" (start ["Y"]) =
    (Ret (repeat Demo.joke 3),
     World []
       (PathExists "training-data.jsonl" :: OpenRead "training-data.jsonl"
        :: low_data_dialogue 3)).
Proof.
  intros E.
  assert (Hfs : fs E "training-data.jsonl" = Some (Demo.dataset 3 "ha" "1"))
    by reflexivity.
  assert (Hd : decoded E (repeat (Json.example_line "ha" "1") 3)
               = inr (repeat Demo.joke 3)) by reflexivity.
  assert (Hlen : (length (repeat Demo.joke 3) < 20)%nat) by (vm_compute; lia).
  split.
  - exact (proj1 (low_data_needs_confirmation E _ _ _ (start ["yes"]) Hfs Hd Hlen)
             "yes" [] eq_refl).
  - exact (proj1 (low_data_needs_confirmation E _ _ _ (start ["Y"]) Hfs Hd Hlen)
             "Y" [] eq_refl).
Defined.

(** ** A missing dataset file *)

(** C1, as claimed, fails: with no dataset file at the default path, and
    libraries that answer, [main] has loaded the tokenizer and the model by
    the time it exits. *)
Lemma missing_dataset_found_after_loading :
  let E := Demo.finetune_env [] false in
  fs E (arg_data default_arguments) = None /\
  ~ fatal_before_loading (main E default_arguments (start [])).
Proof.
  intros E. split; [reflexivity|].
  intros (_ & _ & Hload). vm_compute in Hload. discriminate.
Qed.

(** C1, amended.  When no file or directory is at the dataset path, the
    loader looks for it, prints that the training data was not found and how
    to generate it, and exits with status 1 without opening anything.  In
    [main] this happens after the tokenizer and the base model have been
    loaded, so only when both loads succeed, and before anything of dataset
    preparation or training. *)
Theorem missing_dataset_exits_with_status_1 E args typed tok m :
  fs E (arg_data args) = None ->
  tokenizer_from_pretrained E base_model = inr tok ->
  model_from_pretrained E base_model 2 [(0, "NO_HUMOR"); (1, "HUMOR")]%Z = inr m ->
  (forall w,
     load_training_data E (arg_data args) w =
       (Exit 1,
        World (unread w)
          (log w ++ PathExists (arg_data args) :: not_found_report (arg_data args)))) /\
  let r := main E args (start typed) in
  r = (Exit 1,
       World typed
         (preamble E args
          ++ PathExists (arg_data args) :: not_found_report (arg_data args))) /\
  In (LoadTokenizer base_model) (preamble E args) /\
  In (LoadModel base_model) (preamble E args) /\
  existsb is_training (log (snd r)) = false.
Proof.
  intros Hfs Ht Hm. split.
  - intros w. now rewrite load_training_data_run, Hfs.
  - assert (Hrun : main E args (start typed) =
      (Exit 1,
       World typed
         (preamble E args
          ++ PathExists (arg_data args) :: not_found_report (arg_data args)))).
    { unfold main, start, preamble, opening.
      destruct (arg_gpu args), (cuda_is_available E); run;
        rewrite Ht, Hm, load_training_data_run, Hfs; reflexivity. }
    cbn zeta. rewrite Hrun. split; [reflexivity|].
    unfold preamble, opening.
    destruct (arg_gpu args), (cuda_is_available E); cbn; intuition.
Qed.

Lemma missing_dataset_exits_with_status_1_witness :
  let E := Demo.finetune_env [] true in
  fst (main E default_arguments (start [])) = Exit 1.
Proof.
  intros E.
  destruct (missing_dataset_exits_with_status_1 E default_arguments []
              (Tokenizer base_model)
              (Model base_model 2 [(0, "NO_HUMOR"); (1, "HUMOR")]%Z)
              eq_refl eq_refl eq_refl) as (_ & Hrun & _).
  cbn zeta in Hrun. now rewrite Hrun.
Defined.

(** ** What the parts of the fine-tuner add to the log *)

Lemma adds_read_lines P E lines data : adds P (read_lines E lines data).
Proof.
  intros w. rewrite read_lines_decoded. exists [].
  destruct (decoded E lines); cbn; now rewrite app_nil_r.
Qed.

Lemma adds_load_training_data (P : event -> Prop) E path :
  (forall line, P (Print line)) -> (forall prompt, P (Input prompt)) ->
  P (PathExists path) -> P (OpenRead path) ->
  adds P (load_training_data E path).
Proof.
  intros Hp Hi He Ho. unfold load_training_data, path_exists, open_read.
  adds_steps; auto using adds_read_lines.
Qed.

Lemma adds_prepare_dataset (P : event -> Prop) E data tok val_split :
  (forall n, P (FromDict n)) -> (forall n, P (Tokenize n)) ->
  (forall n seed, P (TrainTestSplit n seed)) ->
  adds P (prepare_dataset E data tok val_split).
Proof.
  intros Hf Ht Hs. unfold prepare_dataset. adds_steps; auto.
Qed.

(** ** The device *)

(** C10.  The device [main] announces is [cuda] exactly when [--gpu] is
    given and CUDA is available, and [cpu] otherwise; the warning that the
    GPU is not available is printed exactly when [--gpu] is given without
    CUDA; in every case the run goes on to load the tokenizer; and the
    trainer, whenever one is built, is told to use the CPU exactly when the
    device is [cpu]. *)
Theorem device_is_cuda_iff_requested_and_available E args typed :
  exists device rest,
    log (snd (main E args (start typed))) =
      [ Print [Lit (repeat_string "=" 70)];
        Print [Lit "FINE-TUNE HUMOR DETECTION MODEL"];
        Print [Lit (repeat_string "=" 70)];
        Print [Lit nl; Lit "Device: "; FStr device] ]
      ++ (if arg_gpu args && negb (cuda_is_available E)
          then [Print [Lit "⚠️  GPU requested but not available, using CPU"]]
          else [])
      ++ Print [Lit nl; Lit "Loading base model: "; FStr base_model]
         :: LoadTokenizer base_model :: rest /\
    (device = "cuda" <-> arg_gpu args = true /\ cuda_is_available E = true) /\
    (device = "cpu" <-> ~ (arg_gpu args = true /\ cuda_is_available E = true)) /\
    (forall dir cpu, In (NewTrainer dir cpu) rest -> cpu = String.eqb device "cpu").
Proof.
  exists (if arg_gpu args && cuda_is_available E then "cuda" else "cpu").
  unfold main. cbn [bind ret raise catch Monad_Py MonadExc_Py].
  destruct (arg_gpu args) eqn:Hgpu, (cuda_is_available E) eqn:Hcuda;
    cbn [andb negb];
    repeat (erewrite py_bind_returns by reflexivity);
    match goal with
    | |- context [py_bind (call ?e ?a) ?k ?w] =>
        destruct (call_then_adds
                    (trainer_uses (String.eqb
                       (if arg_gpu args && cuda_is_available E then "cuda" else "cpu")
                       "cpu")) e a k w) as (rest & Hlog & Huses)
    end;
    try solve [ intros tok; adds_steps; try apply adds_read_lines; try exact I;
                cbn; rewrite ?Hgpu, ?Hcuda; reflexivity ];
    exists rest; rewrite Hlog, Hgpu, Hcuda in *; cbn in Huses |- *;
    (split; [reflexivity|]);
    (split; [intuition discriminate|]);
    (split; [intuition discriminate|]);
    intros dir cpu Hin;
    exact (proj1 (Forall_forall _ _) Huses _ Hin).
Qed.

(** ** Counting the classes *)

Lemma count_positive_from data acc :
  count_positive data acc =
  match count_positive data 0 with
  | inl e => inl e
  | inr p => inr (acc + p)%Z
  end.
Proof.
  revert acc. induction data as [|d data IH]; intros acc; cbn.
  - now rewrite Z.add_0_r.
  - destruct (getitem d "label") as [e|v]; [reflexivity|].
    rewrite (IH (if eq_one v then (acc + 1)%Z else acc)),
      (IH (if eq_one v then 1%Z else 0%Z)).
    destruct (count_positive data 0); [reflexivity|].
    destruct (eq_one v); f_equal; lia.
Qed.

(** Records that all have a label are counted without a look at what the
    label is: the positives are those whose label compares equal to 1. *)
Lemma count_positive_labelled data :
  Forall (fun d => exists v, getitem d "label" = inr v) data ->
  count_positive data 0 = inr (Z.of_nat (length (filter label_is_one data))).
Proof.
  induction 1 as [|d data (v & Hv) _ IH]; [reflexivity|].
  cbn [count_positive filter]. unfold label_is_one at 1. rewrite Hv.
  rewrite count_positive_from, IH.
  destruct (eq_one v); cbn [length]; f_equal; lia.
Qed.

(** A record without a label, or that is not an object, stops the count
    with its exception. *)
Lemma count_positive_unlabelled data :
  Exists (fun d => exists e, getitem d "label" = inl e) data <->
  exists e, count_positive data 0 = inl e.
Proof.
  induction data as [|d data IH].
  - split; [intros H; inversion H | intros (e & H); discriminate].
  - cbn [count_positive]. destruct (getitem d "label") as [e|v] eqn:Hd.
    + split; [intros _; now exists e | intros _; left; now exists e].
    + rewrite count_positive_from. split.
      * intros H. inversion H as [? ? (e & He)|? ? H']; subst; [congruence|].
        apply IH in H' as (e & ->). now exists e.
      * intros (e & He). right. apply IH.
        destruct (count_positive data 0) as [e'|]; [now exists e' | discriminate].
Qed.

Lemma filter_length_all {A} (f : A -> bool) l :
  length (filter f l) = length l <-> Forall (fun x => f x = true) l.
Proof.
  induction l as [|x l IH]; cbn.
  - split; [constructor | reflexivity].
  - pose proof (filter_length_le f l) as Hle.
    destruct (f x) eqn:Hx; cbn.
    + split.
      * intros [= H]. constructor; [assumption | now apply IH].
      * intros H. inversion H; subst. f_equal. now apply IH.
    + split; [lia|]. intros H. inversion H; subst. congruence.
Qed.

Lemma truediv_zero a b :
  truediv a b = inl (Exn "ZeroDivisionError" "division by zero") <-> b = 0%Z.
Proof.
  unfold truediv. destruct (Z.eqb_spec b 0); split; congruence.
Qed.

Lemma existsb_preamble E args : existsb is_training (preamble E args) = false.
Proof.
  unfold preamble, opening.
  destruct (arg_gpu args), (cuda_is_available E); reflexivity.
Qed.

(** [main] up to the count of the classes, once the loader has returned. *)
Lemma main_counts E args typed tok m data w' :
  tokenizer_from_pretrained E base_model = inr tok ->
  model_from_pretrained E base_model 2 [(0, "NO_HUMOR"); (1, "HUMOR")]%Z = inr m ->
  load_training_data E (arg_data args) (World typed (preamble E args)) = (Ret data, w') ->
  (forall e,
     count_positive data 0 = inl e ->
     main E args (start typed) =
       (Raise e,
        World (unread w')
          (log w' ++ [Print [Lit "  Total examples: "; FInt (Z.of_nat (length data))]]))) /\
  (forall positive e,
     count_positive data 0 = inr positive ->
     truediv positive (Z.of_nat (length data) - positive) = inl e ->
     main E args (start typed) =
       (Raise e, World (unread w') (log w' ++ class_counts (length data) positive))).
Proof.
  intros Ht Hm Hload. unfold preamble, opening in Hload. split.
  - intros e He. unfold main, start.
    destruct (arg_gpu args), (cuda_is_available E); run;
      rewrite Ht, Hm; cbn in Hload |- *; rewrite Hload, He; reflexivity.
  - intros positive e Hp He. unfold main, start.
    destruct (arg_gpu args), (cuda_is_available E); run;
      rewrite Ht, Hm; cbn in Hload |- *; rewrite Hload, Hp; cbn; rewrite He;
      cbn; norm_log; reflexivity.
Qed.

Lemma loaded_log_not_training E args typed o w' :
  load_training_data E (arg_data args) (World typed (preamble E args)) = (o, w') ->
  existsb is_training (log w') = false.
Proof.
  intros Hload.
  destruct (load_training_data_log E (arg_data args) (World typed (preamble E args)))
    as (said & Hlog & Hno & _).
  rewrite Hload in Hlog. cbn [snd log] in Hlog. rewrite Hlog, existsb_app, Hno.
  now rewrite existsb_preamble.
Qed.

Lemma binary_labels_not_all_one data :
  Forall label_is_binary data ->
  (~ Forall (fun d => label_is_one d = true) data <->
   Exists (fun d => getitem d "label" = inr (JInt 0)) data).
Proof.
  induction 1 as [|d data Hd _ IH].
  - split; [intros H; exfalso; apply H; constructor | intros H; inversion H].
  - destruct Hd as [Hd|Hd].
    + split; [intros _; now left|].
      intros _ Hall. inversion Hall as [|? ? H1 _]; subst.
      unfold label_is_one in H1. rewrite Hd in H1. discriminate.
    + split.
      * intros Hn. right. apply IH. intros Hall. apply Hn. constructor; [|assumption].
        unfold label_is_one. now rewrite Hd.
      * intros Hex Hall. inversion Hall; subst.
        inversion Hex as [? ? H0|? ? Hex']; subst; [congruence|].
        now apply IH in Hex'.
Qed.

(** ** A dataset without negative examples *)

(** C9.  When the loader has returned a dataset in which every example has
    a label equal to 1 (the empty dataset included), [main] prints the
    counts and ends with an uncaught [ZeroDivisionError], with nothing of
    dataset preparation or training in its log.  For a dataset in which
    every record has a label, the division fails exactly when all labels
    equal 1; with labels 0 and 1 only, it succeeds exactly when some example
    has label 0. *)
Theorem all_positive_dataset_divides_by_zero E args typed tok m data w' :
  tokenizer_from_pretrained E base_model = inr tok ->
  model_from_pretrained E base_model 2 [(0, "NO_HUMOR"); (1, "HUMOR")]%Z = inr m ->
  load_training_data E (arg_data args) (World typed (preamble E args)) = (Ret data, w') ->
  Forall (fun d => label_is_one d = true) data ->
  let r := main E args (start typed) in
  r = (Raise (Exn "ZeroDivisionError" "division by zero"),
       World (unread w')
         (log w' ++ class_counts (length data) (Z.of_nat (length data)))) /\
  existsb is_training (log (snd r)) = false /\
  (forall data' : list json,
     Forall (fun d => exists v, getitem d "label" = inr v) data' ->
     exists positive,
       count_positive data' 0 = inr positive /\
       let negative := (Z.of_nat (length data') - positive)%Z in
       (truediv positive negative = inl (Exn "ZeroDivisionError" "division by zero")
        <-> Forall (fun d => label_is_one d = true) data') /\
       (Forall label_is_binary data' ->
        ((exists q, truediv positive negative = inr q)
         <-> Exists (fun d => getitem d "label" = inr (JInt 0)) data'))).
Proof.
  intros Ht Hm Hload Hall.
  assert (Hlabelled : Forall (fun d => exists v, getitem d "label" = inr v) data).
  { eapply Forall_impl; [|exact Hall]. intros d Hd. unfold label_is_one in Hd.
    destruct (getitem d "label") as [|v]; [discriminate | now exists v]. }
  assert (Hcount : count_positive data 0 = inr (Z.of_nat (length data))).
  { rewrite (count_positive_labelled data Hlabelled).
    now rewrite (proj2 (filter_length_all label_is_one data) Hall). }
  assert (Hrun : main E args (start typed) =
    (Raise (Exn "ZeroDivisionError" "division by zero"),
     World (unread w')
       (log w' ++ class_counts (length data) (Z.of_nat (length data))))).
  { apply (proj2 (main_counts E args typed tok m data w' Ht Hm Hload) _ _ Hcount).
    apply truediv_zero. lia. }
  cbn zeta. rewrite Hrun. split; [reflexivity|]. split.
  - cbn [snd log]. rewrite existsb_app.
    now rewrite (loaded_log_not_training E args typed _ _ Hload).
  - intros data' Hlab. exists (Z.of_nat (length (filter label_is_one data'))).
    split; [now apply count_positive_labelled|]. cbn zeta.
    assert (Hzero :
      (Z.of_nat (length data') - Z.of_nat (length (filter label_is_one data')) = 0)%Z
      <-> Forall (fun d => label_is_one d = true) data').
    { rewrite <- filter_length_all. lia. }
    split.
    + now rewrite truediv_zero.
    + intros Hbin. rewrite <- (binary_labels_not_all_one data' Hbin), <- Hzero.
      unfold truediv.
      destruct (Z.eqb_spec
        (Z.of_nat (length data') - Z.of_nat (length (filter label_is_one data'))) 0)
        as [Hz|Hz].
      * split; [intros (q & Hq); discriminate | intros Hn; now elim Hn].
      * split; [intros _; exact Hz | intros _; eexists; reflexivity].
Qed.

Lemma all_positive_dataset_divides_by_zero_witness :
  let E := Demo.finetune_env [("training-data.jsonl", Demo.dataset 3 "ha" "1")] false in
  main E default_arguments (start ["y"]) =
    (Raise (Exn "ZeroDivisionError" "division by zero"),
     World []
       (preamble E default_arguments
        ++ PathExists "training-data.jsonl" :: OpenRead "training-data.jsonl"
           :: low_data_dialogue 3
        ++ class_counts 3 3)).
Proof.
  intros E.
  refine (proj1 (all_positive_dataset_divides_by_zero E default_arguments ["y"]
                   (Tokenizer base_model)
                   (Model base_model 2 [(0, "NO_HUMOR"); (1, "HUMOR")]%Z)
                   (repeat Demo.joke 3)
                   (World []
                      (preamble E default_arguments
                       ++ PathExists "training-data.jsonl"
                          :: OpenRead "training-data.jsonl" :: low_data_dialogue 3))
                   _ _ _ _)); try reflexivity.
  repeat constructor.
Defined.

(** ** Records without the required fields *)

Lemma traverse_Exists {A B} (f : A -> answer B) l :
  Exists (fun x => exists e, f x = inl e) l <-> exists e, traverse f l = inl e.
Proof.
  induction l as [|x l IH]; cbn.
  - split; [intros H; inversion H | intros (e & H); discriminate].
  - destruct (f x) as [e|y] eqn:Hx.
    + split; [intros _; now exists e | intros _; left; now exists e].
    + split.
      * intros H. inversion H as [? ? (e & He)|? ? H']; subst; [congruence|].
        apply IH in H' as (e & ->). now exists e.
      * intros (e & He). right. apply IH.
        destruct (traverse f l) as [e'|]; [now exists e' | discriminate].
Qed.

(** C8, as claimed, fails: a dataset file of twenty lines [{}] is loaded
    without complaint, though none of its records has a [text] or a
    [label]. *)
Lemma loader_returns_records_without_fields :
  let E := Demo.finetune_env [("training-data.jsonl", File (repeat "{}" 20))] false in
  exists data w',
    load_training_data E "training-data.jsonl" (start []) = (Ret data, w') /\
    data = repeat (JObject []) 20 /\
    ~ Forall has_fields data.
Proof.
  intros E. eexists. eexists. split; [vm_compute; reflexivity|].
  split; [reflexivity|].
  intros H. inversion H as [|? ? ((t & Ht) & _) _]. discriminate.
Qed.

(** C8, amended.  The loader does not look into the records: with at least
    20 of them it returns whatever values the lines decode to.  What
    follows in [main] depends on the fields only through subscripting: a
    record without [label], or that is not an object, ends [main] with an
    uncaught exception when the positives are counted, right after the total
    has been printed; records that all have a label are counted whatever the
    label is, the positives being those equal to 1; and a record without
    [text] makes [prepare_dataset] raise before any library is called. *)
Theorem records_are_not_validated E args typed tok m data w' :
  tokenizer_from_pretrained E base_model = inr tok ->
  model_from_pretrained E base_model 2 [(0, "NO_HUMOR"); (1, "HUMOR")]%Z = inr m ->
  load_training_data E (arg_data args) (World typed (preamble E args)) = (Ret data, w') ->
  (forall path lines values w,
     fs E path = Some (File lines) -> decoded E lines = inr values ->
     (20 <= length values)%nat ->
     fst (load_training_data E path w) = Ret values) /\
  (Exists (fun d => exists e, getitem d "label" = inl e) data ->
   exists e,
     count_positive data 0 = inl e /\
     main E args (start typed) =
       (Raise e,
        World (unread w')
          (log w' ++ [Print [Lit "  Total examples: "; FInt (Z.of_nat (length data))]]))) /\
  (Forall (fun d => exists v, getitem d "label" = inr v) data ->
   count_positive data 0 = inr (Z.of_nat (length (filter label_is_one data)))) /\
  (forall tokenizer val_split w,
     Exists (fun d => exists e, getitem d "text" = inl e) data ->
     exists e, prepare_dataset E data tokenizer val_split w = (Raise e, w)).
Proof.
  intros Ht Hm Hload. repeat split.
  - intros path lines values w Hfs Hd Hlen.
    rewrite load_training_data_run, Hfs, Hd. apply Nat.ltb_ge in Hlen.
    now rewrite Hlen.
  - intros Hex. apply count_positive_unlabelled in Hex as (e & He).
    exists e. split; [exact He|].
    now apply (proj1 (main_counts E args typed tok m data w' Ht Hm Hload)).
  - apply count_positive_labelled.
  - intros tokenizer val_split w Hex.
    apply (traverse_Exists (fun item => getitem item "text")) in Hex as (e & He).
    exists e. unfold prepare_dataset. run. now rewrite He.
Qed.

Lemma records_are_not_validated_witness :
  let E := Demo.finetune_env [("training-data.jsonl", File (repeat "{}" 20))] false in
  exists w,
    main E default_arguments (start []) = (Raise (Exn "KeyError" "label"), w) /\
    existsb is_training (log w) = false.
Proof.
  intros E.
  destruct (records_are_not_validated E default_arguments []
              (Tokenizer base_model)
              (Model base_model 2 [(0, "NO_HUMOR"); (1, "HUMOR")]%Z)
              (repeat (JObject []) 20)
              (World []
                 (preamble E default_arguments
                  ++ [PathExists "training-data.jsonl"; OpenRead "training-data.jsonl"]))
              eq_refl eq_refl eq_refl) as (_ & Hmain & _).
  destruct Hmain as (e & He & Hrun).
  - left. now exists (Exn "KeyError" "label").
  - eexists. split.
    + rewrite Hrun. cbn in He. injection He as <-. reflexivity.
    + reflexivity.
Defined.

(** ** The metrics *)

(** C2.  For class scores whose row-wise argmax is the prediction vector
    [1,0,1,1] and the label vector [1,0,0,1], [compute_metrics] counts two
    true positives, one false positive and no false negative and returns
    accuracy 3/4, precision 2/3, recall 1 and F1 4/5. *)
Theorem metrics_of_fixed_example (scores : list (list Q)) :
  traverse argmax scores = inr [1; 0; 1; 1]%Z ->
  true_positives [1; 0; 0; 1]%Z [1; 0; 1; 1]%Z = 2%Z /\
  false_positives [1; 0; 0; 1]%Z [1; 0; 1; 1]%Z = 1%Z /\
  false_negatives [1; 0; 0; 1]%Z [1; 0; 1; 1]%Z = 0%Z /\
  exists result,
    compute_metrics (scores, [1; 0; 0; 1]%Z) = inr result /\
    accuracy result == 3 # 4 /\
    precision result == 2 # 3 /\
    recall result == 1 /\
    f1 result == 4 # 5.
Proof.
  intros Hargmax. repeat split.
  unfold compute_metrics. rewrite Hargmax.
  eexists. split; [vm_compute; reflexivity|].
  cbn [accuracy precision recall f1]. repeat split; reflexivity.
Qed.

Lemma metrics_of_fixed_example_witness :
  exists result,
    compute_metrics
      ([ [-(12 # 10); 7 # 10]; [3 # 1; -(1 # 2)]; [0; 1 # 100]; [-(2 # 1); 5 # 2] ],
       [1; 0; 0; 1]%Z) = inr result /\
    accuracy result == 3 # 4 /\
    precision result == 2 # 3 /\
    recall result == 1 /\
    f1 result == 4 # 5.
Proof.
  exact (proj2 (proj2 (proj2
    (metrics_of_fixed_example
       [ [-(12 # 10); 7 # 10]; [3 # 1; -(1 # 2)]; [0; 1 # 100]; [-(2 # 1); 5 # 2] ]
       eq_refl)))).
Defined.

(** ** The split *)

Lemma traverse_length {A B} (f : A -> answer B) l ys :
  traverse f l = inr ys -> length ys = length l.
Proof.
  intros H. apply traverse_Forall2 in H.
  induction H; cbn; congruence.
Qed.

Lemma select_app rows i1 i2 :
  select rows (i1 ++ i2) = select rows i1 ++ select rows i2.
Proof. apply flat_map_app. Qed.

Lemma select_all_from pre rows :
  select (pre ++ rows) (seq (length pre) (length rows)) = rows.
Proof.
  revert pre. induction rows as [|r rows IH]; intros pre; [reflexivity|].
  cbn [length seq select flat_map].
  rewrite nth_error_app2, Nat.sub_diag by lia. cbn. f_equal.
  specialize (IH (pre ++ [r])).
  rewrite <- app_assoc, length_app, Nat.add_1_r in IH. exact IH.
Qed.

Lemma select_all rows : select rows (seq 0 (length rows)) = rows.
Proof. exact (select_all_from [] rows). Qed.

Lemma select_length rows indices :
  Forall (fun i => (i < length rows)%nat) indices ->
  length (select rows indices) = length indices.
Proof.
  induction 1 as [|i indices Hi _ IH]; [reflexivity|].
  cbn [select flat_map]. apply nth_error_Some in Hi.
  destruct (nth_error rows i); [|congruence].
  cbn. f_equal. exact IH.
Qed.

(** A tenth, rounded up. *)
Lemma test_rows_of_default n :
  Z.to_nat (Qceiling (val_split_default * inject_Z (Z.of_nat n))) = ((n + 9) / 10)%nat.
Proof.
  unfold Qceiling, Qfloor, Qopp, Qmult, val_split_default, inject_Z.
  cbn [Qnum Qden Pos.mul].
  apply Nat2Z.inj. rewrite Nat2Z.inj_div, Nat2Z.inj_add.
  change (Z.of_nat 9) with 9%Z. change (Z.of_nat 10) with 10%Z.
  change (Z.pos (10 * 1)) with 10%Z.
  assert (H : (0 <= - (- (1 * Z.of_nat n) / 10))%Z)
    by (pose proof (Nat2Z.is_nonneg n); Z.div_mod_to_equations; lia).
  rewrite Z2Nat.id by exact H.
  pose proof (Nat2Z.is_nonneg n). Z.div_mod_to_equations. lia.
Qed.

(** Every step of [prepare_dataset], case by case. *)
Lemma prepare_dataset_run E data tok val_split w :
  prepare_dataset E data tok val_split w =
  match traverse (fun item => getitem item "text") data with
  | inl e => (Raise e, w)
  | inr texts =>
  match traverse (fun item => getitem item "label") data with
  | inl e => (Raise e, w)
  | inr labels =>
  match from_dict E texts labels with
  | inl e => (Raise e, World (unread w) (log w ++ [FromDict (length data)]))
  | inr _ =>
  match tokenize E tok 128 texts labels with
  | inl e =>
      (Raise e,
       World (unread w) (log w ++ [FromDict (length data); Tokenize (length data)]))
  | inr rows =>
      let said :=
        log w ++ [FromDict (length data); Tokenize (length data);
                  TrainTestSplit (length rows) 42] in
      match train_test_split E rows val_split 42 with
      | inl e => (Raise e, World (unread w) said)
      | inr split => (Ret (fst split, snd split), World (unread w) said)
      end
  end end end end.
Proof.
  unfold prepare_dataset.
  destruct (traverse (fun item => getitem item "text") data) as [e|texts];
    run; [reflexivity|].
  destruct (traverse (fun item => getitem item "label") data) as [e|labels];
    run; [reflexivity|].
  destruct (from_dict E texts labels) as [e|[]]; run; [reflexivity|].
  destruct (tokenize E tok 128 texts labels) as [e|rows]; run; [reflexivity|].
  destruct (train_test_split E rows val_split 42) as [e|split]; run; reflexivity.
Qed.

(** The split of two or more rows along a permutation of their positions. *)
Lemma train_test_split_default E rows :
  Permutation (permutation E 42 (length rows)) (seq 0 (length rows)) ->
  (2 <= length rows)%nat ->
  let n_test := ((length rows + 9) / 10)%nat in
  let perm := permutation E 42 (length rows) in
  train_test_split E rows val_split_default 42 =
    inr (select rows (skipn n_test perm), select rows (firstn n_test perm)) /\
  (1 <= n_test < length rows)%nat.
Proof.
  intros Hperm Hn. cbn zeta.
  assert (Hbound : (1 <= (length rows + 9) / 10 < length rows)%nat).
  { pose proof (Nat.div_mod_eq (length rows + 9) 10) as Hd.
    pose proof (Nat.mod_upper_bound (length rows + 9) 10). lia. }
  split; [|exact Hbound].
  unfold train_test_split.
  destruct (Nat.eqb_spec (length rows) 0); [lia|].
  change (Qle_bool val_split_default 0 || Qle_bool 1 val_split_default) with false.
  cbv iota. rewrite test_rows_of_default. cbv zeta.
  destruct (Nat.ltb_spec (length rows)
              (length rows - (length rows + 9) / 10 + (length rows + 9) / 10));
    [lia|].
  destruct (Nat.eqb_spec (length rows - (length rows + 9) / 10) 0); [lia|].
  rewrite firstn_all2; [reflexivity|].
  rewrite length_skipn, (Permutation_length Hperm), length_seq. lia.
Qed.

Lemma train_test_split_single E rows :
  length rows = 1%nat ->
  train_test_split E rows val_split_default 42 =
    inl (Exn "ValueError" "the resulting train set will be empty").
Proof.
  intros Hn. unfold train_test_split. rewrite Hn.
  change (Qle_bool val_split_default 0 || Qle_bool 1 val_split_default) with false.
  reflexivity.
Qed.

Lemma traverse_ext {A B} (f g : A -> answer B) l :
  (forall x, f x = g x) -> traverse f l = traverse g l.
Proof.
  intros Hfg. induction l as [|x l IH]; cbn; [reflexivity|]. now rewrite Hfg, IH.
Qed.

Lemma tokenize_length E tok max_length texts labels rows :
  length texts = length labels ->
  tokenize E tok max_length texts labels = inr rows ->
  length rows = length texts.
Proof.
  intros Hlen H. apply traverse_length in H.
  rewrite H, length_combine. lia.
Qed.

(** C3, as claimed, fails: a dataset of one example is not split at all;
    the split refuses it, the train part being empty. *)
Lemma single_example_is_not_split :
  let E := Demo.finetune_env [] false in
  prepare_dataset E [Demo.sober] (Tokenizer base_model) val_split_default (start []) =
    (Raise (Exn "ValueError" "the resulting train set will be empty"),
     World [] [FromDict 1; Tokenize 1; TrainTestSplit 1 42]) /\
  ~ exists train val w',
      prepare_dataset E [Demo.sober] (Tokenizer base_model) val_split_default (start [])
      = (Ret (train, val), w').
Proof.
  intros E.
  assert (H : prepare_dataset E [Demo.sober] (Tokenizer base_model) val_split_default
                (start []) =
              (Raise (Exn "ValueError" "the resulting train set will be empty"),
               World [] [FromDict 1; Tokenize 1; TrainTestSplit 1 42]))
    by (vm_compute; reflexivity).
  split; [exact H|].
  intros (train & val & w' & H'). rewrite H in H'. discriminate.
Qed.

(** C3, amended.  Let the examples all have a text and a label, and let the
    libraries accept and tokenize them into [rows].  With two examples or
    more, and a generator that draws a permutation of the positions,
    [prepare_dataset] returns a train part and a validation part which
    together are a rearrangement of [rows]: they are the rows at two lists
    of positions that together hold every position exactly once, the
    validation part has a tenth of the rows, rounded up, and neither part is
    empty.  A single example is refused with a [ValueError], its train
    part being empty, and no example at all gives two empty parts.  The
    generator is asked for seed 42 only: in any other environment in which
    the libraries answer alike and the generator seeded with 42 draws the
    same permutation, the outcome is the same. *)
Theorem split_is_a_partition E data tok texts labels rows :
  Permutation (permutation E 42 (length data)) (seq 0 (length data)) ->
  traverse (fun item => getitem item "text") data = inr texts ->
  traverse (fun item => getitem item "label") data = inr labels ->
  from_dict E texts labels = inr tt ->
  tokenize E tok 128 texts labels = inr rows ->
  ((2 <= length data)%nat ->
   exists train val train_indices test_indices,
     (forall w,
        prepare_dataset E data tok val_split_default w =
          (Ret (train, val),
           World (unread w)
             (log w ++ [FromDict (length data); Tokenize (length data);
                        TrainTestSplit (length data) 42]))) /\
     train = select rows train_indices /\
     val = select rows test_indices /\
     Permutation (test_indices ++ train_indices) (seq 0 (length data)) /\
     Permutation (train ++ val) rows /\
     length val = ((length data + 9) / 10)%nat /\
     (length train + length val = length data)%nat /\
     (1 <= length train)%nat /\ (1 <= length val)%nat) /\
  (length data = 1%nat ->
   forall w,
     fst (prepare_dataset E data tok val_split_default w) =
       Raise (Exn "ValueError" "the resulting train set will be empty")) /\
  (data = [] ->
   forall w,
     prepare_dataset E data tok val_split_default w =
       (Ret ([], []),
        World (unread w) (log w ++ [FromDict 0; Tokenize 0; TrainTestSplit 0 42]))) /\
  (forall E' w w',
     from_dict E' texts labels = from_dict E texts labels ->
     (forall t, encode E' tok t 128 = encode E tok t 128) ->
     permutation E' 42 (length data) = permutation E 42 (length data) ->
     fst (prepare_dataset E' data tok val_split_default w') =
     fst (prepare_dataset E data tok val_split_default w)).
Proof.
  intros Hperm Htexts Hlabels Hdict Hrows.
  assert (Hlen : length rows = length data).
  { rewrite (tokenize_length E tok 128 texts labels rows); trivial.
    - now apply traverse_length in Htexts.
    - apply traverse_length in Htexts. apply traverse_length in Hlabels. congruence. }
  split; [|split; [|split]].
  - intros Hn. rewrite <- Hlen in Hperm, Hn.
    destruct (train_test_split_default E rows Hperm Hn) as (Hsplit & Hlo & Hhi).
    cbn zeta in Hsplit.
    set (n_test := ((length rows + 9) / 10)%nat) in *.
    set (perm := permutation E 42 (length rows)) in *.
    assert (Hrange : Forall (fun i => (i < length rows)%nat) perm).
    { apply Forall_forall. intros i Hi.
      apply (Permutation_in _ Hperm), in_seq in Hi. lia. }
    assert (Hparts : firstn n_test perm ++ skipn n_test perm = perm)
      by apply firstn_skipn.
    assert (Hplen : length perm = length rows)
      by (rewrite (Permutation_length Hperm); apply length_seq).
    exists (select rows (skipn n_test perm)), (select rows (firstn n_test perm)),
      (skipn n_test perm), (firstn n_test perm).
    assert (Hval : length (select rows (firstn n_test perm)) = n_test).
    { rewrite select_length.
      - rewrite length_firstn. lia.
      - rewrite <- Hparts in Hrange. now apply Forall_app in Hrange. }
    assert (Htrain : length (select rows (skipn n_test perm)) = (length rows - n_test)%nat).
    { rewrite select_length.
      - rewrite length_skipn. lia.
      - rewrite <- Hparts in Hrange. now apply Forall_app in Hrange. }
    repeat split.
    + intros w. rewrite prepare_dataset_run, Htexts, Hlabels, Hdict, Hrows.
      cbn zeta. rewrite Hsplit, Hlen. reflexivity.
    + rewrite Hparts, <- Hlen. exact Hperm.
    + rewrite Permutation_app_comm, <- select_app, Hparts.
      rewrite <- (select_all rows) at 2.
      unfold select. now apply Permutation_flat_map.
    + rewrite Hval, <- Hlen. reflexivity.
    + rewrite Hval, Htrain, <- Hlen. lia.
    + rewrite Htrain. lia.
    + rewrite Hval. lia.
  - intros Hn w. rewrite prepare_dataset_run, Htexts, Hlabels, Hdict, Hrows.
    cbn zeta. rewrite train_test_split_single by lia. reflexivity.
  - intros -> w. destruct rows; [|discriminate Hlen].
    rewrite prepare_dataset_run, Htexts, Hlabels, Hdict, Hrows. reflexivity.
  - intros E' w w' Hdict' Henc Hperm'.
    assert (Hrows' : tokenize E' tok 128 texts labels = inr rows).
    { rewrite <- Hrows. unfold tokenize. apply traverse_ext.
      intros tl. now rewrite Henc. }
    assert (Hsplit : train_test_split E' rows val_split_default 42 =
                     train_test_split E rows val_split_default 42).
    { unfold train_test_split. now rewrite Hlen, Hperm'. }
    rewrite !prepare_dataset_run, Htexts, Hlabels, Hdict', Hdict, Hrows', Hrows.
    cbn zeta. rewrite Hsplit.
    destruct (train_test_split E rows val_split_default 42); reflexivity.
Qed.

Lemma split_is_a_partition_witness :
  let E := Demo.finetune_env [] false in
  let data := repeat Demo.joke 12 ++ repeat Demo.sober 10 in
  exists train val,
    prepare_dataset E data (Tokenizer base_model) val_split_default (start []) =
      (Ret (train, val), World [] [FromDict 22; Tokenize 22; TrainTestSplit 22 42]) /\
    length train = 19%nat /\ length val = 3%nat.
Proof.
  intros E data.
  destruct (split_is_a_partition E data (Tokenizer base_model)
              (repeat (JString "ha") 12 ++ repeat (JString "no") 10)
              (repeat (JInt 1) 12 ++ repeat (JInt 0) 10)
              (repeat (Row (JString "ha") (JInt 1) (Demo.encoding "ha")) 12
               ++ repeat (Row (JString "no") (JInt 0) (Demo.encoding "no")) 10))
    as (Hsplit & _).
  - symmetry. apply Permutation_rev.
  - reflexivity.
  - reflexivity.
  - reflexivity.
  - vm_compute. reflexivity.
  - destruct Hsplit as (train & val & ti & vi & Hrun & _ & _ & _ & _ & Hv & Ht & _).
    + vm_compute. lia.
    + exists train, val. split; [exact (Hrun (start []))|].
      change (length data) with 22%nat in Hv, Ht.
      change ((22 + 9) / 10)%nat with 3%nat in Hv. lia.
Defined.

End FineTuneProofs.

(** * The converter *)

Module ConvertProofs.
Import Convert.

#[local] Arguments repeat_string : simpl never.
#[local] Arguments for_each : simpl never.
#[local] Arguments test_one : simpl never.
#[local] Arguments pipeline : simpl never.

(** ** Softmax *)

Lemma sum_exp_cons x scores : sum_exp (x :: scores) = (exp x + sum_exp scores)%R.
Proof. reflexivity. Qed.

Lemma sum_exp_nonneg scores : (0 <= sum_exp scores)%R.
Proof.
  induction scores as [|x scores IH]; [cbn; lra|].
  rewrite sum_exp_cons. pose proof (exp_pos x). lra.
Qed.

Lemma exp_le_sum_exp x scores : In x scores -> (exp x <= sum_exp scores)%R.
Proof.
  induction scores as [|y scores IH]; [intros []|].
  rewrite sum_exp_cons. intros [-> | Hin].
  - pose proof (sum_exp_nonneg scores). lra.
  - pose proof (exp_pos y). specialize (IH Hin). lra.
Qed.

(** Every entry of a softmax, and so the entry at any position with 0 for
    a position outside, lies between 0 and 1. *)
Lemma softmax_nth_bounds scores k : (0 <= nth k (softmax scores) 0 <= 1)%R.
Proof.
  destruct (Nat.lt_ge_cases k (length (softmax scores))) as [Hk|Hk].
  - apply (nth_In _ 0%R) in Hk. unfold softmax in Hk at 2.
    apply in_map_iff in Hk as (x & <- & Hx).
    pose proof (exp_pos x) as Hpos.
    pose proof (exp_le_sum_exp x scores Hx) as Hle.
    assert (Hs : (0 < sum_exp scores)%R) by lra.
    pose proof (Rinv_0_lt_compat _ Hs) as Hinv.
    unfold Rdiv. split.
    + apply Rmult_le_pos; lra.
    + rewrite <- (Rinv_r (sum_exp scores)) by lra.
      apply Rmult_le_compat_r; lra.
  - rewrite nth_overflow by exact Hk. lra.
Qed.

(** ** The smoke test *)

(** The log of the smoke test over [texts] with predictions [preds]. *)
Lemma test_one_returns E tok m om text w w' :
  test_one E tok m om text w = (Ret tt, w') ->
  exists p,
    predicted E tok m om text p /\
    w' = World (unread w) (log w ++ prediction_report text (fst p) (snd p)).
Proof.
  unfold test_one.
  destruct (encode E tok text) as [e|inputs] eqn:He; run; [discriminate|].
  destruct (forward E om inputs) as [e|logits] eqn:Hf; run; [discriminate|].
  destruct (argmax logits) as [e|k] eqn:Ha; run; [discriminate|].
  destruct (lookup_label (Z.of_nat k) (id2label m)) as [e|label] eqn:Hl; run;
    [discriminate|].
  intros [= <-].
  exists (label, nth k (softmax logits) 0%R). split; [|reflexivity].
  exists inputs, logits, k. cbn [fst snd]. auto.
Qed.

Lemma for_each_cons {A} (f : A -> Py unit) x l w :
  for_each f (x :: l) w = py_bind (f x) (fun _ => for_each f l) w.
Proof. reflexivity. Qed.

Lemma smoke_test_returns E tok m om texts w w' :
  for_each (test_one E tok m om) texts w = (Ret tt, w') ->
  exists preds,
    Forall2 (predicted E tok m om) texts preds /\
    unread w' = unread w /\
    log w' =
      log w ++
      concat (map (fun tp => prediction_report (fst tp) (fst (snd tp)) (snd (snd tp)))
                (combine texts preds)).
Proof.
  revert w. induction texts as [|text texts IH]; intros w.
  - intros [= <-]. exists []. cbn. rewrite app_nil_r. repeat split. constructor.
  - rewrite for_each_cons. unfold py_bind.
    destruct (test_one E tok m om text w) as [[[]|c|e] w1] eqn:H1;
      [|discriminate|discriminate].
    intros Hrest. apply test_one_returns in H1 as (p & Hp & ->).
    apply IH in Hrest as (preds & Hpreds & Hunread & Hlog).
    exists (p :: preds). split; [now constructor|]. split; [exact Hunread|].
    rewrite Hlog. cbn [unread log combine map concat fst snd].
    now rewrite <- !app_assoc.
Qed.

Lemma predicted_confidence E tok m om text p :
  predicted E tok m om text p -> (0 <= snd p <= 1)%R.
Proof.
  intros (inputs & logits & k & _ & _ & _ & _ & ->). apply softmax_nth_bounds.
Qed.

(** Whatever happens, the converter prints no number outside [0,1]. *)
Lemma adds_script_probabilities E : adds prints_probabilities (script E).
Proof.
  unfold script, convert_model, pipeline, try_except.
  adds_steps; try exact I;
    cbn; repeat (apply Forall_cons || apply Forall_nil); try exact I;
    apply softmax_nth_bounds.
Qed.

(** ** The pipeline *)

(** Every run of the pipeline, case by case. *)
Lemma pipeline_run E w :
  pipeline E w =
  let at_ said := World (unread w) (log w ++ said) in
  match tokenizer_from_pretrained E MODEL_NAME with
  | inl e => (Raise e, at_ upto_tokenizer)
  | inr tokenizer =>
  match model_from_pretrained E MODEL_NAME with
  | inl e => (Raise e, at_ upto_model)
  | inr model =>
  match onnx_from_pretrained E MODEL_NAME with
  | inl e => (Raise e, at_ upto_export)
  | inr onnx_model =>
  match onnx_save_pretrained E onnx_model OUTPUT_DIR with
  | inl e => (Raise e, at_ upto_save_model)
  | inr _ =>
  match tokenizer_save_pretrained E tokenizer OUTPUT_DIR with
  | inl e => (Raise e, at_ upto_save_tokenizer)
  | inr _ =>
      match for_each (test_one E tokenizer model onnx_model) test_texts (at_ upto_test) with
      | (Ret _, w') => (Ret tt, World (unread w') (log w' ++ closing))
      | (Exit c, w') => (Exit c, w')
      | (Raise e, w') => (Raise e, w')
      end
  end end end end end.
Proof.
  unfold pipeline. cbn zeta.
  destruct (tokenizer_from_pretrained E MODEL_NAME) as [e|tok]; run; [reflexivity|].
  destruct (model_from_pretrained E MODEL_NAME) as [e|m]; run; [reflexivity|].
  destruct (onnx_from_pretrained E MODEL_NAME) as [e|om]; run; [reflexivity|].
  destruct (onnx_save_pretrained E om OUTPUT_DIR) as [e|[]]; run; [reflexivity|].
  destruct (tokenizer_save_pretrained E tok OUTPUT_DIR) as [e|[]]; run; [reflexivity|].
  match goal with
  | |- context [for_each ?f ?l ?w0] => destruct (for_each f l w0) as [[[]|c|e] w']
  end; run; reflexivity.
Qed.

(** ** What the script computes is what the smoke test is meant to print *)

Lemma argmax_from_spec seen rest best best_i :
  (best_i < length seen)%nat ->
  nth best_i (seen ++ rest) 0%R = best ->
  (forall x, In x seen -> (x <= best)%R) ->
  (forall j, (j < best_i)%nat -> (nth j seen 0 < best)%R) ->
  let k := argmax_from best best_i (length seen) rest in
  (k < length (seen ++ rest))%nat /\
  (forall x, In x (seen ++ rest) -> (x <= nth k (seen ++ rest) 0)%R) /\
  (forall j, (j < k)%nat -> (nth j (seen ++ rest) 0 < nth k (seen ++ rest) 0)%R).
Proof.
  revert seen best best_i.
  induction rest as [|y rest IH]; intros seen best best_i Hi Hb Hmax Hfirst.
  - cbn. rewrite app_nil_r in *. split; [exact Hi|]. split.
    + intros x Hx. rewrite Hb. now apply Hmax.
    + intros j Hj. rewrite Hb. now apply Hfirst.
  - cbn [argmax_from].
    replace (seen ++ y :: rest) with ((seen ++ [y]) ++ rest) in *
      by now rewrite <- app_assoc.
    replace (S (length seen)) with (length (seen ++ [y]))
      by (rewrite length_app; cbn; lia).
    destruct (Rle_dec y best) as [Hle|Hgt].
    + apply IH.
      * rewrite length_app. cbn. lia.
      * exact Hb.
      * intros x Hx. apply in_app_or in Hx as [Hx|[<-|[]]]; [now apply Hmax | exact Hle].
      * intros j Hj. rewrite app_nth1 by lia. now apply Hfirst.
    + apply IH.
      * rewrite length_app. cbn. lia.
      * rewrite app_nth1 by (rewrite length_app; cbn; lia).
        now rewrite nth_middle.
      * intros x Hx. apply in_app_or in Hx as [Hx|[<-|[]]]; [|lra].
        specialize (Hmax x Hx). lra.
      * intros j Hj. rewrite app_nth1 by exact Hj.
        assert (Hin : In (nth j seen 0%R) seen) by now apply nth_In.
        specialize (Hmax _ Hin). lra.
Qed.

(** [argmax] gives the position of the first largest score. *)
Lemma argmax_first_largest scores k :
  argmax scores = inr k -> first_largest scores k.
Proof.
  destruct scores as [|x0 rest]; [discriminate|].
  cbn [argmax]. intros [= <-].
  destruct (argmax_from_spec [x0] rest x0 0%nat) as (Hk & Hmax & Hfirst).
  - cbn. lia.
  - reflexivity.
  - intros x [<-|[]]. lra.
  - intros j Hj. lia.
  - change ([x0] ++ rest) with (x0 :: rest) in Hk, Hmax, Hfirst.
    change (length [x0]) with 1%nat in Hk, Hmax, Hfirst.
    split; [exact Hk|]. split; [|exact Hfirst].
    intros j Hj. apply Hmax. now apply nth_In.
Qed.

Lemma sum_exp_is_sum scores : sum_exp scores = fold_right Rplus 0%R (map exp scores).
Proof.
  induction scores as [|x scores IH]; [reflexivity|].
  rewrite sum_exp_cons, IH. reflexivity.
Qed.

Lemma softmax_nth scores k :
  (k < length scores)%nat ->
  nth k (softmax scores) 0%R = (exp (nth k scores 0) / sum_exp scores)%R.
Proof.
  intros Hk. unfold softmax.
  rewrite (nth_indep _ 0%R (exp 0 / sum_exp scores)%R) by now rewrite length_map.
  exact (map_nth (fun x => (exp x / sum_exp scores)%R) scores 0%R k).
Qed.

(** [d[k]] is the value of the first binding of [k]. *)
Lemma lookup_label_find k d v :
  lookup_label k d = inr v ->
  find (fun kv => (fst kv =? k)%Z) d = Some (k, v).
Proof.
  induction d as [|[k' v'] d IH]; cbn; [discriminate|].
  rewrite (Z.eqb_sym k' k). destruct (Z.eqb_spec k k') as [->|Hne].
  - now intros [= ->].
  - exact IH.
Qed.

Lemma predicted_is_prediction E tok m om text p :
  predicted E tok m om text p -> is_prediction E tok m om text p.
Proof.
  intros (inputs & logits & k & He & Hf & Ha & Hl & Hp).
  exists inputs, logits, k.
  pose proof (argmax_first_largest logits k Ha) as Hk.
  repeat split; try apply Hk; trivial.
  - now apply lookup_label_find.
  - rewrite Hp, softmax_nth by apply Hk.
    unfold softmax_probability. now rewrite sum_exp_is_sum.
Qed.

Lemma Forall2_impl {A B} (R R' : A -> B -> Prop) l1 l2 :
  (forall x y, R x y -> R' x y) -> Forall2 R l1 l2 -> Forall2 R' l1 l2.
Proof. intros H. induction 1; constructor; auto. Qed.

Lemma Forall2_Forall_r {A B} (R : A -> B -> Prop) (Q : B -> Prop) l1 l2 :
  (forall x y, R x y -> Q y) -> Forall2 R l1 l2 -> Forall Q l2.
Proof. intros H. induction 1; constructor; eauto. Qed.

Lemma Forall2_length_eq {A B} (R : A -> B -> Prop) l1 l2 :
  Forall2 R l1 l2 -> length l2 = length l1.
Proof. induction 1; cbn; congruence. Qed.

Lemma predicted_all_bounded E tok m om texts preds :
  Forall2 (predicted E tok m om) texts preds ->
  Forall (fun p => (0 <= snd p <= 1)%R) preds.
Proof.
  induction 1 as [|text p texts preds Hp _ IH]; constructor; [|exact IH].
  exact (predicted_confidence E tok m om text p Hp).
Qed.

(** C5.  The smoke test has three fixed sentences.  Whatever the libraries
    answer, the converter prints no confidence outside [0,1].  When the
    smoke test runs through, its log is, sentence by sentence and in order,
    one encoding, one run of the exported model and two printed lines, with
    one label and one confidence for each of the three sentences: the label
    that [id2label] holds for the position of the first largest score, and
    the softmax probability of that class (the exponential of its score
    over the sum of the exponentials of all scores), which lies in [0,1];
    and so when the pipeline runs through. *)
Theorem smoke_test_predicts_each_sentence E :
  length test_texts = 3%nat /\
  adds prints_probabilities (script E) /\
  (forall tok m om w w',
     for_each (test_one E tok m om) test_texts w = (Ret tt, w') ->
     exists preds,
       length preds = 3%nat /\
       Forall2 (is_prediction E tok m om) test_texts preds /\
       Forall (fun p => (0 <= snd p <= 1)%R) preds /\
       log w' =
         log w ++
         concat (map (fun tp => prediction_report (fst tp) (fst (snd tp)) (snd (snd tp)))
                   (combine test_texts preds))) /\
  (forall w w',
     pipeline E w = (Ret tt, w') ->
     exists tok m om preds,
       tokenizer_from_pretrained E MODEL_NAME = inr tok /\
       model_from_pretrained E MODEL_NAME = inr m /\
       onnx_from_pretrained E MODEL_NAME = inr om /\
       length preds = 3%nat /\
       Forall2 (is_prediction E tok m om) test_texts preds /\
       Forall (fun p => (0 <= snd p <= 1)%R) preds /\
       log w' =
         log w ++ upto_test ++
         concat (map (fun tp => prediction_report (fst tp) (fst (snd tp)) (snd (snd tp)))
                   (combine test_texts preds))
         ++ closing).
Proof.
  assert (Hsmoke : forall tok m om w w',
    for_each (test_one E tok m om) test_texts w = (Ret tt, w') ->
    exists preds,
      length preds = 3%nat /\
      Forall2 (is_prediction E tok m om) test_texts preds /\
      Forall (fun p => (0 <= snd p <= 1)%R) preds /\
      log w' =
        log w ++
        concat (map (fun tp => prediction_report (fst tp) (fst (snd tp)) (snd (snd tp)))
                  (combine test_texts preds))).
  { intros tok m om w w' Hrun.
    apply smoke_test_returns in Hrun as (preds & Hpreds & _ & Hlog).
    exists preds. split; [exact (Forall2_length_eq _ _ _ Hpreds)|].
    split; [|split; [|exact Hlog]].
    - revert Hpreds. apply Forall2_impl. apply predicted_is_prediction.
    - exact (predicted_all_bounded E tok m om _ _ Hpreds). }
  split; [reflexivity|]. split; [apply adds_script_probabilities|].
  split; [exact Hsmoke|].
  intros w w'. rewrite pipeline_run. cbn zeta.
  destruct (tokenizer_from_pretrained E MODEL_NAME) as [e|tok]; [discriminate|].
  destruct (model_from_pretrained E MODEL_NAME) as [e|m]; [discriminate|].
  destruct (onnx_from_pretrained E MODEL_NAME) as [e|om]; [discriminate|].
  destruct (onnx_save_pretrained E om OUTPUT_DIR) as [e|[]]; [discriminate|].
  destruct (tokenizer_save_pretrained E tok OUTPUT_DIR) as [e|[]]; [discriminate|].
  destruct (for_each (test_one E tok m om) test_texts
              (World (unread w) (log w ++ upto_test))) as [[[]|c|e] w1] eqn:Htest;
    [|discriminate|discriminate].
  intros [= <-].
  apply Hsmoke in Htest as (preds & Hlen & Hpreds & Hbounds & Hlog).
  exists tok, m, om, preds. repeat split; trivial.
  cbn [log] in Hlog |- *. rewrite Hlog. now rewrite <- !app_assoc.
Qed.

(** With the scores 0 and 1 for the two classes, the only prediction is
    [HUMOR], with the softmax probability of the second class. *)
Lemma prediction_of_scores_0_1 tok name om text p :
  is_prediction (Demo.convert_env [0; 1]%R) tok
    (Model name [(0, "NO_HUMOR"); (1, "HUMOR")]%Z) om text p ->
  fst p = "HUMOR" /\ snd p = (exp 1 / (exp 0 + (exp 1 + 0)))%R.
Proof.
  intros (inputs & logits & k & _ & Hf & (Hk & Hmax & _) & Hl & Hp).
  cbn in Hf. injection Hf as <-.
  assert (Hk1 : k = 1%nat).
  { destruct k as [|[|k]]; [|reflexivity|cbn in Hk; lia].
    specialize (Hmax 1%nat ltac:(cbn; lia)). cbn in Hmax. lra. }
  subst k. cbn in Hl. injection Hl as Hl. split; [now symmetry|].
  rewrite Hp. reflexivity.
Qed.

Lemma smoke_test_predicts_each_sentence_witness :
  let E := Demo.convert_env [0; 1]%R in
  exists w' (preds : list (string * R)),
    pipeline E (start []) = (Ret tt, w') /\
    length preds = 3%nat /\
    Forall (fun p => fst p = "HUMOR" /\ snd p = (exp 1 / (exp 0 + (exp 1 + 0)))%R) preds /\
    Forall (fun p => (0 <= snd p <= 1)%R) preds.
Proof.
  intros E.
  assert (Hrun : exists w', pipeline E (start []) = (Ret tt, w')).
  { rewrite pipeline_run. cbn zeta. cbn. unfold test_texts.
    rewrite !for_each_cons. unfold py_bind, test_one. run.
    destruct (Rle_dec 1 0) as [H|H]; [lra|]. run.
    eexists. reflexivity. }
  destruct Hrun as (w' & Hrun). exists w'.
  destruct (proj2 (proj2 (proj2 (smoke_test_predicts_each_sentence E))) _ _ Hrun)
    as (tok & m & om & preds & _ & Hm & _ & Hlen & Hpreds & Hbounds & _).
  exists preds. split; [exact Hrun|]. split; [exact Hlen|]. split; [|exact Hbounds].
  injection Hm as <-.
  revert Hpreds. apply Forall2_Forall_r.
  intros text p. apply prediction_of_scores_0_1.
Defined.

(** ** The error boundary *)

Lemma test_one_never_exits E tok m om text w c w' :
  test_one E tok m om text w <> (Exit c, w').
Proof.
  unfold test_one.
  destruct (encode E tok text) as [e|inputs]; run; [discriminate|].
  destruct (forward E om inputs) as [e|logits]; run; [discriminate|].
  destruct (argmax logits) as [e|k]; run; [discriminate|].
  destruct (lookup_label (Z.of_nat k) (id2label m)) as [e|label]; run; discriminate.
Qed.

Lemma smoke_test_never_exits E tok m om texts w c w' :
  for_each (test_one E tok m om) texts w <> (Exit c, w').
Proof.
  revert w. induction texts as [|text texts IH]; intros w; [discriminate|].
  rewrite for_each_cons. unfold py_bind.
  destruct (test_one E tok m om text w) as [[[]|c1|e] w1] eqn:H1.
  - apply IH.
  - now apply test_one_never_exits in H1.
  - discriminate.
Qed.

Lemma pipeline_never_exits E w c w' : pipeline E w <> (Exit c, w').
Proof.
  rewrite pipeline_run. cbn zeta.
  destruct (tokenizer_from_pretrained E MODEL_NAME) as [e|tok]; [discriminate|].
  destruct (model_from_pretrained E MODEL_NAME) as [e|m]; [discriminate|].
  destruct (onnx_from_pretrained E MODEL_NAME) as [e|om]; [discriminate|].
  destruct (onnx_save_pretrained E om OUTPUT_DIR) as [e|[]]; [discriminate|].
  destruct (tokenizer_save_pretrained E tok OUTPUT_DIR) as [e|[]]; [discriminate|].
  destruct (for_each (test_one E tok m om) test_texts
              (World (unread w) (log w ++ upto_test))) as [[[]|c1|e] w1] eqn:Htest;
    try discriminate.
  now apply smoke_test_never_exits in Htest.
Qed.

(** [convert_model] once the imports and [mkdir] have succeeded. *)
Lemma convert_model_run E w :
  imports E = inr tt ->
  mkdir E OUTPUT_DIR = inr tt ->
  convert_model E w =
  match pipeline E (World (unread w) (log w ++ before_pipeline)) with
  | (Raise e, w1) =>
      if isinstance e "Exception"
      then (Exit 1, World (unread w1) (log w1 ++ error_report e))
      else (Raise e, w1)
  | r => r
  end.
Proof.
  intros Hi Hm. unfold convert_model, try_except. rewrite Hi, Hm. run.
  repeat match goal with
  | |- context [pipeline E ?w0] =>
      progress change w0 with (World (unread w) (log w ++ before_pipeline))
  end.
  destruct (pipeline E (World (unread w) (log w ++ before_pipeline)))
    as [[[]|c|e] w1]; run; try reflexivity.
  destruct (isinstance e "Exception"); run; reflexivity.
Qed.

(** C6, as claimed, fails: when the operator interrupts the download of the
    tokenizer, the [KeyboardInterrupt] raised in the pipeline is not caught;
    the converter ends with it, and neither an error message nor a stack
    trace has been printed by the handler. *)
Lemma interrupt_is_not_caught :
  let E := Demo.interrupted_env in
  let w0 := World [] before_pipeline in
  pipeline E w0 = (Raise (Exn "KeyboardInterrupt" ""), World [] (before_pipeline ++ upto_tokenizer)) /\
  convert_model E (start []) =
    (Raise (Exn "KeyboardInterrupt" ""), World [] (before_pipeline ++ upto_tokenizer)) /\
  ~ In (PrintTraceback (Exn "KeyboardInterrupt" ""))
      (log (snd (convert_model E (start [])))).
Proof.
  cbn zeta.
  assert (Hp : pipeline Demo.interrupted_env (World [] before_pipeline) =
               (Raise (Exn "KeyboardInterrupt" ""),
                World [] (before_pipeline ++ upto_tokenizer)))
    by (rewrite pipeline_run; reflexivity).
  assert (Hc : convert_model Demo.interrupted_env (start []) =
               (Raise (Exn "KeyboardInterrupt" ""),
                World [] (before_pipeline ++ upto_tokenizer))).
  { rewrite (convert_model_run Demo.interrupted_env (start []) eq_refl eq_refl).
    change (World (unread (start [])) (log (start []) ++ before_pipeline))
      with (World [] before_pipeline).
    rewrite Hp. reflexivity. }
  split; [exact Hp|]. split; [exact Hc|].
  rewrite Hc. cbn. intuition discriminate.
Qed.

(** C6, amended.  Once the imports and the creation of the output directory
    have succeeded, an exception raised anywhere in the pipeline that is an
    instance of [Exception] is caught: the handler prints its message and
    its stack trace and the process exits with status 1.  An exception that
    is not an instance of [Exception], such as [KeyboardInterrupt] or
    [SystemExit], passes through uncaught and nothing more is printed.  A
    pipeline that runs through leaves the converter to return; so the
    converter ends with status 1, or returns, or ends with an exception that
    is not an instance of [Exception].  The exception of each library call
    of the four steps (load, export, save, smoke test) is one the pipeline
    raises. *)
Theorem pipeline_exceptions_are_caught E w :
  imports E = inr tt ->
  mkdir E OUTPUT_DIR = inr tt ->
  let w0 := World (unread w) (log w ++ before_pipeline) in
  (forall e w1,
     pipeline E w0 = (Raise e, w1) ->
     isinstance e "Exception" = true ->
     convert_model E w = (Exit 1, World (unread w1) (log w1 ++ error_report e))) /\
  (forall e w1,
     pipeline E w0 = (Raise e, w1) ->
     isinstance e "Exception" = false ->
     convert_model E w = (Raise e, w1)) /\
  (forall w1, pipeline E w0 = (Ret tt, w1) -> convert_model E w = (Ret tt, w1)) /\
  (fst (convert_model E w) = Exit 1 \/ fst (convert_model E w) = Ret tt \/
   exists e, fst (convert_model E w) = Raise e /\ isinstance e "Exception" = false) /\
  (forall e,
     tokenizer_from_pretrained E MODEL_NAME = inl e -> fst (pipeline E w0) = Raise e) /\
  (forall tok e,
     tokenizer_from_pretrained E MODEL_NAME = inr tok ->
     model_from_pretrained E MODEL_NAME = inl e -> fst (pipeline E w0) = Raise e) /\
  (forall tok m e,
     tokenizer_from_pretrained E MODEL_NAME = inr tok ->
     model_from_pretrained E MODEL_NAME = inr m ->
     onnx_from_pretrained E MODEL_NAME = inl e -> fst (pipeline E w0) = Raise e) /\
  (forall tok m om e,
     tokenizer_from_pretrained E MODEL_NAME = inr tok ->
     model_from_pretrained E MODEL_NAME = inr m ->
     onnx_from_pretrained E MODEL_NAME = inr om ->
     onnx_save_pretrained E om OUTPUT_DIR = inl e
     \/ (onnx_save_pretrained E om OUTPUT_DIR = inr tt /\
         tokenizer_save_pretrained E tok OUTPUT_DIR = inl e)
     \/ (onnx_save_pretrained E om OUTPUT_DIR = inr tt /\
         tokenizer_save_pretrained E tok OUTPUT_DIR = inr tt /\
         exists w1,
           for_each (test_one E tok m om) test_texts
             (World (unread w0) (log w0 ++ upto_test)) = (Raise e, w1)) ->
     fst (pipeline E w0) = Raise e).
Proof.
  intros Hi Hm w0. pose proof (convert_model_run E w Hi Hm) as Hrun.
  fold w0 in Hrun. repeat split.
  - intros e w1 Hp He. now rewrite Hrun, Hp, He.
  - intros e w1 Hp He. now rewrite Hrun, Hp, He.
  - intros w1 Hp. now rewrite Hrun, Hp.
  - rewrite Hrun. destruct (pipeline E w0) as [[[]|c|e] w1] eqn:Hp; cbn; auto.
    + now apply pipeline_never_exits in Hp.
    + destruct (isinstance e "Exception") eqn:He; cbn; eauto.
  - intros e He. now rewrite pipeline_run, He.
  - intros tok e Ht He. now rewrite pipeline_run, Ht, He.
  - intros tok m e Ht Hmo He. now rewrite pipeline_run, Ht, Hmo, He.
  - intros tok m om e Ht Hmo Ho Hcases. rewrite pipeline_run, Ht, Hmo, Ho. cbn zeta.
    destruct Hcases as [He | [(Hs & He) | (Hs & Hts & w1 & He)]].
    + now rewrite He.
    + now rewrite Hs, He.
    + now rewrite Hs, Hts, He.
Qed.

Lemma pipeline_exceptions_are_caught_witness :
  convert_model Demo.failing_export_env (start []) =
    (Exit 1,
     World []
       (before_pipeline ++ upto_export
        ++ error_report (Exn "RuntimeError" "unsupported operator"))).
Proof.
  exact (proj1 (pipeline_exceptions_are_caught Demo.failing_export_env (start [])
                  eq_refl eq_refl)
           (Exn "RuntimeError" "unsupported operator")
           (World [] (before_pipeline ++ upto_export)) eq_refl eq_refl).
Defined.

End ConvertProofs.

(** * Further properties of the fine-tuner *)

Module FineTuneMore.
Import FineTune FineTuneLog FineTuneEntry.

#[local] Arguments Nat.ltb : simpl never.
#[local] Arguments repeat_string : simpl never.
#[local] Arguments load_training_data : simpl never.
#[local] Arguments prepare_dataset : simpl never.

(** ** The order of the calls *)

Lemma stages_app l1 l2 : stages (l1 ++ l2) = stages l1 ++ stages l2.
Proof. apply flat_map_app. Qed.

Section Passes.

Lemma passes_ret {A} a (x : A) : passes a 0 (py_ret x).
Proof. intros w. exists []. cbn. now rewrite app_nil_r. Qed.

Lemma passes_raise {A} a e : passes a 0 (@py_raise A e).
Proof.
  intros w. exists []. cbn. rewrite app_nil_r. split; [reflexivity|].
  now exists 0%nat.
Qed.

Lemma passes_exit {A} a c : passes a 0 (@exit A c).
Proof.
  intros w. exists []. cbn. rewrite app_nil_r. split; [reflexivity|].
  now exists 0%nat.
Qed.

Lemma passes_print a line : passes a 0 (print line).
Proof. intros w. exists [Print line]. now cbn. Qed.

Lemma passes_input a prompt : passes a 0 (input prompt).
Proof.
  intros w. exists [Input prompt]. unfold input.
  destruct (unread w); cbn; (split; [reflexivity|]); [now exists 0%nat | reflexivity].
Qed.

Lemma passes_lift {A} a (x : answer A) : passes a 0 (lift x).
Proof. destruct x; [apply passes_raise | apply passes_ret]. Qed.

Lemma passes_call {A} a e (x : answer A) :
  stage_of e = Some a -> passes a 1 (call e x).
Proof.
  intros He w. exists [e]. unfold call. cbn. unfold py_bind. cbn.
  assert (Hs : stages [e] = [a]) by (unfold stages; cbn; now rewrite He).
  destruct x as [err|v]; cbn; (split; [reflexivity|]); [|exact Hs].
  exists 1%nat. split; [lia | exact Hs].
Qed.

Lemma passes_bind {A B} a n n' total (m : Py A) (f : A -> Py B) :
  passes a n m -> (forall x, passes (a + n) n' (f x)) ->
  (n + n' = total)%nat ->
  passes a total (py_bind m f).
Proof.
  intros Hm Hf <- w. unfold py_bind.
  destruct (Hm w) as (s1 & E1 & S1).
  destruct (m w) as [[x|c|e] w1]; cbn in *.
  - destruct (Hf x w1) as (s2 & E2 & S2).
    exists (s1 ++ s2). rewrite E2, E1, app_assoc. split; [reflexivity|].
    rewrite stages_app, S1.
    destruct (fst (f x w1)).
    + now rewrite S2, seq_app.
    + destruct S2 as (k & Hk & ->). exists (n + k)%nat. split; [lia|].
      now rewrite seq_app.
    + destruct S2 as (k & Hk & ->). exists (n + k)%nat. split; [lia|].
      now rewrite seq_app.
  - exists s1. split; [exact E1|]. destruct S1 as (k & Hk & ->).
    exists k. split; [lia | reflexivity].
  - exists s1. split; [exact E1|]. destruct S1 as (k & Hk & ->).
    exists k. split; [lia | reflexivity].
Qed.

Lemma passes_if {A} a n (b : bool) (m1 m2 : Py A) :
  passes a n m1 -> passes a n m2 -> passes a n (if b then m1 else m2).
Proof. now destruct b. Qed.

Lemma passes_for_each {A} a (f : A -> Py unit) l :
  (forall x, passes a 0 (f x)) -> passes a 0 (for_each f l).
Proof.
  intros Hf. induction l as [|x l IH]; cbn.
  - apply passes_ret.
  - eapply passes_bind; [apply Hf | intros _; rewrite Nat.add_0_r; apply IH | reflexivity].
Qed.

End Passes.

(** Taking a script apart into its steps, counting its calls; [leaf] deals
    with the steps that are scripts of their own. *)
Ltac passes_with leaf :=
  cbn [bind ret raise catch Monad_Py MonadExc_Py];
  lazymatch goal with
  | |- passes _ _ (py_bind _ _) =>
      eapply passes_bind;
      [passes_with leaf | intros ?; passes_with leaf | reflexivity]
  | |- passes _ _ (if _ then _ else _) => apply passes_if; passes_with leaf
  | |- passes _ _ (for_each _ _) =>
      apply passes_for_each; intros ?; passes_with leaf
  | |- passes _ _ (call _ _) => apply passes_call; reflexivity
  | |- passes _ _ (print _) => apply passes_print
  | |- passes _ _ (input _) => apply passes_input
  | |- passes _ _ (lift _) => apply passes_lift
  | |- passes _ _ (py_ret _) => apply passes_ret
  | |- passes _ _ (py_raise _) => apply passes_raise
  | |- passes _ _ (exit _) => apply passes_exit
  | |- _ => leaf
  end.

Lemma passes_read_lines E a lines data : passes a 0 (read_lines E lines data).
Proof.
  intros w. rewrite FineTuneProofs.read_lines_decoded. exists [].
  destruct (decoded E lines); cbn; rewrite app_nil_r; (split; [reflexivity|]);
    [now exists 0%nat | reflexivity].
Qed.

Lemma passes_load_training_data E path : passes 2 2 (load_training_data E path).
Proof.
  unfold load_training_data, path_exists, open_read.
  passes_with ltac:(apply passes_read_lines).
Qed.

Lemma passes_prepare_dataset E data tok val_split :
  passes 4 3 (prepare_dataset E data tok val_split).
Proof.
  unfold prepare_dataset. passes_with idtac.
Qed.

Lemma passes_main E args : passes 0 12 (main E args).
Proof.
  unfold main.
  passes_with ltac:(first [ apply passes_load_training_data
                          | apply passes_prepare_dataset ]).
Qed.




(** X1.  In every run of [main], whatever the libraries answer and however
    the run ends, the file-system and library calls are made in one fixed
    order with none left out: tokenizer, model, look for the dataset file,
    read it, build the dataset, tokenize, split, build the trainer, train,
    evaluate, save the model, save the tokenizer.  A run that returns has
    made all twelve. *)
Theorem calls_come_in_fixed_order E args typed :
  let r := main E args (start typed) in
  exists k,
    (k <= 12)%nat /\
    stages (log (snd r)) = seq 0 k /\
    (fst r = Ret tt -> k = 12%nat).
Proof.
  cbn zeta. destruct (passes_main E args (start typed)) as (said & Hlog & Hst).
  cbn [start log app] in Hlog. rewrite Hlog.
  destruct (fst (main E args (start typed))) as [[]|c|e].
  - exists 12%nat. repeat split; [lia | exact Hst].
  - destruct Hst as (k & Hk & Hs). exists k. repeat split; trivial. discriminate.
  - destruct Hst as (k & Hk & Hs). exists k. repeat split; trivial. discriminate.
Qed.



(** ** How the fine-tuner exits *)

Section Exits.

Variable C : Z -> Prop.

Lemma exits_ret {A} (x : A) : exits_with C (py_ret x).
Proof. intros w c w' H. discriminate. Qed.

Lemma exits_raise {A} e : exits_with C (@py_raise A e).
Proof. intros w c w' H. discriminate. Qed.

Lemma exits_exit {A} c : C c -> exits_with C (@exit A c).
Proof. intros Hc w c' w' [= <- _]. exact Hc. Qed.

Lemma exits_emit e : exits_with C (emit e).
Proof. intros w c w' H. discriminate. Qed.

Lemma exits_print line : exits_with C (print line).
Proof. apply exits_emit. Qed.

Lemma exits_input prompt : exits_with C (input prompt).
Proof. intros w c w'. unfold input. destruct (unread w); discriminate. Qed.

Lemma exits_lift {A} (x : answer A) : exits_with C (lift x).
Proof. destruct x; [apply exits_raise | apply exits_ret]. Qed.

Lemma exits_bind {A B} (m : Py A) (f : A -> Py B) :
  exits_with C m -> (forall x, exits_with C (f x)) -> exits_with C (py_bind m f).
Proof.
  intros Hm Hf w c w'. unfold py_bind.
  destruct (m w) as [[x|c1|e] w1] eqn:Hmw.
  - apply Hf.
  - intros [= <- _]. exact (Hm _ _ _ Hmw).
  - discriminate.
Qed.

Lemma exits_call {A} e (x : answer A) : exits_with C (call e x).
Proof.
  unfold call. cbn. apply exits_bind; [apply exits_emit|].
  intros _. destruct x; [apply exits_raise | apply exits_ret].
Qed.

Lemma exits_if {A} (b : bool) (m1 m2 : Py A) :
  exits_with C m1 -> exits_with C m2 -> exits_with C (if b then m1 else m2).
Proof. now destruct b. Qed.

Lemma exits_for_each {A} (f : A -> Py unit) l :
  (forall x, exits_with C (f x)) -> exits_with C (for_each f l).
Proof.
  intros Hf. induction l as [|x l IH]; cbn.
  - apply exits_ret.
  - apply exits_bind; [apply Hf | intros _; apply IH].
Qed.

End Exits.

Ltac exits_with_leaf leaf :=
  cbn [bind ret raise catch Monad_Py MonadExc_Py];
  lazymatch goal with
  | |- exits_with _ (py_bind _ _) =>
      apply exits_bind; [exits_with_leaf leaf | intros ?; exits_with_leaf leaf]
  | |- exits_with _ (if _ then _ else _) => apply exits_if; exits_with_leaf leaf
  | |- exits_with _ (for_each _ _) =>
      apply exits_for_each; intros ?; exits_with_leaf leaf
  | |- exits_with _ (call _ _) => apply exits_call
  | |- exits_with _ (print _) => apply exits_print
  | |- exits_with _ (input _) => apply exits_input
  | |- exits_with _ (lift _) => apply exits_lift
  | |- exits_with _ (py_ret _) => apply exits_ret
  | |- exits_with _ (py_raise _) => apply exits_raise
  | |- _ => leaf
  end.

Lemma exits_prepare_dataset C E data tok val_split :
  exits_with C (prepare_dataset E data tok val_split).
Proof. unfold prepare_dataset. exits_with_leaf idtac. Qed.

Lemma py_bind_call {A B} e (a : answer A) (k : A -> Py B) w :
  py_bind (call e a) k w =
  match a with
  | inl x => (Raise x, World (unread w) (log w ++ [e]))
  | inr v => k v (World (unread w) (log w ++ [e]))
  end.
Proof. destruct a; reflexivity. Qed.

Lemma bind_exit_cases {A B} (m : Py A) (f : A -> Py B) w c :
  fst (py_bind m f w) = Exit c ->
  fst (m w) = Exit c \/ exists a w1, m w = (Ret a, w1) /\ fst (f a w1) = Exit c.
Proof.
  unfold py_bind. destruct (m w) as [[a|c1|e] w1] eqn:Hm; cbn.
  - intros H. right. now exists a, w1.
  - intros [= <-]. now left.
  - discriminate.
Qed.

Lemma exits_never {A} (m : Py A) w c :
  exits_with (fun _ => False) m -> fst (m w) <> Exit c.
Proof.
  intros Hm H. destruct (m w) as [o w'] eqn:Hmw. cbn in H. subst o.
  exact (Hm _ _ _ Hmw).
Qed.

(** The loader exits with status 1 for a missing file and with status 0 on
    a declined prompt, and in no other way. *)
Lemma loader_exit_status E path w c :
  fst (load_training_data E path w) = Exit c ->
  (c = 1%Z /\ fs E path = None) \/
  (c = 0%Z /\
   exists lines data response rest,
     fs E path = Some (File lines) /\
     decoded E lines = inr data /\
     (length data < 20)%nat /\
     unread w = response :: rest /\
     affirmative response = false).
Proof.
  rewrite FineTuneProofs.load_training_data_run.
  destruct (fs E path) as [[|lines]|] eqn:Hfs; [discriminate| |].
  - destruct (decoded E lines) as [e|data] eqn:Hd; [discriminate|].
    destruct (length data <? 20)%nat eqn:Hlen; [|discriminate].
    cbn zeta. destruct (unread w) as [|response rest] eqn:Hw; [discriminate|].
    rewrite FineTuneProofs.lower_is_y.
    destruct (affirmative response) eqn:Hyes; [discriminate|].
    intros [= <-]. right. split; [reflexivity|].
    exists lines, data, response, rest. apply Nat.ltb_lt in Hlen. auto.
  - intros [= <-]. now left.
Qed.

Lemma main_exit_cases E args typed c :
  fst (main E args (start typed)) = Exit c ->
  (c = 1%Z /\ fs E (arg_data args) = None) \/
  (c = 0%Z /\
   exists lines data response rest,
     fs E (arg_data args) = Some (File lines) /\
     decoded E lines = inr data /\
     (length data < 20)%nat /\
     typed = response :: rest /\
     affirmative response = false).
Proof.
  unfold main. cbn [bind ret raise catch Monad_Py MonadExc_Py].
  destruct (arg_gpu args), (cuda_is_available E); cbn [andb negb];
    repeat (erewrite py_bind_returns by reflexivity);
    rewrite py_bind_call;
    (destruct (tokenizer_from_pretrained E base_model) as [e|tok]; [discriminate|]);
    rewrite py_bind_call;
    (destruct (model_from_pretrained E base_model 2 _) as [e|m]; [discriminate|]);
    erewrite py_bind_returns by reflexivity;
    intros H; apply bind_exit_cases in H as [H | (data & w1 & _ & H)];
    try (apply loader_exit_status in H; exact H);
    exfalso; revert H; apply exits_never;
    exits_with_leaf ltac:(apply exits_prepare_dataset).
Qed.

(** X3.  [main()] ends the process through an exit in four ways only: with
    status 2 when [argparse] refuses the command line, with status 0 when
    help is asked for, with status 1 when nothing exists at the dataset
    path, and with status 0 when the dataset has fewer than 20 examples and
    the operator's answer is not [y]/[Y]. *)
Theorem main_exit_status E cmd typed c :
  fst (main_of_command_line E cmd (start typed)) = Exit c ->
  (c = 2%Z /\ exists message, cmd = Refused message) \/
  (c = 0%Z /\ cmd = Help) \/
  (exists args,
     cmd = Accepted args /\
     ((c = 1%Z /\ fs E (arg_data args) = None) \/
      (c = 0%Z /\
       exists lines data response rest,
         fs E (arg_data args) = Some (File lines) /\
         decoded E lines = inr data /\
         (length data < 20)%nat /\
         typed = response :: rest /\
         affirmative response = false))).
Proof.
  unfold main_of_command_line, parse_args.
  destruct cmd as [args|message|]; cbn [bind ret Monad_Py]; unfold py_bind.
  - cbn [py_ret]. intros H. right. right. exists args. split; [reflexivity|].
    now apply main_exit_cases.
  - cbn. intros [= <-]. left. split; [reflexivity|]. now exists message.
  - cbn. intros [= <-]. right. left. now split.
Qed.

Lemma main_exit_status_witness :
  let E := Demo.finetune_env [("training-data.jsonl", Demo.dataset 3 "ha" "1")] false in
  (0 = 2 /\ exists message, Accepted default_arguments = Refused message)%Z \/
  (0 = 0 /\ Accepted default_arguments = Help)%Z \/
  (exists args,
     Accepted default_arguments = Accepted args /\
     ((0 = 1 /\ fs E (arg_data args) = None)%Z \/
      (0 = 0 /\
       exists lines data response rest,
         fs E (arg_data args) = Some (File lines) /\
         decoded E lines = inr data /\
         (length data < 20)%nat /\
         ["no"] = response :: rest /\
         affirmative response = false)%Z)).
Proof.
  intros E.
  apply (main_exit_status E (Accepted default_arguments) ["no"] 0%Z).
  vm_compute. reflexivity.
Defined.

(** ** Failing loads *)

(** X4.  The base model is loaded before the dataset is touched: when the
    tokenizer or the model fails to load, [main] ends with that exception
    right after the failed call, without having looked for the dataset file,
    read a line from the terminal or called anything else. *)
Theorem load_failure_ends_before_dataset E args typed e :
  tokenizer_from_pretrained E base_model = inl e
  \/ (exists tok, tokenizer_from_pretrained E base_model = inr tok) /\
     model_from_pretrained E base_model 2 [(0, "NO_HUMOR"); (1, "HUMOR")]%Z = inl e ->
  let r := main E args (start typed) in
  fst r = Raise e /\
  unread (snd r) = typed /\
  (forall ev, In ev (log (snd r)) -> is_call ev = true ->
     ev = LoadTokenizer base_model \/ ev = LoadModel base_model).
Proof.
  intros Hfail. cbn zeta. unfold main, start.
  destruct Hfail as [Ht | ((tok & Ht) & Hm)];
    destruct (arg_gpu args), (cuda_is_available E); run;
    rewrite Ht; try rewrite Hm; cbn;
    (split; [reflexivity|]); (split; [reflexivity|]);
    intros ev Hin Hcall;
    repeat (destruct Hin as [<- | Hin]; [first [discriminate Hcall | auto]|]);
    destruct Hin.
Qed.

Lemma load_failure_ends_before_dataset_witness :
  let E := Demo.offline_env [("training-data.jsonl", Demo.dataset 3 "ha" "1")] in
  fst (main E default_arguments (start ["y"]))
  = Raise (Exn "OSError" "model not found in the cache").
Proof.
  intros E.
  refine (proj1 (load_failure_ends_before_dataset E default_arguments ["y"] _ _)).
  right. split; [now exists (Tokenizer base_model) | reflexivity].
Defined.

(** ** The prompt *)

(** X5.  For a dataset file that can be read, the loader asks the operator
    exactly when the file decodes to fewer than 20 examples (blank lines do
    not count, and a file with a line that does not decode never gets that
    far); when it does not ask, it leaves the terminal input untouched. *)
Theorem prompt_exactly_below_twenty E path lines w :
  fs E path = Some (File lines) ->
  let r := load_training_data E path w in
  exists said,
    log (snd r) = log w ++ said /\
    ((exists prompt, In (Input prompt) said) <->
     exists data, decoded E lines = inr data /\ (length data < 20)%nat) /\
    ((forall prompt, ~ In (Input prompt) said) -> unread (snd r) = unread w).
Proof.
  intros Hfs. cbn zeta. rewrite FineTuneProofs.load_training_data_run, Hfs.
  destruct (decoded E lines) as [e|data] eqn:Hd.
  - eexists. split; [reflexivity|]. split; [|reflexivity].
    split.
    + intros (prompt & [H|[H|[]]]); discriminate.
    + intros (data & Hdata & _). discriminate.
  - destruct (Nat.ltb_spec (length data) 20) as [Hlt|Hge].
    + cbn zeta.
      assert (Hin : In (Input [Lit nl; Lit "Continue anyway? (y/N): "])
                      (PathExists path :: OpenRead path
                       :: low_data_dialogue (length data)))
        by (do 4 right; left; reflexivity).
      destruct (unread w) as [|response rest]; cbn [snd fst log unread];
        (eexists; split; [reflexivity|]); (split; [split|]).
      * intros _. now exists data.
      * intros _. eexists. exact Hin.
      * intros Hno. now elim (Hno _ Hin).
      * intros _. now exists data.
      * intros _. eexists. exact Hin.
      * intros Hno. now elim (Hno _ Hin).
    + eexists. split; [reflexivity|]. split; [|reflexivity]. split.
      * intros (prompt & [H|[H|[]]]); discriminate.
      * intros (data' & [= <-] & Hlt). lia.
Qed.

Lemma prompt_exactly_below_twenty_witness :
  let E := Demo.finetune_env [("training-data.jsonl", File Demo.mixed_lines)] false in
  unread (snd (load_training_data E "training-data.jsonl" (start ["y"]))) = ["y"].
Proof.
  intros E.
  destruct (prompt_exactly_below_twenty E "training-data.jsonl" Demo.mixed_lines
              (start ["y"]) eq_refl) as (said & Hlog & Hiff & Hkeep).
  apply Hkeep. intros prompt Hin.
  destruct (proj1 Hiff (ex_intro _ prompt Hin)) as (data & Hd & Hlen).
  vm_compute in Hd. injection Hd as <-. vm_compute in Hlen. lia.
Defined.

(** X6.  With fewer than 20 examples and nobody at the terminal, the loader
    prints the warning, asks, and ends with an uncaught [EOFError]; so does
    [main], with nothing of dataset preparation or training done. *)
Theorem low_data_without_terminal E path lines data :
  fs E path = Some (File lines) ->
  decoded E lines = inr data ->
  (length data < 20)%nat ->
  (forall w,
     unread w = [] ->
     load_training_data E path w =
       (Raise (Exn "EOFError" "EOF when reading a line"),
        World []
          (log w ++ PathExists path :: OpenRead path :: low_data_dialogue (length data)))) /\
  (forall args tok m,
     arg_data args = path ->
     tokenizer_from_pretrained E base_model = inr tok ->
     model_from_pretrained E base_model 2 [(0, "NO_HUMOR"); (1, "HUMOR")]%Z = inr m ->
     main E args (start []) =
       (Raise (Exn "EOFError" "EOF when reading a line"),
        World []
          (preamble E args
           ++ PathExists path :: OpenRead path :: low_data_dialogue (length data)))).
Proof.
  intros Hfs Hd Hlen. apply Nat.ltb_lt in Hlen. split.
  - intros w Hw. now rewrite FineTuneProofs.load_training_data_run, Hfs, Hd, Hlen, Hw.
  - intros args tok m Hp Ht Hm. unfold main, start, preamble, opening.
    destruct (arg_gpu args), (cuda_is_available E); run;
      rewrite Ht, Hm, FineTuneProofs.load_training_data_run, Hp, Hfs, Hd, Hlen;
      reflexivity.
Qed.

Lemma low_data_without_terminal_witness :
  let E := Demo.finetune_env [("training-data.jsonl", Demo.dataset 3 "ha" "1")] false in
  fst (main E default_arguments (start []))
  = Raise (Exn "EOFError" "EOF when reading a line").
Proof.
  intros E.
  rewrite (proj2 (low_data_without_terminal E "training-data.jsonl"
                    (repeat (Json.example_line "ha" "1") 3) (repeat Demo.joke 3)
                    eq_refl eq_refl ltac:(vm_compute; lia))
             default_arguments (Tokenizer base_model)
             (Model base_model 2 [(0, "NO_HUMOR"); (1, "HUMOR")]%Z)
             eq_refl eq_refl eq_refl).
  reflexivity.
Defined.

(** ** The class counts *)

Lemma count_positive_returns data positive :
  count_positive data 0 = inr positive ->
  Forall (fun d => exists v, getitem d "label" = inr v) data.
Proof.
  revert positive. induction data as [|d data IH]; intros positive H; [constructor|].
  cbn [count_positive] in H.
  destruct (getitem d "label") as [e|v] eqn:Hd; [discriminate|].
  rewrite FineTuneProofs.count_positive_from in H.
  destruct (count_positive data 0) as [e|p] eqn:Hp; [discriminate|].
  constructor; [now exists v | now apply (IH p)].
Qed.

Lemma filter_length_complement {A} (f : A -> bool) l :
  (length (filter f l) + length (filter (fun x => negb (f x)) l) = length l)%nat.
Proof.
  induction l as [|x l IH]; [reflexivity|].
  cbn. destruct (f x); cbn; lia.
Qed.

(** X7.  The counts [main] prints add up: the positives are the examples
    whose label equals 1, the negatives are all the others, neither count is
    negative, and the class ratio, when the division succeeds, is the
    quotient of the two and not negative. *)
Theorem class_counts_add_up data positive :
  count_positive data 0 = inr positive ->
  let negative := (Z.of_nat (length data) - positive)%Z in
  positive = Z.of_nat (length (filter label_is_one data)) /\
  negative = Z.of_nat (length (filter (fun d => negb (label_is_one d)) data)) /\
  (0 <= positive <= Z.of_nat (length data))%Z /\
  (0 <= negative)%Z /\
  (forall class_ratio,
     truediv positive negative = inr class_ratio ->
     (0 < negative)%Z /\
     class_ratio == inject_Z positive / inject_Z negative /\
     0 <= class_ratio).
Proof.
  intros Hcount. cbn zeta.
  pose proof (count_positive_returns data positive Hcount) as Hlab.
  rewrite (FineTuneProofs.count_positive_labelled data Hlab) in Hcount.
  injection Hcount as <-.
  pose proof (filter_length_complement label_is_one data) as Hsum.
  pose proof (filter_length_le label_is_one data) as Hle.
  repeat split; try lia.
  - unfold truediv in H. destruct (Z.eqb_spec
      (Z.of_nat (length data) - Z.of_nat (length (filter label_is_one data))) 0);
      [discriminate | lia].
  - unfold truediv in H. destruct (Z.eqb_spec
      (Z.of_nat (length data) - Z.of_nat (length (filter label_is_one data))) 0);
      [discriminate|]. injection H as <-. reflexivity.
  - unfold truediv in H. destruct (Z.eqb_spec
      (Z.of_nat (length data) - Z.of_nat (length (filter label_is_one data))) 0);
      [discriminate|]. injection H as <-.
    apply Qle_shift_div_l.
    + change 0 with (inject_Z 0). rewrite <- Zlt_Qlt. lia.
    + rewrite Qmult_0_l. change 0 with (inject_Z 0). rewrite <- Zle_Qle. lia.
Qed.

Lemma class_counts_add_up_witness :
  let data := repeat Demo.joke 12 ++ repeat Demo.sober 10 in
  (12 = Z.of_nat (length (filter label_is_one data)))%Z.
Proof.
  intros data.
  exact (proj1 (class_counts_add_up data 12 eq_refl)).
Defined.

(** ** The rows of the split *)

Lemma select_In rows indices r : In r (select rows indices) -> In r rows.
Proof.
  unfold select. rewrite in_flat_map. intros (i & _ & Hr).
  destruct (nth_error rows i) as [r'|] eqn:Hi; [|destruct Hr].
  destruct Hr as [<-|[]]. now apply nth_error_In in Hi.
Qed.

Lemma traverse_In {A B} (f : A -> answer B) l ys y :
  traverse f l = inr ys -> In y ys -> exists x, In x l /\ f x = inr y.
Proof.
  intros H. apply FineTuneProofs.traverse_Forall2 in H.
  induction H as [|x y' l ys Hx _ IH]; [intros []|].
  intros [<- | Hin].
  - exists x. split; [now left | exact Hx].
  - destruct (IH Hin) as (x' & Hx' & Hf). exists x'. split; [now right | exact Hf].
Qed.

Lemma combine_traverse_In {A B C} (f : A -> answer B) (g : A -> answer C) l xs ys x y :
  traverse f l = inr xs -> traverse g l = inr ys ->
  In (x, y) (combine xs ys) ->
  exists d, In d l /\ f d = inr x /\ g d = inr y.
Proof.
  revert xs ys. induction l as [|d l IH]; intros xs ys Hf Hg Hin; cbn in Hf, Hg.
  - injection Hf as <-. destruct Hin.
  - destruct (f d) as [e|x'] eqn:Hfd; [discriminate|].
    destruct (traverse f l) as [e|xs'] eqn:Hfl; [discriminate|].
    destruct (g d) as [e|y'] eqn:Hgd; [discriminate|].
    destruct (traverse g l) as [e|ys'] eqn:Hgl; [discriminate|].
    injection Hf as <-. injection Hg as <-. destruct Hin as [[= <- <-] | Hin].
    + exists d. split; [now left | auto].
    + destruct (IH xs' ys' eq_refl eq_refl Hin) as (d' & Hd' & H1 & H2).
      exists d'. split; [now right | auto].
Qed.

(** X8.  Whatever the split, every row of the train and the validation
    part carries the text and the label of one and the same example of the
    input, and the token ids of that text: the split never pairs a text with
    the label of another example, and invents no row. *)
Theorem split_keeps_text_with_label E data tok val_split w train val w' :
  prepare_dataset E data tok val_split w = (Ret (train, val), w') ->
  Forall
    (fun r =>
       exists d,
         In d data /\
         getitem d "text" = inr (text r) /\
         getitem d "label" = inr (label r) /\
         encode E tok (text r) 128 = inr (input_ids r))
    (train ++ val).
Proof.
  rewrite FineTuneProofs.prepare_dataset_run.
  destruct (traverse (fun item => getitem item "text") data) as [e|texts] eqn:Ht;
    [discriminate|].
  destruct (traverse (fun item => getitem item "label") data) as [e|labels] eqn:Hl;
    [discriminate|].
  destruct (from_dict E texts labels) as [e|[]]; [discriminate|].
  destruct (tokenize E tok 128 texts labels) as [e|rows] eqn:Hrows; [discriminate|].
  cbn zeta.
  destruct (train_test_split E rows val_split 42) as [e|[tr va]] eqn:Hsplit;
    [discriminate|].
  intros [= <- <- _].
  assert (Hrow : forall r, In r rows ->
    exists d, In d data /\ getitem d "text" = inr (text r) /\
              getitem d "label" = inr (label r) /\
              encode E tok (text r) 128 = inr (input_ids r)).
  { intros r Hr. unfold tokenize in Hrows.
    destruct (traverse_In _ _ _ _ Hrows Hr) as ([t l] & Hin & Henc).
    cbn [fst snd] in Henc.
    destruct (encode E tok t 128) as [e|ids] eqn:Hids; [discriminate|].
    injection Henc as <-. cbn [text label input_ids].
    destruct (combine_traverse_In _ _ _ _ _ _ _ Ht Hl Hin) as (d & Hd & H1 & H2).
    exists d. auto. }
  apply Forall_forall. intros r Hr. apply Hrow.
  unfold train_test_split in Hsplit. cbv zeta in Hsplit.
  destruct (length rows =? 0)%nat.
  - injection Hsplit as <- <-. now apply in_app_or in Hr as [Hr|Hr].
  - destruct (Qle_bool val_split 0 || Qle_bool 1 val_split); [discriminate|].
    destruct (_ <? _)%nat; [discriminate|].
    destruct (_ =? _)%nat; [discriminate|].
    injection Hsplit as <- <-.
    apply in_app_or in Hr as [Hr|Hr]; now apply select_In in Hr.
Qed.

Lemma split_keeps_text_with_label_witness :
  let E := Demo.finetune_env [] false in
  let data := repeat Demo.joke 12 ++ repeat Demo.sober 10 in
  exists train val,
    fst (prepare_dataset E data (Tokenizer base_model) val_split_default (start []))
    = Ret (train, val) /\
    Forall
      (fun r =>
         exists d,
           In d data /\
           getitem d "text" = inr (text r) /\
           getitem d "label" = inr (label r) /\
           encode E (Tokenizer base_model) (text r) 128 = inr (input_ids r))
      (train ++ val).
Proof.
  intros E data.
  destruct (prepare_dataset E data (Tokenizer base_model) val_split_default (start []))
    as [[[train val]|c|e] w'] eqn:Hrun;
    [| vm_compute in Hrun; discriminate Hrun | vm_compute in Hrun; discriminate Hrun].
  exists train, val. split; [reflexivity|].
  exact (split_keeps_text_with_label E data _ _ _ train val w' Hrun).
Defined.

(** ** The names of the metrics *)

Lemma prefix_empty s : String.prefix "" s = true.
Proof. destruct s; reflexivity. Qed.

Lemma replace_from_skip old new pre s :
  replace_from old new (String.length pre) (pre ++ s) = replace_from old new 0 s.
Proof.
  induction pre as [|c pre IH]; [reflexivity|]. exact IH.
Qed.

Lemma replace_from_absent old new s :
  occurs old s = false -> replace_from old new 0 s = s.
Proof.
  induction s as [|c s IH]; [reflexivity|].
  cbn [occurs]. intros H. apply orb_false_iff in H as [Hp Ho].
  cbn [replace_from]. rewrite Hp. f_equal. now apply IH.
Qed.

(** X9.  A result whose key is [eval_] followed by a name in which [eval_]
    does not occur again is reported, and under that name with its first
    letter in upper case and the others in lower case; a key that does not
    start with [eval_] is not reported. *)
Theorem metric_is_named_after_its_key (name : string) (value : Q) :
  occurs "eval_" name = false ->
  startswith ("eval_" ++ name)%string "eval_" = true /\
  metric_name ("eval_" ++ name)%string = capitalize name /\
  evaluation_report [(("eval_" ++ name)%string, value)]
  = [ Print [Lit nl; Lit "Final validation metrics:"];
      Print [Lit "  "; FStr (capitalize name); Lit ": "; FFix 4 value] ] /\
  (forall key, startswith key "eval_" = false ->
     evaluation_report [(key, value)]
     = [ Print [Lit nl; Lit "Final validation metrics:"] ]).
Proof.
  intros Habsent.
  assert (Hstart : startswith ("eval_" ++ name)%string "eval_" = true)
    by (unfold startswith; cbn; apply prefix_empty).
  assert (Hname : metric_name ("eval_" ++ name)%string = capitalize name).
  { unfold metric_name, replace. f_equal.
    change ("eval_" ++ name)%string with (String "e" ("val_" ++ name)%string).
    cbn [replace_from].
    change (String "e" ("val_" ++ name)%string) with ("eval_" ++ name)%string at 1.
    change (String.prefix "eval_" ("eval_" ++ name)%string)
      with (startswith ("eval_" ++ name)%string "eval_").
    rewrite Hstart. cbn [String.append].
    change (String.length "eval_" - 1)%nat with (String.length "val_").
    change (String "v" (String "a" (String "l" (String "_" name))))
      with ("val_" ++ name)%string.
    rewrite replace_from_skip. now apply replace_from_absent. }
  repeat split; trivial.
  - unfold evaluation_report. cbn [filter fst]. rewrite Hstart.
    cbn [map]. unfold metric_line. cbn [fst snd]. now rewrite Hname.
  - intros key Hkey. unfold evaluation_report. cbn [filter fst]. now rewrite Hkey.
Qed.

Lemma metric_is_named_after_its_key_witness :
  metric_name "eval_samples_per_second" = "Samples_per_second".
Proof.
  exact (proj1 (proj2
    (metric_is_named_after_its_key "samples_per_second" 0 eq_refl))).
Defined.

(** ** The entry *)

(** X10.  A missing dependency, and only that, is reported at the entry of
    the fine-tuner: an instance of [ImportError], of whatever subclass,
    prints the install hint and the error and ends the process with status
    1 before the command line is parsed or anything else is done; any other
    exception of the imports goes uncaught; and when the imports succeed
    the script is [main()]. *)
Theorem missing_dependency_exits_first E cmd w :
  (forall e,
     isinstance e "ImportError" = true ->
     script (inl e) E cmd w
     = (Exit 1, World (unread w) (log w ++ missing_dependencies e))) /\
  (forall e,
     isinstance e "ImportError" = false ->
     script (inl e) E cmd w = (Raise e, w)) /\
  script (inr tt) E cmd w = main_of_command_line E cmd w.
Proof.
  repeat split.
  - intros e He. unfold script, try_except.
    cbn [bind ret raise catch Monad_Py MonadExc_Py lift].
    unfold py_bind at 1, py_catch, py_raise. rewrite He. run. reflexivity.
  - intros e He. unfold script, try_except.
    cbn [bind ret raise catch Monad_Py MonadExc_Py lift].
    unfold py_bind at 1, py_catch, py_raise. now rewrite He.
Qed.

Lemma missing_dependency_exits_first_witness :
  let e := Demo.package_not_found in
  script (inl e) (Demo.finetune_env [] false) Help (start []) =
  (Exit 1, World [] (missing_dependencies e)).
Proof.
  intros e.
  exact (proj1 (missing_dependency_exits_first (Demo.finetune_env [] false)
                  Help (start [])) e eq_refl).
Defined.

(** ** A run that succeeds *)

#[local] Arguments for_each : simpl never.

Lemma report_loop {A} (f : A -> Py unit) (p : A -> bool) (line : A -> event) l w :
  (forall x w0,
     f x w0 = if p x then (Ret tt, World (unread w0) (log w0 ++ [line x]))
              else (Ret tt, w0)) ->
  for_each f l w = (Ret tt, World (unread w) (log w ++ map line (filter p l))).
Proof.
  intros Hf. revert w. induction l as [|x l IH]; intros w.
  - cbn. rewrite app_nil_r. now destruct w.
  - change (for_each f (x :: l) w) with (py_bind (f x) (fun _ => for_each f l) w).
    unfold py_bind. rewrite Hf. cbn [filter].
    destruct (p x); rewrite IH; cbn [unread log map]; [|reflexivity].
    now rewrite <- app_assoc.
Qed.

(** X11.  When the loader returns a dataset with a negative example in it
    and every library call succeeds, [main] returns, and from the split on
    its log is: the two sample counts, the trainer built for the chosen
    device, the training banner and the training, the evaluation banner and
    the evaluation, one line for each result whose key starts with [eval_]
    in the order of the results, the saving banner, the model and the
    tokenizer saved to the output directory, and the next steps. *)
Theorem successful_run E args typed tok m data w1 positive class_ratio
    train val w2 eval_results :
  tokenizer_from_pretrained E base_model = inr tok ->
  model_from_pretrained E base_model 2 [(0, "NO_HUMOR"); (1, "HUMOR")]%Z = inr m ->
  load_training_data E (arg_data args) (World typed (preamble E args)) = (Ret data, w1) ->
  count_positive data 0 = inr positive ->
  truediv positive (Z.of_nat (length data) - positive) = inr class_ratio ->
  prepare_dataset E data tok val_split_default
    (World (unread w1)
       (log w1 ++ class_counts (length data) positive ++ ratio_report class_ratio))
  = (Ret (train, val), w2) ->
  trainer_new E (training_args_of E args) = inr tt ->
  trainer_train E train val = inr tt ->
  trainer_evaluate E val = inr eval_results ->
  trainer_save_model E (arg_output args) = inr tt ->
  tokenizer_save_pretrained E (arg_output args) = inr tt ->
  main E args (start typed) =
    (Ret tt,
     World (unread w2)
       (log w2
        ++ samples_report train val
        ++ NewTrainer (arg_output args) (negb (arg_gpu args && cuda_is_available E))
           :: training_banner args
        ++ TrainerTrain
           :: evaluation_banner
        ++ TrainerEvaluate
           :: evaluation_report eval_results
        ++ saving_banner
        ++ TrainerSave (arg_output args)
           :: SaveTokenizer (arg_output args)
           :: farewell (arg_output args))).
Proof.
  intros Ht Hm Hload Hcount Hratio Hprep Hnew Htrain Heval Hsave Htok.
  unfold preamble, opening in Hload. unfold class_counts, ratio_report in Hprep.
  unfold training_args_of in Hnew. unfold main, start.
  destruct (arg_gpu args), (cuda_is_available E); run;
    rewrite Ht, Hm; cbn in Hload, Hprep, Hnew |- *; rewrite Hload, Hcount; cbn;
    rewrite Hratio; cbn; norm_log;
    rewrite Hprep; cbn; rewrite Hnew; cbn; rewrite Htrain; cbn; rewrite Heval; cbn;
    (erewrite (report_loop _ (fun kv => startswith (fst kv) "eval_") metric_line);
     [|intros kv w0; destruct (startswith (fst kv) "eval_"); reflexivity]);
    cbn; rewrite Hsave; cbn; rewrite Htok; cbn; norm_log; reflexivity.
Qed.

Lemma successful_run_witness :
  let E := Demo.finetune_env [("training-data.jsonl", File Demo.two_lines)] false in
  fst (main E default_arguments (start ["y"])) = Ret tt.
Proof.
  intros E.
  pose (ha := Row (JString "ha") (JInt 1) (Demo.encoding "ha")).
  pose (no := Row (JString "no") (JInt 0) (Demo.encoding "no")).
  pose (w1 := World []
                (preamble E default_arguments
                 ++ PathExists "training-data.jsonl" :: OpenRead "training-data.jsonl"
                    :: low_data_dialogue 2)).
  pose (w2 := World []
                (log w1 ++ class_counts 2 1 ++ ratio_report (inject_Z 1 / inject_Z 1)
                 ++ [FromDict 2; Tokenize 2; TrainTestSplit 2 42])).
  rewrite (successful_run E default_arguments ["y"]
             (Tokenizer base_model)
             (Model base_model 2 [(0, "NO_HUMOR"); (1, "HUMOR")]%Z)
             [Demo.joke; Demo.sober] w1 1 (inject_Z 1 / inject_Z 1)
             [ha] [no] w2
             [("eval_loss", 1 # 2); ("eval_f1", 4 # 5); ("epoch", 3 # 1)]);
    try reflexivity.
  all: vm_compute; reflexivity.
Defined.

(** ** The range of the metrics *)

Lemma count_pairs_bounds p y_true y_pred :
  (0 <= count_pairs p y_true y_pred <= Z.of_nat (length y_true))%Z.
Proof.
  unfold count_pairs.
  pose proof (filter_length_le (fun tp => p (fst tp) (snd tp)) (combine y_true y_pred)).
  pose proof (length_combine y_true y_pred). lia.
Qed.

Lemma ratio_in_unit num den :
  (0 <= num <= den)%Z -> 0 <= ratio num den /\ ratio num den <= 1.
Proof.
  intros Hn. unfold ratio. destruct (Z.eqb_spec den 0) as [->|Hd].
  - split; [apply Qle_refl | discriminate].
  - assert (Hpos : 0 < inject_Z den)
      by (change 0 with (inject_Z 0); rewrite <- Zlt_Qlt; lia).
    split.
    + apply Qle_shift_div_l; [exact Hpos|]. rewrite Qmult_0_l.
      change 0 with (inject_Z 0). rewrite <- Zle_Qle. lia.
    + apply Qle_shift_div_r; [exact Hpos|]. rewrite Qmult_1_l.
      rewrite <- Zle_Qle. lia.
Qed.

Lemma harmonic_in_unit p r :
  0 <= p -> p <= 1 -> 0 <= r -> r <= 1 ->
  let f := if Qeq_bool (p + r) 0 then 0 else 2 * p * r / (p + r) in
  0 <= f /\ f <= 1.
Proof.
  intros Hp0 Hp1 Hr0 Hr1. cbn zeta.
  destruct (Qeq_bool (p + r) 0) eqn:Hz.
  - split; [apply Qle_refl | discriminate].
  - apply Qeq_bool_neq in Hz.
    assert (Hpos : 0 < p + r).
    { destruct (proj1 (Qle_lteq 0 p) Hp0) as [Hp|Hp].
      - exact (Qplus_lt_le_compat 0 p 0 r Hp Hr0).
      - destruct (proj1 (Qle_lteq 0 r) Hr0) as [Hr|Hr].
        + rewrite Qplus_comm. exact (Qplus_lt_le_compat 0 r 0 p Hr Hp0).
        + exfalso. apply Hz. rewrite <- Hp, <- Hr. reflexivity. }
    split.
    + apply Qle_shift_div_l; [exact Hpos|]. rewrite Qmult_0_l.
      apply Qmult_le_0_compat; [|exact Hr0].
      apply Qmult_le_0_compat; [discriminate | exact Hp0].
    + apply Qle_shift_div_r; [exact Hpos|]. rewrite Qmult_1_l.
      assert (H1 : p * r <= p).
      { rewrite <- (Qmult_1_r p) at 2. rewrite !(Qmult_comm p).
        apply Qmult_le_compat_r; assumption. }
      assert (H2 : p * r <= r).
      { rewrite <- (Qmult_1_l r) at 2. apply Qmult_le_compat_r; assumption. }
      setoid_replace (2 * p * r) with (p * r + p * r) by ring.
      apply Qplus_le_compat; assumption.
Qed.

(** X12.  Whenever [compute_metrics] returns, each of its four scores lies
    between 0 and 1. *)
Theorem metrics_lie_in_unit_interval eval_pred result :
  compute_metrics eval_pred = inr result ->
  (0 <= accuracy result /\ accuracy result <= 1) /\
  (0 <= f1 result /\ f1 result <= 1) /\
  (0 <= precision result /\ precision result <= 1) /\
  (0 <= recall result /\ recall result <= 1).
Proof.
  destruct eval_pred as [scores labels]. unfold compute_metrics.
  destruct (traverse argmax scores) as [e|predictions]; [discriminate|].
  unfold accuracy_score, f1_score, precision_score, recall_score, checked.
  destruct (length labels =? length predictions)%nat; [|discriminate].
  intros [= <-]. cbn [accuracy f1 precision recall].
  assert (Hp : 0 <= precision_of labels predictions /\ precision_of labels predictions <= 1).
  { apply ratio_in_unit.
    pose proof (count_pairs_bounds (fun t p => (t =? 1) && (p =? 1))%Z labels predictions).
    pose proof (count_pairs_bounds (fun t p => negb (t =? 1) && (p =? 1))%Z labels predictions).
    unfold true_positives, false_positives. lia. }
  assert (Hr : 0 <= recall_of labels predictions /\ recall_of labels predictions <= 1).
  { apply ratio_in_unit.
    pose proof (count_pairs_bounds (fun t p => (t =? 1) && (p =? 1))%Z labels predictions).
    pose proof (count_pairs_bounds (fun t p => (t =? 1) && negb (p =? 1))%Z labels predictions).
    unfold true_positives, false_negatives. lia. }
  split; [apply ratio_in_unit; apply count_pairs_bounds|].
  split; [|split; assumption].
  apply harmonic_in_unit; tauto.
Qed.

Lemma metrics_lie_in_unit_interval_witness :
  exists result,
    compute_metrics ([ [0; 1]; [1; 0]; [1; 0] ], [1; 1; 0]%Z) = inr result /\
    0 <= f1 result /\ f1 result <= 1.
Proof.
  eexists. split; [reflexivity|].
  exact (proj1 (proj2 (metrics_lie_in_unit_interval
                         ([ [0; 1]; [1; 0]; [1; 0] ], [1; 1; 0]%Z) _ eq_refl))).
Defined.

End FineTuneMore.

(** * Further properties of the converter *)

Module ConvertMore.
Import Convert ConvertLog.

#[local] Arguments repeat_string : simpl never.
#[local] Arguments for_each : simpl never.
#[local] Arguments test_one : simpl never.
#[local] Arguments pipeline : simpl never.

(** ** Outside the error boundary *)

Lemma convert_model_imports_fail E w e :
  imports E = inl e ->
  convert_model E w =
  if isinstance e "ImportError"
  then (Exit 1, World (unread w) (log w ++ missing_package e))
  else (Raise e, w).
Proof.
  intros Hi. unfold convert_model, try_except. rewrite Hi.
  destruct (isinstance e "ImportError") eqn:He; run; rewrite He; run; reflexivity.
Qed.

Lemma convert_model_mkdir_fails E w e :
  imports E = inr tt -> mkdir E OUTPUT_DIR = inl e ->
  convert_model E w = (Raise e, World (unread w) (log w ++ before_pipeline)).
Proof.
  intros Hi Hm. unfold convert_model, try_except. rewrite Hi, Hm. run. reflexivity.
Qed.

(** X13.  A missing package, and only that, is reported by the converter's
    import guard: an instance of [ImportError], of whatever subclass, prints
    the install hint and ends the process with status 1 before the output
    directory is created or anything is loaded; any other exception of the
    imports goes uncaught. *)
Theorem missing_package_exits_first E w e :
  imports E = inl e ->
  (isinstance e "ImportError" = true ->
   convert_model E w = (Exit 1, World (unread w) (log w ++ missing_package e))) /\
  (isinstance e "ImportError" = false -> convert_model E w = (Raise e, w)).
Proof.
  intros Hi. rewrite (convert_model_imports_fail E w e Hi).
  split; intros ->; reflexivity.
Qed.

(** X14.  The creation of the output directory is outside the [try] block:
    when it fails the converter ends with that exception uncaught, with no
    error report, no stack trace printed by the handler and nothing loaded.
    The converter ends with an exception in three ways only: an import
    failure that is not an [ImportError], a failure to create the
    directory, and an exception of the pipeline that is not an instance of
    [Exception] (a [KeyboardInterrupt], or a [SystemExit] raised inside a
    library call).  Whenever the converter itself exits, the status is 1. *)
Theorem directory_creation_is_not_guarded E w :
  (forall e,
     imports E = inr tt -> mkdir E OUTPUT_DIR = inl e ->
     convert_model E w = (Raise e, World (unread w) (log w ++ before_pipeline))) /\
  (forall e w',
     convert_model E w = (Raise e, w') ->
     (imports E = inl e /\ isinstance e "ImportError" = false) \/
     (imports E = inr tt /\ mkdir E OUTPUT_DIR = inl e) \/
     (imports E = inr tt /\ mkdir E OUTPUT_DIR = inr tt /\
      pipeline E (World (unread w) (log w ++ before_pipeline)) = (Raise e, w') /\
      isinstance e "Exception" = false)) /\
  (forall c w', convert_model E w = (Exit c, w') -> c = 1%Z).
Proof.
  split; [intros e; apply convert_model_mkdir_fails|].
  destruct (imports E) as [e0|[]] eqn:Hi.
  - rewrite (convert_model_imports_fail E w e0 Hi).
    destruct (isinstance e0 "ImportError") eqn:He; split.
    + discriminate.
    + now intros c w' [= <- _].
    + intros e w' [= <- _]. now left.
    + discriminate.
  - destruct (mkdir E OUTPUT_DIR) as [e0|[]] eqn:Hm.
    + rewrite (convert_model_mkdir_fails E w e0 Hi Hm). split.
      * intros e w' [= <- _]. right. now left.
      * discriminate.
    + rewrite (ConvertProofs.convert_model_run E w Hi Hm).
      destruct (pipeline E _) as [[[]|c|e] w1] eqn:Hp.
      * split; discriminate.
      * now apply ConvertProofs.pipeline_never_exits in Hp.
      * destruct (isinstance e "Exception") eqn:He; split; try discriminate.
        -- now intros c w' [= <- _].
        -- intros e' w' [= <- <-]. right. right. auto.
Qed.

Lemma directory_creation_is_not_guarded_witness :
  convert_model Demo.read_only_env (start []) =
  (Raise (Exn "PermissionError" "[Errno 13] Permission denied: 'models'"),
   World [] before_pipeline).
Proof.
  exact (proj1 (directory_creation_is_not_guarded Demo.read_only_env (start []))
               _ eq_refl eq_refl).
Defined.

(** ** A failing smoke test *)

Lemma adds_smoke_test E tok m om texts :
  adds (fun _ => True) (for_each (test_one E tok m om) texts).
Proof.
  apply adds_for_each. intros text. unfold test_one. adds_steps; exact I.
Qed.

(** X15.  The smoke test comes after the export has been saved: when it
    raises, the converter reports the error and exits with status 1 (an
    exception that is not an instance of [Exception] passes through
    instead), but the ONNX model and the tokenizer have already been
    written to the output directory. *)
Theorem failed_smoke_test_leaves_the_export E w tok m om e w1 :
  imports E = inr tt ->
  mkdir E OUTPUT_DIR = inr tt ->
  tokenizer_from_pretrained E MODEL_NAME = inr tok ->
  model_from_pretrained E MODEL_NAME = inr m ->
  onnx_from_pretrained E MODEL_NAME = inr om ->
  onnx_save_pretrained E om OUTPUT_DIR = inr tt ->
  tokenizer_save_pretrained E tok OUTPUT_DIR = inr tt ->
  for_each (test_one E tok m om) test_texts
    (World (unread w) ((log w ++ before_pipeline) ++ upto_test)) = (Raise e, w1) ->
  (isinstance e "Exception" = true ->
   convert_model E w = (Exit 1, World (unread w1) (log w1 ++ error_report e))) /\
  (isinstance e "Exception" = false -> convert_model E w = (Raise e, w1)) /\
  exists before after,
    log w1 =
      log w ++ before ++ SaveOnnx OUTPUT_DIR :: SaveTokenizer OUTPUT_DIR :: after /\
    forall text, ~ In (Infer text) before.
Proof.
  intros Hi Hmk Ht Hm Ho Hs Hts Htest.
  rewrite (ConvertProofs.convert_model_run E w Hi Hmk), ConvertProofs.pipeline_run.
  rewrite Ht, Hm, Ho, Hs, Hts. cbn zeta. cbn [unread log]. rewrite Htest.
  split; [now intros ->|]. split; [now intros ->|].
  destruct (adds_smoke_test E tok m om test_texts
              (World (unread w) ((log w ++ before_pipeline) ++ upto_test)))
    as (said & Hlog & _).
  rewrite Htest in Hlog. cbn [snd log] in Hlog.
  exists (before_pipeline
          ++ [ Print [Lit "1️⃣  Loading original PyTorch model..."];
               LoadTokenizer MODEL_NAME; LoadModel MODEL_NAME;
               Print [Lit "   ✓ Model loaded successfully"];
               Print [Lit nl; Lit "2️⃣  Converting to ONNX format..."];
               ExportOnnx MODEL_NAME;
               Print [Lit "   ✓ Conversion successful"];
               Print [Lit nl; Lit "3️⃣  Saving ONNX model and tokenizer..."] ]).
  eexists. split.
  - rewrite Hlog. unfold upto_test, upto_save_tokenizer, upto_save_model,
      upto_export, upto_model, upto_tokenizer.
    rewrite <- !app_assoc. cbn [app]. reflexivity.
  - intros text Hin. unfold before_pipeline in Hin. cbn in Hin.
    repeat (destruct Hin as [Hin|Hin]; [discriminate|]). exact Hin.
Qed.

Lemma failed_smoke_test_leaves_the_export_witness :
  let E := Demo.convert_env [] in
  convert_model E (start []) =
    (Exit 1,
     World []
       (before_pipeline ++ upto_test
        ++ [ Encode "This is hilarious! I can't stop laughing!";
             Infer "This is hilarious! I can't stop laughing!" ]
        ++ error_report
             (Exn "IndexError" "argmax(): Expected reduction dim 1 to have non-zero size"))).
Proof.
  intros E.
  exact (proj1 (failed_smoke_test_leaves_the_export E (start [])
                  (Tokenizer MODEL_NAME)
                  (Model MODEL_NAME [(0, "NO_HUMOR"); (1, "HUMOR")]%Z)
                  (OnnxModel MODEL_NAME)
                  (Exn "IndexError"
                     "argmax(): Expected reduction dim 1 to have non-zero size")
                  (World []
                     (before_pipeline ++ upto_test
                      ++ [ Encode "This is hilarious! I can't stop laughing!";
                           Infer "This is hilarious! I can't stop laughing!" ]))
                  eq_refl eq_refl eq_refl eq_refl eq_refl eq_refl eq_refl eq_refl)
           eq_refl).
Defined.

(** ** The confidence *)

Lemma argmax_is_largest scores k :
  argmax scores = inr k ->
  (k < length scores)%nat /\
  forall x, In x scores -> (x <= nth k scores 0)%R.
Proof.
  intros Ha. destruct (ConvertProofs.argmax_first_largest scores k Ha) as (Hk & Hmax & _).
  split; [exact Hk|]. intros x Hx.
  destruct (In_nth scores x 0%R Hx) as (j & Hj & <-). now apply Hmax.
Qed.

Lemma sum_exp_le_length scores top :
  (forall x, In x scores -> (x <= top)%R) ->
  (sum_exp scores <= INR (length scores) * exp top)%R.
Proof.
  induction scores as [|x scores IH]; intros Htop.
  - cbn. lra.
  - rewrite ConvertProofs.sum_exp_cons. cbn [length]. rewrite S_INR.
    assert (Hx : (exp x <= exp top)%R).
    { destruct (Rle_lt_or_eq_dec x top (Htop x (or_introl eq_refl))) as [Hlt| ->].
      - left. now apply exp_increasing.
      - lra. }
    assert (Hrest : (sum_exp scores <= INR (length scores) * exp top)%R)
      by (apply IH; intros y Hy; apply Htop; now right).
    lra.
Qed.

Lemma softmax_sums_to_one scores :
  scores <> [] -> fold_right Rplus 0%R (softmax scores) = 1%R.
Proof.
  intros Hne.
  assert (Hpos : (0 < sum_exp scores)%R).
  { destruct scores as [|x scores]; [congruence|].
    rewrite ConvertProofs.sum_exp_cons.
    pose proof (exp_pos x). pose proof (ConvertProofs.sum_exp_nonneg scores). lra. }
  assert (Hgen : forall l s,
    fold_right Rplus 0%R (map (fun x => (exp x / s)%R) l) = (sum_exp l / s)%R).
  { intros l s. induction l as [|x l IH]; cbn.
    - unfold Rdiv. now rewrite Rmult_0_l.
    - rewrite IH. fold (sum_exp l). unfold Rdiv. lra. }
  unfold softmax. rewrite Hgen. field. lra.
Qed.

(** X16.  The confidence the smoke test prints is the largest probability
    of the softmax, whose entries sum to 1; so it is at least one over the
    number of classes, which is one half for the two classes of this
    model. *)
Theorem confidence_is_the_largest_probability E tok m om text p :
  predicted E tok m om text p ->
  exists inputs logits,
    encode E tok text = inr inputs /\
    forward E om inputs = inr logits /\
    fold_right Rplus 0%R (softmax logits) = 1%R /\
    (forall q, In q (softmax logits) -> (q <= snd p)%R) /\
    (/ INR (length logits) <= snd p)%R /\
    (length logits = 2%nat -> (1 / 2 <= snd p)%R).
Proof.
  intros (inputs & logits & k & He & Hf & Ha & _ & Hp).
  exists inputs, logits. split; [exact He|]. split; [exact Hf|].
  destruct (argmax_is_largest logits k Ha) as (Hk & Hmax).
  assert (Hne : logits <> []) by (destruct logits; [cbn in Hk; lia | discriminate]).
  assert (Hpos : (0 < sum_exp logits)%R).
  { destruct logits as [|x logits]; [congruence|].
    rewrite ConvertProofs.sum_exp_cons.
    pose proof (exp_pos x). pose proof (ConvertProofs.sum_exp_nonneg logits). lra. }
  assert (Hn : (0 < INR (length logits))%R) by (apply lt_0_INR; lia).
  rewrite Hp, (ConvertProofs.softmax_nth logits k Hk).
  assert (Hbound : (/ INR (length logits) <= exp (nth k logits 0) / sum_exp logits)%R).
  { pose proof (sum_exp_le_length logits (nth k logits 0%R) Hmax) as Hsum.
    pose proof (exp_pos (nth k logits 0%R)) as He0.
    apply (Rmult_le_reg_r (INR (length logits) * sum_exp logits)).
    - now apply Rmult_lt_0_compat.
    - field_simplify; lra. }
  split; [now apply softmax_sums_to_one|]. split; [|split].
  - intros q Hq. unfold softmax in Hq. apply in_map_iff in Hq as (x & <- & Hx).
    specialize (Hmax x Hx).
    assert (Hx' : (exp x <= exp (nth k logits 0))%R).
    { destruct (Rle_lt_or_eq_dec _ _ Hmax) as [Hlt|Heq].
      - left. now apply exp_increasing.
      - rewrite Heq. lra. }
    unfold Rdiv. apply Rmult_le_compat_r; [|exact Hx'].
    left. now apply Rinv_0_lt_compat.
  - exact Hbound.
  - intros H2. rewrite H2 in Hbound. cbn in Hbound. lra.
Qed.

Lemma missing_package_exits_first_witness :
  convert_model Demo.missing_torch_env (start []) =
  (Exit 1, World [] (missing_package (Exn "ModuleNotFoundError" "No module named 'torch'"))).
Proof.
  exact (proj1 (missing_package_exits_first Demo.missing_torch_env (start [])
                  (Exn "ModuleNotFoundError" "No module named 'torch'") eq_refl)
               eq_refl).
Defined.

Lemma confidence_is_the_largest_probability_witness :
  let E := Demo.convert_env [0; 1]%R in
  let confidence := nth 1 (softmax [0; 1]%R) 0%R in
  (1 / 2 <= confidence)%R.
Proof.
  intros E confidence.
  assert (Hp : predicted E (Tokenizer MODEL_NAME)
                 (Model MODEL_NAME [(0, "NO_HUMOR"); (1, "HUMOR")]%Z)
                 (OnnxModel MODEL_NAME) "Knock knock." ("HUMOR", confidence)).
  { eexists _, [0; 1]%R, 1%nat. split; [reflexivity|]. split; [reflexivity|].
    split; [|split; reflexivity].
    unfold argmax. cbn. destruct (Rle_dec 1 0) as [H|H]; [lra | reflexivity]. }
  destruct (confidence_is_the_largest_probability E _ _ _ _ _ Hp)
    as (inputs & logits & _ & Hf & _ & _ & _ & Hhalf).
  injection Hf as <-. exact (Hhalf eq_refl).
Defined.

End ConvertMore.
